(** * The DUSt3R reconstruction and export pipeline (inference.py)

    A shallow embedding of [src/inference.py]: the GLB converter, the export
    entry point [get_3D_model_from_scene], the orchestrator
    [get_reconstructed_scene] with its diagnostic gallery, and the two
    persistence helpers [save_camera_poses] and [save_point_to_ply].

    Conventions of the embedding.
    - Floating-point numbers are the elements of a real field [R]; matrices
      are MathComp matrices over [R], [np.linalg.inv] is [invmx] guarded by
      [unitmx], so all statements are statements of exact arithmetic.
    - A per-view pixel grid of [H] rows and [W] columns is the list of its
      [H * W] pixels in row-major order, the order in which numpy's boolean
      indexing [p[m]] enumerates them.
    - Python is dynamically typed and the orchestrator passes arguments by
      position: arguments that travel through such calls are values of
      [pyval], and attribute access on a value that is not an object raises
      [AttributeError].
    - Scene objects live in a store and are handled through references, so
      that the rebinding [scene = scene.clean_pointcloud()] and the attribute
      assignment [scene.min_conf_thr = ...] act on the object they act on in
      Python.
    - Calls into numpy, trimesh, open3d, json and the operating system are
      total on the values they are given here, apart from the exceptions
      written out below; the file system is a table from paths to contents. *)

From HB Require Import structures.
From mathcomp Require Import boot order algebra.
From Stdlib Require Import String Ascii DecimalString.

Set Implicit Arguments.
Unset Strict Implicit.
Unset Printing Implicit Defensive.

Import GRing.Theory Num.Theory Order.Theory.

Local Open Scope ring_scope.

(** ** Strings *)

HB.instance Definition _ := hasDecEq.Build string String.eqb_spec.

Local Notation "a ^^ b" := (String.append a b)
  (at level 35, right associativity).

(** [str(n)] for a non-negative integer. *)
Definition py_str_nat (n : nat) : string :=
  NilZero.string_of_uint (Nat.to_uint n).

Definition startswith_sep (s : string) : bool :=
  if s is String c _ then Ascii.eqb c "/"%char else false.

Fixpoint endswith_sep (s : string) : bool :=
  match s with
  | EmptyString => false
  | String c EmptyString => Ascii.eqb c "/"%char
  | String _ s' => endswith_sep s'
  end.

(** [os.path.join(a, b)] of posixpath, for two components. *)
Definition os_path_join (a b : string) : string :=
  if startswith_sep b then b
  else if (a == EmptyString) || endswith_sep a then a ^^ b
  else a ^^ "/"%string ^^ b.

(** ** Exceptions and outcomes *)

Inductive exn : Type :=
  | AssertionError
  | AttributeError
  | IndexError
  | ValueError
  | TypeError
  | RuntimeError
  | LinAlgError.

Inductive outcome (A : Type) : Type :=
  | Ok (a : A)
  | Raise (e : exn).

Arguments Ok {A} a.
Arguments Raise {A} e.

Definition is_ok {A} (o : outcome A) : bool :=
  if o is Ok _ then true else false.

(** Pure computations that may raise. *)
Definition obind {A B} (o : outcome A) (f : A -> outcome B) : outcome B :=
  match o with
  | Ok a => f a
  | Raise e => Raise e
  end.

(** [xs[i]] on a Python list or on the first axis of an array. *)
Definition py_index {A} (xs : seq A) (i : nat) : outcome A :=
  if ohead (drop i xs) is Some x then Ok x else Raise IndexError.

(** [[f(x) for x in xs]] where [f] may raise: the first exception wins. *)
Fixpoint omapM {A B} (f : A -> outcome B) (xs : seq A) : outcome (seq B) :=
  match xs with
  | [::] => Ok [::]
  | x :: xs' =>
      obind (f x) (fun y => obind (omapM f xs') (fun ys => Ok (y :: ys)))
  end.

(** ** numpy *)

(** [p[m]] with a boolean mask [m] of the shape of [p]'s pixel grid. *)
Definition np_bool_index {A} (p : seq A) (m : seq bool) : outcome (seq A) :=
  if size p == size m then Ok (mask m p) else Raise IndexError.

(** [np.concatenate(arrays)]: at least one array is needed. *)
Definition np_concatenate {A} (arrays : seq (seq A)) : outcome (seq A) :=
  if arrays is [::] then Raise ValueError else Ok (flatten arrays).

Section Numeric.

Variable R : realFieldType.

(** Python's built-in [max] over a list: the first maximal element. *)
Definition py_max (xs : seq R) : outcome R :=
  if xs is x :: xs' then Ok (foldl (fun m y => if m < y then y else m) x xs')
  else Raise ValueError.

(** [d.max()] of an array: a zero-size array has no maximum. *)
Definition np_max (d : seq R) : outcome R := py_max d.

(** [np.linalg.inv]. *)
Definition np_linalg_inv (A : 'M[R]_4) : outcome 'M[R]_4 :=
  if A \in unitmx then Ok (invmx A) else Raise LinAlgError.

(** [Rotation.from_euler("y", np.deg2rad(180)).as_matrix()]: the rotation by
    the angle [theta] about the y axis is
    [[cos theta, 0, sin theta], [0, 1, 0], [-sin theta, 0, cos theta]];
    at 180 degrees the cosine is [-1] and the sine is [0]. *)
Definition Rotation_y_180 : 'M[R]_3 :=
  \matrix_(i < 3, j < 3)
    (if (i : nat) == j then (if (i : nat) == 1%N then 1 else -1) else 0).

(** [rot = np.eye(4); rot[:3, :3] = Rotation...as_matrix()]. *)
Definition rot : 'M[R]_4 := block_mx Rotation_y_180 0 0 1%:M.

End Numeric.

(** ** Data *)

Section Data.

Variable R : realFieldType.

Definition vec3 : Type := (R * R * R)%type.

(** An RGB image and a point map: one colour, one 3D point per pixel. *)
Definition image : Type := seq vec3.
Definition pointmap : Type := seq vec3.
Definition confmap : Type := seq R.

(** Values of the arguments that are passed along by position. [PyRef r] is
    the scene object stored at index [r] of the store. *)
Inductive pyval : Type :=
  | PyNone
  | PyBool (b : bool)
  | PyNum (x : R)
  | PyStr (s : string)
  | PyRef (r : nat).

(** Truth value of a Python value in [if v:]. *)
Definition py_truth (v : pyval) : bool :=
  match v with
  | PyNone => false
  | PyBool b => b
  | PyNum x => x != 0
  | PyStr s => s != EmptyString
  | PyRef _ => true
  end.

(** Modelled from the spec: the scene class of dust3r.cloud_opt is not under
    src/. Section 3 lists the attributes of SceneState: per-view RGB
    images, point maps, confidence maps, camera-to-world poses (4x4) and
    focal lengths, and the scalar [min_conf_thr]; [conf_trf] is "the
    scene's confidence-transform function" of section 4.3. *)
Record SceneState : Type := mkScene {
  scene_imgs : seq image;
  scene_pts3d : seq pointmap;
  scene_im_conf : seq confmap;
  scene_im_poses : seq 'M[R]_4;
  scene_focals : seq R;
  scene_min_conf_thr : R;
  scene_conf_trf : R -> R
}.

(** [scene.min_conf_thr = x]. *)
Definition with_min_conf_thr (x : R) (s : SceneState) : SceneState :=
  mkScene (scene_imgs s) (scene_pts3d s) (scene_im_conf s) (scene_im_poses s)
    (scene_focals s) x (scene_conf_trf s).

Definition with_im_conf (c : seq confmap) (s : SceneState) : SceneState :=
  mkScene (scene_imgs s) (scene_pts3d s) c (scene_im_poses s) (scene_focals s)
    (scene_min_conf_thr s) (scene_conf_trf s).

(** Modelled from the spec: the meshes of dust3r.viz are not under src/.
    Section 3, ExportArtifact: a mesh is "vertices/faces/colors", a point
    cloud a "flat array of 3D points + matching colors". *)
Record mesh : Type := mkMesh {
  vertices : seq vec3;
  faces : seq (nat * nat * nat);
  face_colors : seq vec3
}.

Inductive geometry : Type :=
  | PointCloud (points : seq vec3) (colors : seq vec3)
  | Trimesh (m : mesh).

(** [trimesh.Scene]: the geometries added so far and the transform of the
    base frame, which [apply_transform] composes on the left. *)
Record trimesh_Scene : Type := mkTrimeshScene {
  scene_geometry : seq geometry;
  base_transform : 'M[R]_4
}.

Definition trimesh_Scene_new : trimesh_Scene := mkTrimeshScene [::] 1%:M.

Definition add_geometry (g : geometry) (s : trimesh_Scene) : trimesh_Scene :=
  mkTrimeshScene (rcons (scene_geometry s) g) (base_transform s).

Definition apply_transform (T : 'M[R]_4) (s : trimesh_Scene) : trimesh_Scene :=
  mkTrimeshScene (scene_geometry s) (T *m base_transform s).

(** JSON documents as [json.dump] receives them. *)
Inductive json : Type :=
  | JNum (x : R)
  | JStr (s : string)
  | JArr (items : seq json)
  | JObj (members : seq (string * json)).

Inductive file_content : Type :=
  | EmptyFile
  | GlbFile (s : trimesh_Scene)
  | JsonFile (j : json)
  | PlyFile (points : seq (seq R)).

(** The alignment session's calls, in the order they are made. *)
Inductive GlobalAlignerMode : Type := PointCloudOptimizer | PairViewer.

Inductive call : Type :=
  | Call_global_aligner (mode : GlobalAlignerMode)
  | Call_compute_global_alignment
      (init : string) (niter : nat) (schedule : string) (lr : R).

(** The store of scene objects, the file system and the call log. *)
Record World : Type := mkWorld {
  heap : seq SceneState;
  files : seq (string * file_content);
  calls : seq call
}.

(** Loaded images ([dust3r.utils.image.load_images]): dictionaries of which
    the orchestrator touches the key [idx]. *)
Record view : Type := mkView {
  view_img : image;
  idx : nat
}.

(** Arrays shown in the gallery: a map of scalars, of RGB triples or of the
    RGBA quadruples a colormap returns. *)
Definition rgba : Type := (R * R * R * R)%type.

Inductive ndarray : Type :=
  | Gray (d : seq R)
  | Color (c : seq vec3)
  | Rgba (c : seq rgba).

(** A two-dimensional array: [shape = (size rows, ncols)]. *)
Record array2 : Type := mkArray2 {
  ncols : nat;
  rows : seq (seq R)
}.

Definition array2_wf (a : array2) : bool :=
  all (fun r => size r == ncols a) (rows a).

(** [points[:, :3]]. *)
Definition slice_cols3 (a : array2) : array2 :=
  mkArray2 (minn 3 (ncols a)) [seq take 3 r | r <- rows a].

(** The collaborators that are not part of [inference.py], taken as
    parameters: functions of the dust3r package, matplotlib's colormap and
    Python's [str]. *)
Record externals : Type := mkExternals {
  model_t : Type;
  output_t : Type;
  (* dust3r.utils.image *)
  load_images : seq string -> nat -> seq view;
  rgb : ndarray -> ndarray;
  (* dust3r.image_pairs, dust3r.inference *)
  make_pairs : seq view -> string -> seq (view * view);
  inference : seq (view * view) -> model_t -> string -> nat -> output_t;
  (* dust3r.cloud_opt *)
  global_aligner : output_t -> string -> GlobalAlignerMode -> SceneState;
  compute_global_alignment :
    SceneState -> string -> nat -> string -> R -> SceneState * R;
  get_depthmaps : SceneState -> seq (seq R);
  depth_outlier : SceneState -> nat -> nat -> bool;
  segment_sky : image -> nat -> bool;
  (* dust3r.viz *)
  OPENGL : 'M[R]_4;
  pts3d_to_trimesh : image -> pointmap -> seq bool -> mesh;
  cat_meshes : seq mesh -> mesh;
  (* matplotlib: pl.get_cmap("jet") *)
  cmap_jet : R -> rgba;
  (* str() of a number and of an object *)
  str_num : R -> string;
  str_obj : nat -> string
}.

End Data.

Arguments PyNone {R}.
Arguments PyBool {R} b.
Arguments PyStr {R} s.
Arguments PyRef {R} r.
Arguments JStr {R} s.
Arguments EmptyFile {R}.

(** ** The program *)

Section Program.

Variable R : realFieldType.
Variable E : externals R.

(** Computations act on the world and may raise; what was done before an
    exception stays done. *)
Definition M (A : Type) : Type := World R -> outcome A * World R.

Definition ret {A} (a : A) : M A := fun w => (Ok a, w).

Definition raise {A} (e : exn) : M A := fun w => (Raise e, w).

Definition bind {A B} (c : M A) (k : A -> M B) : M B :=
  fun w =>
    match c w with
    | (Ok a, w') => k a w'
    | (Raise e, w') => (Raise e, w')
    end.

Definition lift {A} (o : outcome A) : M A := fun w => (o, w).

Notation "'let!' x ':=' c 'in' k" := (bind c (fun x => k))
  (at level 10, x pattern, c at level 100, k at level 200).

Definition py_assert (b : bool) : M unit :=
  if b then ret tt else raise AssertionError.

(** *** The store of scene objects *)

Definition lookup_scene (w : World R) (v : pyval R) : outcome (SceneState R) :=
  if v is PyRef r then
    if ohead (drop r (heap w)) is Some s then Ok s else Raise AttributeError
  else Raise AttributeError.

(** Reading any attribute of [v] needs [v] to be a scene object. *)
Definition scene_of (v : pyval R) : M (SceneState R) :=
  fun w => (lookup_scene w v, w).

Definition new_object (s : SceneState R) : M (pyval R) :=
  fun w =>
    (Ok (PyRef (size (heap w))), mkWorld (rcons (heap w) s) (files w) (calls w)).

Definition store_scene (v : pyval R) (s : SceneState R) : M unit :=
  fun w =>
    if v is PyRef r then
      if (r < size (heap w))%N then
        (Ok tt, mkWorld (set_nth s (heap w) r s) (files w) (calls w))
      else (Raise AttributeError, w)
    else (Raise AttributeError, w).

(** [scene.min_conf_thr = x]. *)
Definition setattr_min_conf_thr (v : pyval R) (x : R) : M unit :=
  let! s := scene_of v in store_scene v (with_min_conf_thr x s).

Definition log_call (c : call R) : M unit :=
  fun w => (Ok tt, mkWorld (heap w) (files w) (rcons (calls w) c)).

(** *** The file system *)

Definition fs_write (path : string) (c : file_content R)
    (fs : seq (string * file_content R)) : seq (string * file_content R) :=
  (path, c) :: [seq p <- fs | p.1 != path].

Definition fs_read (path : string) (fs : seq (string * file_content R)) :
    option (file_content R) :=
  if [seq p <- fs | p.1 == path] is p :: _ then Some p.2 else None.

Definition os_path_isfile (path : string) : M bool :=
  fun w => (Ok (has (fun p => p.1 == path) (files w)), w).

Definition write_file (path : string) (c : file_content R) : M unit :=
  fun w => (Ok tt, mkWorld (heap w) (fs_write path c (files w)) (calls w)).

(** *** Scene methods of dust3r.cloud_opt *)

Definition mapi {A B} (f : nat -> A -> B) (s : seq A) : seq B :=
  [seq f p.1 p.2 | p <- zip (iota 0 (size s)) s].

(** Modelled from the spec: [clean_pointcloud] of dust3r.cloud_opt is not
    under src/. Section 4.3: the post-processing works "on a working copy"
    and removes "depth outliers per view using the scene's own internal
    consistency check", narrowing the masks. The copy is the scene with the
    confidence of every outlier pixel lowered to at most zero; which pixels
    are outliers is left to [depth_outlier]. A lowered pixel is out of
    every mask whose threshold is positive; at a threshold of zero or
    less it stays in. *)
Definition clean_pointcloud_copy (s : SceneState R) : SceneState R :=
  with_im_conf
    (mapi (fun i conf =>
       mapi (fun j c => if depth_outlier E s i j then Num.min c 0 else c) conf)
       (scene_im_conf s)) s.

Definition clean_pointcloud (self : pyval R) : M (pyval R) :=
  let! s := scene_of self in new_object (clean_pointcloud_copy s).

(** Modelled from the spec: [mask_sky] of dust3r.cloud_opt is not under
    src/. Section 4.3: on a working copy, "remove pixels classified as
    sky"; the classifier is [segment_sky], applied to each view's image.
    A sky pixel's confidence is lowered to at most zero, as for the depth
    outliers, so it is out of every mask whose threshold is positive. *)
Definition mask_sky_copy (s : SceneState R) : SceneState R :=
  with_im_conf
    (mapi (fun i conf =>
       mapi (fun j c =>
         if segment_sky E (nth [::] (scene_imgs s) i) j then Num.min c 0 else c)
         conf)
       (scene_im_conf s)) s.

Definition mask_sky_method (self : pyval R) : M (pyval R) :=
  let! s := scene_of self in new_object (mask_sky_copy s).

(** Modelled from the spec: [get_masks] of dust3r.cloud_opt is not under
    src/. Section 3, MaskedGeometry: a pixel is kept when its
    "confidence >= threshold", the threshold being the scene's
    [min_conf_thr]. *)
Definition get_masks (s : SceneState R) : seq (seq bool) :=
  [seq [seq scene_min_conf_thr s <= c | c <- conf] | conf <- scene_im_conf s].

(** [float(scene.conf_trf(torch.tensor(v)))]: the tensor of a number, or of a
    boolean read as 0 or 1; other values are not tensor data. *)
Definition torch_tensor (v : pyval R) : outcome R :=
  match v with
  | PyNum x => Ok x
  | PyBool b => Ok (b%:R)
  | _ => Raise TypeError
  end.

(** [f"{v}"]. *)
Definition py_format (v : pyval R) : string :=
  match v with
  | PyNone => "None"%string
  | PyBool b => if b then "True"%string else "False"%string
  | PyNum x => str_num E x
  | PyStr s => s
  | PyRef r => str_obj E r
  end.

(** *** _convert_scene_output_to_glb (lines 52-113) *)

(** The chained comparison of the assertion at line 65. *)
Definition converter_lengths_ok (imgs : seq (image R)) (pts3d : seq (pointmap R))
    (mask : seq (seq bool)) (focals : seq R) (cams2world : seq 'M[R]_4) : bool :=
  [&& size pts3d == size mask, (size mask <= size imgs)%N,
      (size imgs <= size cams2world)%N & size cams2world == size focals].

(** [np.concatenate([p[m] for p, m in zip(arrays, mask)])]. *)
Definition concat_masked {A} (arrays : seq (seq A)) (mask : seq (seq bool)) :
    outcome (seq A) :=
  obind (omapM (fun pm => np_bool_index pm.1 pm.2) (zip arrays mask))
    np_concatenate.

Definition _convert_scene_output_to_glb (outdir : string) (scene_name : pyval R)
    (imgs : seq (image R)) (pts3d : seq (pointmap R)) (mask : seq (seq bool))
    (focals : seq R) (cams2world : seq 'M[R]_4)
    (cam_size cam_color as_pointcloud transparent_cams : pyval R) : M string :=
  let! _ := py_assert (converter_lengths_ok imgs pts3d mask focals cams2world) in
  let scene := trimesh_Scene_new R in
  let! scene :=
    (if py_truth as_pointcloud then
       let! pts := lift (concat_masked pts3d mask) in
       let! col := lift (concat_masked imgs mask) in
       let pct := PointCloud pts col in
       ret (add_geometry pct scene)
     else
       let! meshes :=
         lift (omapM (fun i =>
                 obind (py_index imgs i) (fun im =>
                 obind (py_index pts3d i) (fun p =>
                 obind (py_index mask i) (fun m =>
                 Ok (pts3d_to_trimesh E im p m)))))
               (iota 0 (size imgs))) in
       let mesh := Trimesh (cat_meshes E meshes) in
       ret (add_geometry mesh scene)) in
  let type :=
    if py_truth as_pointcloud then "pointcloud"%string else "mesh"%string in
  let! c0 := lift (py_index cams2world 0) in
  let! T := lift (np_linalg_inv (c0 *m OPENGL E *m rot R)) in
  let scene := apply_transform T scene in
  let outfile :=
    os_path_join outdir
      (py_format scene_name ^^ "_"%string ^^ type ^^ ".glb"%string) in
  let! _ := write_file outfile (GlbFile scene) in
  ret outfile.

(** *** get_3D_model_from_scene (lines 116-157) *)

(** Lines 132-145: the post-processing and the values read off the scene,
    in the order [(rgbimg, pts3d, msk, focals, cams2world)] in which they
    are handed to the converter. *)
Definition get_optimized_values
    (scene min_conf_thr mask_sky clean_depth : pyval R) :
    M (seq (image R) * seq (pointmap R) * seq (seq bool) * seq R * seq 'M[R]_4) :=
  let! scene :=
    (if py_truth clean_depth then clean_pointcloud scene else ret scene) in
  let! scene :=
    (if py_truth mask_sky then mask_sky_method scene else ret scene) in
  let! s := scene_of scene in
  let rgbimg := scene_imgs s in
  let focals := scene_focals s in
  let cams2world := scene_im_poses s in
  let pts3d := scene_pts3d s in
  let! thr := lift (torch_tensor min_conf_thr) in
  let! _ := setattr_min_conf_thr scene (scene_conf_trf s thr) in
  let! s := scene_of scene in
  let msk := get_masks s in
  ret (rgbimg, pts3d, msk, focals, cams2world).

Definition get_3D_model_from_scene (outdir : string)
    (scene_name scene min_conf_thr as_pointcloud mask_sky clean_depth
       transparent_cams cam_size : pyval R) : M (pyval R) :=
  if scene is PyNone then ret PyNone
  else
    let! vals := get_optimized_values scene min_conf_thr mask_sky clean_depth in
    let '(rgbimg, pts3d, msk, focals, cams2world) := vals in
    let! outfile :=
      _convert_scene_output_to_glb outdir scene_name rgbimg pts3d msk focals
        cams2world cam_size PyNone as_pointcloud transparent_cams in
    ret (PyStr outfile).

(** Default values of the keyword parameters (lines 120-125). *)
Definition default_min_conf_thr : pyval R := PyNum 3.
Definition default_cam_size : pyval R := PyNum (5 / 100).

(** *** get_reconstructed_scene (lines 160-238) *)

Definition batch_size : nat := 1.

Definition call_global_aligner (output : output_t E) (device : string)
    (mode : GlobalAlignerMode) : M (pyval R) :=
  let! _ := log_call (Call_global_aligner R mode) in
  new_object (global_aligner output device mode).

(** [scene.compute_global_alignment(...)] optimizes the scene in place and
    returns the final loss. *)
Definition call_compute_global_alignment (scene : pyval R) (init : string)
    (niter : nat) (schedule : string) (lr : R) : M R :=
  let! s := scene_of scene in
  let! _ := log_call (Call_compute_global_alignment init niter schedule lr) in
  let r := compute_global_alignment E s init niter schedule lr in
  let! _ := store_scene scene r.1 in
  ret r.2.

(** Lines 182-185: the loaded views, a single view being duplicated. *)
Definition resolved_views (image_size : nat) (filelist : seq string) :
    seq (view R) :=
  let imgs := load_images E filelist image_size in
  if imgs is [:: im] then [:: im; mkView (view_img im) 1] else imgs.

(** Lines 227-228 and 229-230: [m = max([d.max() for d in arrays])] and
    [[d / m for d in arrays]]. The division is the field's: at a maximum
    of zero, where numpy yields nan or inf, the quotients stand for
    neither, and the statements about them take the maximum non-zero. *)
Definition div_by_global_max (arrays : seq (seq R)) : outcome (seq (seq R)) :=
  obind (obind (omapM (@np_max R) arrays) (@py_max R)) (fun arrays_max =>
  Ok [seq [seq x / arrays_max | x <- d] | d <- arrays]).

Definition get_reconstructed_scene (outdir : string) (model : model_t E)
    (device : string) (image_size : nat) (filelist : seq string)
    (schedule : string) (niter : nat)
    (min_conf_thr as_pointcloud mask_sky clean_depth transparent_cams
       cam_size : pyval R)
    (scenegraph_type : string) (winsize refid : nat) :
    M (pyval R * pyval R * seq (ndarray R)) :=
  let imgs := resolved_views image_size filelist in
  let scenegraph_type :=
    if scenegraph_type == "swin"%string then
      scenegraph_type ^^ "-"%string ^^ py_str_nat winsize
    else if scenegraph_type == "oneref"%string then
      scenegraph_type ^^ "-"%string ^^ py_str_nat refid
    else scenegraph_type in
  let pairs := make_pairs E imgs scenegraph_type in
  let output := inference pairs model device batch_size in
  let mode := if (2 < size imgs)%N then PointCloudOptimizer else PairViewer in
  let! scene := call_global_aligner output device mode in
  let lr := 1 / 100 in
  let! _ :=
    (if mode is PointCloudOptimizer then
       let! loss :=
         call_compute_global_alignment scene "mst"%string niter schedule lr in
       ret tt
     else ret tt) in
  (* the eight arguments are bound by position to the first eight
     parameters of get_3D_model_from_scene *)
  let! outfile :=
    get_3D_model_from_scene outdir scene min_conf_thr as_pointcloud mask_sky
      clean_depth transparent_cams cam_size default_cam_size in
  let! s := scene_of scene in
  let rgbimg := scene_imgs s in
  let! depths := lift (div_by_global_max (get_depthmaps E s)) in
  let! confs := lift (div_by_global_max (scene_im_conf s)) in
  let confs := [seq [seq cmap_jet E x | x <- d] | d <- confs] in
  let! imgs :=
    lift (omapM (fun i =>
            obind (py_index rgbimg i) (fun im =>
            obind (py_index depths i) (fun d =>
            obind (py_index confs i) (fun c =>
            Ok [:: Color im; rgb E (Gray d); rgb E (Rgba c)]))))
          (iota 0 (size rgbimg))) in
  ret (scene, outfile, flatten imgs).

(** *** save_camera_poses (lines 486-498) *)

(** [pose.tolist()]: the rows of the matrix as nested lists. *)
Definition tolist (pose : 'M[R]_4) : seq (seq R) :=
  [seq [seq pose i j | j <- enum 'I_4] | i <- enum 'I_4].

(** A nested list of four rows of four entries. *)
Definition is_4x4 (m : seq (seq R)) : bool :=
  (size m == 4%N) && all (fun row => size row == 4%N) m.

(** [d[k] = v] on a dictionary, kept in insertion order: an existing key
    keeps its place and takes the new value. *)
Definition dict_set {V} (k : string) (v : V) (d : seq (string * V)) :
    seq (string * V) :=
  if has (fun p => p.1 == k) d then
    [seq (if p.1 == k then (k, v) else p) | p <- d]
  else rcons d (k, v).

Definition dict_get {V} (k : string) (d : seq (string * V)) : option V :=
  if [seq p <- d | p.1 == k] is p :: _ then Some p.2 else None.

Definition json_of_pose (m : seq (seq R)) : json R :=
  JArr [seq JArr [seq JNum x | x <- row] | row <- m].

(** [json.dump({"extrinsics": M_ext}, f)]. *)
Definition json_dump_extrinsics (M_ext : seq (string * seq (seq R))) : json R :=
  JObj [:: ("extrinsics"%string,
            JObj [seq (kv.1, json_of_pose kv.2) | kv <- M_ext])].

(** The loop body, line 492: [M_ext[view_name] = pose.tolist()]. *)
Definition add_pose (M_ext : seq (string * seq (seq R)))
    (pv : 'M[R]_4 * string) : seq (string * seq (seq R)) :=
  dict_set pv.2 (tolist pv.1) M_ext.

Definition save_camera_poses (poses : seq 'M[R]_4) (file_names : seq string)
    (path : string) : M unit :=
  let M_ext : seq (string * seq (seq R)) := [::] in
  let! _ := py_assert (size file_names == size poses) in
  let M_ext := foldl add_pose M_ext (zip poses file_names) in
  let file_path := os_path_join "./estimation"%string path in
  let! present := os_path_isfile file_path in
  let! _ := (if ~~ present then write_file file_path EmptyFile else ret tt) in
  write_file file_path (JsonFile (json_dump_extrinsics M_ext)).

(** *** save_point_to_ply (lines 501-507) *)

(** [o3d.utility.Vector3dVector(points)] takes an array of shape (N, 3). *)
Definition Vector3dVector (points : array2 R) : outcome (seq (seq R)) :=
  if ncols points == 3%N then Ok (rows points) else Raise RuntimeError.

Definition save_point_to_ply (points : array2 R) (file_name : string) : M unit :=
  let dim := ncols points in
  let points := if dim == 4%N then slice_cols3 points else points in
  let! pcd_points := lift (Vector3dVector points) in
  write_file (os_path_join "./estimation/"%string file_name)
    (PlyFile pcd_points).

(** ** Well-formed scenes *)

(** The SceneState invariant of the spec (section 3): the five per-view
    sequences have one length. *)
Definition scene_invariant (s : SceneState R) : bool :=
  [&& size (scene_imgs s) == size (scene_pts3d s),
      size (scene_pts3d s) == size (scene_im_conf s),
      size (scene_im_conf s) == size (scene_im_poses s) &
      size (scene_im_poses s) == size (scene_focals s)].

(** Every view has as many points and confidences as it has pixels. *)
Definition scene_grids_ok (s : SceneState R) : bool :=
  ([seq size p | p <- scene_pts3d s] == [seq size c | c <- scene_im_conf s])
  && ([seq size im | im <- scene_imgs s] == [seq size c | c <- scene_im_conf s]).

(** The pose of the first camera, the identity when there is no camera. *)
Definition first_pose (s : SceneState R) : 'M[R]_4 :=
  head 1%:M (scene_im_poses s).

(** The scene export reads: the caller's scene or its working copy. *)
Definition working_scene (clean_depth mask_sky : bool) (s : SceneState R) :
    SceneState R :=
  let s1 := if clean_depth then clean_pointcloud_copy s else s in
  if mask_sky then mask_sky_copy s1 else s1.

(** The store after an export of the scene at [r], whose state is [s], with
    the transformed threshold [t]: without post-processing the assignment
    of line 144 lands on the caller's object, otherwise on the copy that
    the last post-processing step allocated. *)
Definition heap_after_export (clean_depth mask_sky : bool) (r : nat)
    (s : SceneState R) (t : R) (h : seq (SceneState R)) : seq (SceneState R) :=
  match clean_depth, mask_sky with
  | false, false =>
      set_nth (with_min_conf_thr t s) h r (with_min_conf_thr t s)
  | true, false => rcons h (with_min_conf_thr t (clean_pointcloud_copy s))
  | false, true => rcons h (with_min_conf_thr t (mask_sky_copy s))
  | true, true =>
      rcons (rcons h (clean_pointcloud_copy s))
        (with_min_conf_thr t (mask_sky_copy (clean_pointcloud_copy s)))
  end.

(** The pixels of all views that the masks keep, in view order. *)
Definition masked {A} (arrays : seq (seq A)) (msk : seq (seq bool)) : seq A :=
  flatten [seq mask pm.2 pm.1 | pm <- zip arrays msk].

(** The geometry the converter builds (lines 74-84). *)
Definition exported_geometry (as_pointcloud : bool) (imgs : seq (image R))
    (pts3d : seq (pointmap R)) (msk : seq (seq bool)) : geometry R :=
  if as_pointcloud then PointCloud (masked pts3d msk) (masked imgs msk)
  else
    Trimesh
      (cat_meshes E
         [seq pts3d_to_trimesh E (nth [::] imgs i) (nth [::] pts3d i)
                (nth [::] msk i)
         | i <- iota 0 (size imgs)]).

(** The name of the exported file (line 110). *)
Definition glb_path (outdir : string) (scene_name as_pointcloud : pyval R) :
    string :=
  os_path_join outdir
    (py_format scene_name ^^ "_"%string ^^
     (if py_truth as_pointcloud then "pointcloud"%string else "mesh"%string) ^^
     ".glb"%string).

(** The masks an export computes, read off [get_optimized_values]. *)
Definition export_masks (scene min_conf_thr mask_sky clean_depth : pyval R)
    (w : World R) : outcome (seq (seq bool)) :=
  obind (get_optimized_values scene min_conf_thr mask_sky clean_depth w).1
    (fun vals => Ok vals.1.1.2).

(** The number of points that the masks keep, and that an export keeps. *)
Definition masked_point_count (mask : seq (seq bool)) : nat :=
  sumn [seq count id m | m <- mask].

Definition export_point_count (scene min_conf_thr mask_sky clean_depth : pyval R)
    (w : World R) : outcome nat :=
  obind (export_masks scene min_conf_thr mask_sky clean_depth w)
    (fun msk => Ok (masked_point_count msk)).

(** [scene.min_conf_thr] read through a reference. *)
Definition read_min_conf_thr (w : World R) (v : pyval R) : outcome R :=
  obind (lookup_scene w v) (fun s => Ok (scene_min_conf_thr s)).

(** The transform applied to the exported scene (line 109). *)
Definition canonical_transform (c0 : 'M[R]_4) : 'M[R]_4 :=
  invmx (c0 *m OPENGL E *m rot R).



(** ** Predicates used by the statements *)

(** A computation leaves a component of the world alone. *)
Definition keeps {X A} (proj : World R -> X) (c : M A) : Prop :=
  forall w, proj (c w).2 = proj w.

(** The outcome is not an assertion failure. *)
Definition no_assert {A} (o : outcome A) : bool :=
  if o is Raise AssertionError then false else true.

(** A computation never ends in an assertion failure. *)
Definition quiet {A} (c : M A) : Prop := forall w, no_assert (c w).1.

(** The state in which the orchestrator reaches the export call. *)
Definition world_after_alignment (model : model_t E) (device : string)
    (image_size : nat) (filelist : seq string) (schedule : string)
    (niter : nat) (scenegraph_type : string) (winsize refid : nat)
    (w : World R) : World R :=
  let imgs := resolved_views image_size filelist in
  let sg :=
    if scenegraph_type == "swin"%string then
      String.append scenegraph_type (String.append "-" (py_str_nat winsize))
    else if scenegraph_type == "oneref"%string then
      String.append scenegraph_type (String.append "-" (py_str_nat refid))
    else scenegraph_type in
  let output := inference (make_pairs E imgs sg) model device batch_size in
  if (2 < size imgs)%N then
    let s0 := global_aligner output device PointCloudOptimizer in
    let s1 := (compute_global_alignment E s0 "mst" niter schedule (1 / 100)).1 in
    mkWorld (rcons (heap w) s1) (files w)
      (calls w ++
       [:: Call_global_aligner R PointCloudOptimizer;
           Call_compute_global_alignment "mst" niter schedule (1 / 100)])
  else
    mkWorld (rcons (heap w) (global_aligner output device PairViewer)) (files w)
      (calls w ++ [:: Call_global_aligner R PairViewer]).

End Program.

(** ** A concrete scene over the rationals

    Two views of two pixels each, the first camera translated by (1, 1, 1),
    and deterministic stand-ins for the collaborators. *)

Module Demo.

Definition pose0 : 'M[rat]_4 :=
  block_mx (1%:M : 'M_3) (const_mx 1 : 'M_(3, 1)) 0 (1%:M : 'M_1).

(** The axis flip diag(1, -1, -1, 1) of dust3r.viz. *)
Definition opengl : 'M[rat]_4 :=
  block_mx (1%:M : 'M_1) 0 0 (block_mx ((-1)%:M : 'M_2) 0 0 (1%:M : 'M_1)).

Definition scene : SceneState rat :=
  mkScene
    [:: [:: (1, 0, 0); (0, 1, 0)]; [:: (0, 0, 1); (1, 1, 0)]]
    [:: [:: (0, 0, 2); (1, 0, 1)]; [:: (0, 1, 4); (1, 1, 3)]]
    [:: [:: 1; 4]; [:: 5; 2]]
    [:: pose0; 1%:M]
    [:: 1; 1]
    3
    id.

Definition ext : externals rat :=
  @mkExternals rat unit (seq (view rat * view rat))
    (fun files _ => mapi (fun i _ => mkView [:: (0, 0, 0)] i) files)
    id
    (fun vs _ => [seq (a, b) | a <- vs, b <- vs])
    (fun pairs _ _ _ => pairs)
    (fun _ _ _ => scene)
    (fun s _ _ _ _ => (s, 0))
    (fun s => [seq [seq p.2 | p <- pm] | pm <- scene_pts3d s])
    (fun _ i j => (i == 0%N) && (j == 0%N))
    (fun _ j => j == 1%N)
    opengl
    (fun im p m => mkMesh p [::] (mask m im))
    (fun ms =>
       mkMesh (flatten [seq vertices m | m <- ms])
         (flatten [seq faces m | m <- ms])
         (flatten [seq face_colors m | m <- ms]))
    (fun x => (x, 0, 1 - x, 1))
    (fun _ => "3.0"%string)
    (fun _ => "<scene>"%string).

Definition world : World rat := mkWorld [:: scene] [::] [::].

(** A 2 x 4 array of homogeneous points. *)
Definition points4 : array2 rat :=
  mkArray2 4 [:: [:: 1; 2; 3; 1]; [:: 4; 5; 6; 1]].

End Demo.

(** ** The rest of inference.py *)

(** *** set_scenegraph_options (lines 241-295) *)

(** [gradio.Slider(label=..., value=..., minimum=..., maximum=..., step=...,
    visible=...)]. *)
Record Slider : Type := mkSlider {
  label : string;
  value : int;
  minimum : int;
  maximum : int;
  step : int;
  visible : bool
}.

(** [len(inputfiles) if inputfiles is not None else 1]. *)
Definition num_files_of (inputfiles : option (seq string)) : nat :=
  if inputfiles is Some files then size files else 1%N.

(** [max(1, (num_files - 1) // 2)], on Python's integers: [//] rounds
    towards minus infinity. *)
Definition max_winsize_of (num_files : nat) : int :=
  Num.max 1 (((num_files : int) - 1) %/ 2)%Z.

Definition winsize_slider (max_winsize : int) (visible : bool) : Slider :=
  mkSlider "Scene Graph: Window Size" max_winsize 1 max_winsize 1 visible.

Definition refid_slider (num_files : nat) (visible : bool) : Slider :=
  mkSlider "Scene Graph: Id" 0 0 ((num_files : int) - 1) 1 visible.

Definition set_scenegraph_options (inputfiles : option (seq string))
    (winsize refid : int) (scenegraph_type : string) : Slider * Slider :=
  let num_files := num_files_of inputfiles in
  let max_winsize := max_winsize_of num_files in
  if scenegraph_type == "swin"%string then
    (winsize_slider max_winsize true, refid_slider num_files false)
  else if scenegraph_type == "oneref"%string then
    (winsize_slider max_winsize false, refid_slider num_files true)
  else
    (winsize_slider max_winsize false, refid_slider num_files false).

(** A slider whose value lies between its bounds. *)
Definition slider_ok (s : Slider) : bool :=
  (minimum s <= value s) && (value s <= maximum s).

Section Interface.

Variable R : realFieldType.
Variable E : externals R.

Local Notation "'let!' x ':=' c 'in' k" := (bind c (fun x => k))
  (at level 10, x pattern, c at level 100, k at level 200).

Local Notation "a ^^ b" := (String.append a b)
  (at level 35, right associativity).

(** *** main_demo (lines 298-483): the callback of the option events *)

(** [functools.partial(get_3D_model_from_scene, tmpdirname)], called by
    every option event with the inputs [scene, min_conf_thr, as_pointcloud,
    mask_sky, clean_depth, transparent_cams, cam_size] (lines 405-482):
    seven arguments, by position, for the eight parameters that follow
    [outdir]. *)
Definition model_from_scene_fun (tmpdirname : string)
    (scene min_conf_thr as_pointcloud mask_sky clean_depth transparent_cams
       cam_size : pyval R) : M R (pyval R) :=
  get_3D_model_from_scene E tmpdirname scene min_conf_thr as_pointcloud
    mask_sky clean_depth transparent_cams cam_size (default_cam_size R).

(** *** The script (lines 510-564) *)

(** [os.listdir], [load_model] of dust3r.inference and [torch.cat(pts3d,
    dim=0)], which needs at least one tensor and tensors of one width. *)
Variable listdir : string -> seq string.
Variable load_model : string -> string -> model_t E.
Variable torch_cat : seq (pointmap R) -> outcome (seq (vec3 R)).

(** Lines 531-535: the loop stops as soon as [num_view] files are
    collected. *)
Fixpoint collect_files (num_view : int) (resize_image_path : string)
    (listing files_path frame_name : seq string) : seq string * seq string :=
  match listing with
  | [::] => (files_path, frame_name)
  | filename :: listing' =>
      if (size files_path : int) == num_view then (files_path, frame_name)
      else
        collect_files num_view resize_image_path listing'
          (rcons files_path (os_path_join resize_image_path filename))
          (rcons frame_name filename)
  end.

(** [xs[:n]]: a negative [n] counts from the end. *)
Definition py_slice_to {A} (n : int) (xs : seq A) : seq A :=
  match n with
  | Posz k => take k xs
  | Negz k => take (size xs - k.+1) xs
  end.

(** [torch.cat(pts3d, dim=0).reshape(-1, 3).detach().cpu().numpy()]. *)
Definition point_cloud_array (pts3d : seq (pointmap R)) : outcome (array2 R) :=
  obind (torch_cat pts3d) (fun pts =>
  Ok (mkArray2 3 [seq [:: p.1.1; p.1.2; p.2] | p <- pts])).

Definition main (item : string) (num_view : int) : M R unit :=
  let model_path :=
    "checkpoints/DUSt3R_ViTLarge_BaseDecoder_512_dpt.pth"%string in
  let device := "cuda"%string in
  let batch_size := 1%N in
  let schedule := "cosine"%string in
  let lr := 1 / 100 in
  let niter := 300%N in
  let model := load_model model_path device in
  let resize_image_path := "sfm_data/"%string ^^ item ^^ "_images"%string in
  let collected :=
    collect_files num_view resize_image_path
      (listdir ("sfm_data/"%string ^^ item ^^ "_images"%string)) [::] [::] in
  let files_path := collected.1 in
  let frame_name := collected.2 in
  let images := load_images E (py_slice_to num_view files_path) 512 in
  let pairs := make_pairs E images "complete"%string in
  let output := inference pairs model device batch_size in
  let! scene := call_global_aligner output device PointCloudOptimizer in
  let! loss :=
    call_compute_global_alignment E scene "mst"%string niter schedule lr in
  let! s := scene_of scene in
  let imgs := scene_imgs s in
  let focals := scene_focals s in
  let poses := scene_im_poses s in
  let pts3d := scene_pts3d s in
  let confidence_masks := get_masks s in
  let! _ :=
    get_3D_model_from_scene E "./estimation/"%string (PyStr item) scene
      (default_min_conf_thr R) (PyBool false) (PyBool false) (PyBool false)
      (PyBool false) (default_cam_size R) in
  let! _ :=
    get_3D_model_from_scene E "./estimation/"%string (PyStr item) scene
      (default_min_conf_thr R) (PyBool true) (PyBool false) (PyBool false)
      (PyBool false) (default_cam_size R) in
  let! _ := save_camera_poses poses frame_name (item ^^ "_poses.json"%string) in
  let! point_cloud := lift (point_cloud_array pts3d) in
  save_point_to_ply point_cloud (item ^^ "_point_cloud.ply"%string).

(** The scene the script works on: the aligner's scene after optimization. *)
Definition main_scene (item : string) (num_view : int) : SceneState R :=
  let model :=
    load_model "checkpoints/DUSt3R_ViTLarge_BaseDecoder_512_dpt.pth"%string
      "cuda"%string in
  let collected :=
    collect_files num_view ("sfm_data/"%string ^^ item ^^ "_images"%string)
      (listdir ("sfm_data/"%string ^^ item ^^ "_images"%string)) [::] [::] in
  let images := load_images E (py_slice_to num_view collected.1) 512 in
  let output :=
    inference (make_pairs E images "complete"%string) model "cuda"%string 1%N in
  (compute_global_alignment E
     (global_aligner output "cuda"%string PointCloudOptimizer)
     "mst"%string 300 "cosine"%string (1 / 100)).1.

(** The names the script collects. *)
Definition main_frame_names (item : string) (num_view : int) : seq string :=
  (collect_files num_view ("sfm_data/"%string ^^ item ^^ "_images"%string)
     (listdir ("sfm_data/"%string ^^ item ^^ "_images"%string)) [::] [::]).2.

(** ** Predicates used by the statements, continued *)

(** The geometry a returning converter call has built. *)
Definition built_geometry (pc : bool) (imgs : seq (image R))
    (pts3d : seq (pointmap R)) (msk : seq (seq bool)) (g : geometry R) : Prop :=
  if pc then
    exists pts col,
      [/\ concat_masked pts3d msk = Ok pts, concat_masked imgs msk = Ok col &
          g = PointCloud pts col]
  else
    exists meshes,
      omapM (fun i =>
        obind (py_index imgs i) (fun im =>
        obind (py_index pts3d i) (fun p =>
        obind (py_index msk i) (fun m =>
        Ok (pts3d_to_trimesh E im p m)))))
        (iota 0 (size imgs)) = Ok meshes /\
      g = Trimesh (cat_meshes E meshes).


(** A scene that the export step can write: the invariant, matching pixel
    grids, at least one camera, and invertible first pose and axis flip. *)
Definition exportable (s : SceneState R) : bool :=
  [&& scene_invariant s, scene_grids_ok s, (0 < size (scene_im_poses s))%N,
      first_pose s \in unitmx & OPENGL E \in unitmx].

(** The content of the file an export writes for the scene state [s]. *)
Definition glb_of (as_pointcloud : bool) (s : SceneState R) : file_content R :=
  GlbFile
    (mkTrimeshScene
       [:: exported_geometry E as_pointcloud (scene_imgs s) (scene_pts3d s)
             (get_masks s)]
       (canonical_transform E (first_pose s))).

End Interface.

(** ** A concrete script *)

Module DemoScript.

(** A directory of three frames, a model without weights and [torch.cat]
    on point maps of one width. *)
Definition listdir (path : string) : seq string :=
  [:: "a.png"; "b.png"; "c.png"]%string.

Definition load_model (model_path device : string) : model_t Demo.ext := tt.

Definition torch_cat (pts3d : seq (pointmap rat)) : outcome (seq (vec3 rat)) :=
  if pts3d is [::] then Raise RuntimeError else Ok (flatten pts3d).

End DemoScript.

(** ** sfm_data/preprocess.py *)

Module Preprocess.

(** What OpenCV and [os] raise. *)
Inductive cv_exn : Type := Cv2Error | FileNotFoundError.

Inductive result (A : Type) : Type :=
  | Done (a : A)
  | Failed (e : cv_exn).

Arguments Done {A} a.
Arguments Failed {A} e.

Section Resize.

(** The pixel data of an image, and the interpolation of [cv2.resize]:
    the data of the image of size [dsize] computed from the data of an
    image of the given width and height. *)
Variable pixels : Type.
Variable interpolate : pixels -> nat -> nat -> nat * nat -> pixels.

(** A decoded image: [img.shape == (height, width, 3)]. *)
Record cv_image : Type := mkImage {
  width : nat;
  height : nat;
  data : pixels
}.

(** A directory entry: an image file, or anything [cv2.imread] cannot
    decode (another file, a sub-directory). *)
Inductive entry : Type :=
  | ImageFile (img : cv_image)
  | Other.

(** Directories by path, each with its entries by name, in the order in
    which [os.listdir] lists them. *)
Definition directory : Type := seq (string * entry).
Definition fsys : Type := seq (string * directory).

Definition os_path_exists (path : string) (fs : fsys) : bool :=
  has (fun d => d.1 == path) fs.

Definition os_makedirs (path : string) (fs : fsys) : fsys :=
  rcons fs (path, [::]).

Definition os_listdir (path : string) (fs : fsys) : result (seq string) :=
  if dict_get path fs is Some d then Done [seq e.1 | e <- d]
  else Failed FileNotFoundError.

(** [cv2.imread(os.path.join(dir, filename))]: [None] when the file is
    missing or cannot be decoded. *)
Definition cv2_imread (dir filename : string) (fs : fsys) : option cv_image :=
  if dict_get dir fs is Some d then
    if dict_get filename d is Some (ImageFile img) then Some img else None
  else None.

(** [cv2.resize(img, dsize)] with [dsize = (width, height)]; it raises on
    [None]. *)
Definition cv2_resize (img : option cv_image) (dsize : nat * nat) :
    result cv_image :=
  if img is Some i then
    Done
      (mkImage dsize.1 dsize.2
         (interpolate (data i) (width i) (height i) dsize))
  else Failed Cv2Error.

(** [cv2.imwrite(os.path.join(dir, filename), img)]: the file is created
    or replaced; nothing is written when the directory does not exist. *)
Definition cv2_imwrite (dir filename : string) (img : cv_image) (fs : fsys) :
    fsys :=
  [seq (if d.1 == dir then (d.1, dict_set filename (ImageFile img) d.2) else d)
  | d <- fs].

(** The loop of lines 16-20 over the listing taken at line 16. *)
Fixpoint resize_loop (image_path resize_image_path : string)
    (listing : seq string) (fs : fsys) : result unit * fsys :=
  match listing with
  | [::] => (Done tt, fs)
  | filename :: listing' =>
      let img := cv2_imread image_path filename fs in
      match cv2_resize img (512%N, 288%N) with
      | Done img =>
          resize_loop image_path resize_image_path listing'
            (cv2_imwrite resize_image_path filename img fs)
      | Failed e => (Failed e, fs)
      end
  end.

Definition resize_image (fs : fsys) : result unit * fsys :=
  let image_path := "sfm_data/box_images"%string in
  let resize_image_path := "sfm_data/box_images"%string in
  let fs :=
    if ~~ os_path_exists resize_image_path fs then
      os_makedirs resize_image_path fs
    else fs in
  match os_listdir image_path fs with
  | Done listing => resize_loop image_path resize_image_path listing fs
  | Failed e => (Failed e, fs)
  end.

(** The entry that the loop leaves for a file. *)
Definition resized (e : entry) : entry :=
  if e is ImageFile i then
    ImageFile
      (mkImage 512 288
         (interpolate (data i) (width i) (height i) (512%N, 288%N)))
  else e.

Definition is_image (e : entry) : bool :=
  if e is ImageFile _ then true else false.

End Resize.

End Preprocess.

(** A directory of two frames, and one with a text file between them. *)

Module DemoPreprocess.
Import Preprocess.

(** Images whose data is a number that resizing keeps. *)
Definition interpolate (d : nat) (w h : nat) (dsize : nat * nat) : nat := d.

Definition frames : directory nat :=
  [:: ("a.png"%string, ImageFile (mkImage 640 480 1));
      ("b.png"%string, ImageFile (mkImage 1024 576 2))].

Definition fs : fsys nat :=
  [:: ("sfm_data/box_images"%string, frames);
      ("sfm_data/cup_images"%string,
       [:: ("c.png"%string, ImageFile (mkImage 640 480 3))])].

Definition fs_mixed : fsys nat :=
  [:: ("sfm_data/box_images"%string,
       [:: ("a.png"%string, ImageFile (mkImage 640 480 1));
           ("notes.txt"%string, Other nat);
           ("b.png"%string, ImageFile (mkImage 1024 576 2))])].

End DemoPreprocess.

(** * Properties *)

Arguments bind : simpl never.
Arguments ret : simpl never.
Arguments lift : simpl never.

(** ** The canonical frame *)

Section Algebra.
Variable R : realFieldType.

(** The half turn about the y axis is its own inverse, so [rot] is
    invertible. *)
Lemma Rotation_y_180_involutive :
  Rotation_y_180 R *m Rotation_y_180 R = 1%:M.
Proof.
apply/matrixP=> i j; rewrite !mxE !big_ord_recl big_ord0 !mxE /=.
case: i => [[|[|[|i]]] //= Hi]; case: j => [[|[|[|j]]] //= Hj];
  rewrite ?mulr0 ?mul0r ?mulr1 ?mulrNN ?mulr1 ?addr0 ?add0r //.
Qed.

Lemma rot_unitmx : rot R \in unitmx.
Proof.
have := block_diag_mx_unit (Rotation_y_180 R) (1%:M : 'M[R]_1).
rewrite unitmx1 andbT /rot => ->.
by case: (mulmx1_unit Rotation_y_180_involutive).
Qed.

Lemma canonical_unitmx (E : externals R) (c0 : 'M[R]_4) :
  c0 \in unitmx -> OPENGL E \in unitmx -> c0 *m OPENGL E *m rot R \in unitmx.
Proof. by move=> u0 uG; rewrite !unitmx_mul u0 uG rot_unitmx. Qed.

(** The exported transform sends the first camera's pose to the inverse of
    the fixed correction. *)
Lemma canonical_transform_first_pose (E : externals R) (c0 : 'M[R]_4) :
  c0 \in unitmx -> OPENGL E \in unitmx ->
  canonical_transform E c0 *m c0 = invmx (OPENGL E *m rot R).
Proof.
move=> u0 uG; rewrite /canonical_transform.
have uGR : OPENGL E *m rot R \in unitmx by rewrite unitmx_mul uG rot_unitmx.
have uA : c0 *m (OPENGL E *m rot R) \in unitmx by rewrite unitmx_mul u0.
rewrite -mulmxA -[LHS]mulmx1 -(mulmxV uGR) mulmxA -[_ *m c0 *m _]mulmxA.
by rewrite mulVmx // mul1mx.
Qed.

(** Moving the world frame by [W] moves the transform by the inverse of
    [W]. *)
Lemma canonical_transform_frame_change (E : externals R) (W c0 : 'M[R]_4) :
  W \in unitmx -> c0 \in unitmx -> OPENGL E \in unitmx ->
  canonical_transform E (W *m c0) *m W = canonical_transform E c0.
Proof.
move=> uW u0 uG; rewrite /canonical_transform.
have uA : c0 *m OPENGL E *m rot R \in unitmx by apply: canonical_unitmx.
have uWA : W *m (c0 *m OPENGL E *m rot R) \in unitmx by rewrite unitmx_mul uW.
rewrite -!(mulmxA W).
rewrite -[LHS]mulmx1 -(mulmxV uA) mulmxA -[_ *m W *m _]mulmxA.
by rewrite mulVmx // mul1mx.
Qed.
End Algebra.

(** ** Running the export step *)

Section Runs.
Variable R : realFieldType.
Variable E : externals R.

(** Looking a reference up in the store. *)
Lemma ohead_drop {A} (d : A) (h : seq A) (r : nat) :
  ohead (drop r h) = if (r < size h)%N then Some (nth d h r) else None.
Proof.
by elim: h r => [|x h IH] [|r] //=.
Qed.

Lemma lookup_sceneE (w : World R) (r : nat) (s : SceneState R) :
  lookup_scene w (PyRef r) = Ok s <->
  (r < size (heap w))%N /\ nth s (heap w) r = s.
Proof.
rewrite /lookup_scene (ohead_drop s); case: ltnP => [lt|ge]; split.
- by case=> ->.
- by case=> _ ->.
- by [].
- by case.
Qed.

Lemma lookup_scene_rcons_last (h : seq (SceneState R)) f c (s : SceneState R) :
  lookup_scene (mkWorld (rcons h s) f c) (PyRef (size h)) = Ok s.
Proof. by apply/lookup_sceneE; rewrite /= size_rcons ltnSn nth_rcons ltnn eqxx. Qed.

Lemma lookup_scene_set_nth (h : seq (SceneState R)) f c d r (s : SceneState R) :
  (r < size h)%N ->
  lookup_scene (mkWorld (set_nth d h r s) f c) (PyRef r) = Ok s.
Proof.
move=> lt; apply/lookup_sceneE; rewrite /= size_set_nth.
have lt' : (r < maxn r.+1 (size h))%N by rewrite leq_max ltnSn.
split=> //; rewrite (set_nth_default d) ?size_set_nth //.
by rewrite nth_set_nth /= eqxx.
Qed.

Lemma set_nth_rcons_last {A} (d x y : A) (h : seq A) :
  set_nth d (rcons h x) (size h) y = rcons h y.
Proof. by elim: h => [|z h IH] //=; rewrite IH. Qed.

(** Stepping through a computation. *)
Lemma bind_run {A B} (c : M R A) (k : A -> M R B) w a w' :
  c w = (Ok a, w') -> bind c k w = k a w'.
Proof. by rewrite /bind => ->. Qed.

Lemma bind_raise {A B} (c : M R A) (k : A -> M R B) w e w' :
  c w = (Raise e, w') -> bind c k w = (Raise e, w').
Proof. by rewrite /bind => ->. Qed.

Lemma bindA {A B C} (c : M R A) (k1 : A -> M R B) (k2 : B -> M R C) w :
  bind (bind c k1) k2 w = bind c (fun a => bind (k1 a) k2) w.
Proof. by rewrite /bind; case: (c w) => [[a|e] w']. Qed.

Lemma bind_ret {A B} (a : A) (k : A -> M R B) w : bind (ret a) k w = k a w.
Proof. by []. Qed.

Lemma bind_lift {A B} (a : A) (k : A -> M R B) w :
  bind (lift (Ok a)) k w = k a w.
Proof. by []. Qed.

(** The scene methods and the attribute assignment, on a live reference. *)
Lemma scene_of_run (w : World R) (v : pyval R) s :
  lookup_scene w v = Ok s -> scene_of v w = (Ok s, w).
Proof. by rewrite /scene_of => ->. Qed.

Lemma clean_pointcloud_run (w : World R) (v : pyval R) s :
  lookup_scene w v = Ok s ->
  clean_pointcloud E v w =
  (Ok (PyRef (size (heap w))),
   mkWorld (rcons (heap w) (clean_pointcloud_copy E s)) (files w) (calls w)).
Proof. by move=> Hs; rewrite /clean_pointcloud (bind_run _ (scene_of_run Hs)). Qed.

Lemma mask_sky_method_run (w : World R) (v : pyval R) s :
  lookup_scene w v = Ok s ->
  mask_sky_method E v w =
  (Ok (PyRef (size (heap w))),
   mkWorld (rcons (heap w) (mask_sky_copy E s)) (files w) (calls w)).
Proof. by move=> Hs; rewrite /mask_sky_method (bind_run _ (scene_of_run Hs)). Qed.

Lemma setattr_min_conf_thr_run (w : World R) r s x :
  lookup_scene w (PyRef r) = Ok s ->
  setattr_min_conf_thr (PyRef r) x w =
  (Ok tt,
   mkWorld (set_nth (with_min_conf_thr x s) (heap w) r (with_min_conf_thr x s))
     (files w) (calls w)).
Proof.
move=> Hs; have [lt_r _] := proj1 (lookup_sceneE _ _ _) Hs.
by rewrite /setattr_min_conf_thr (bind_run _ (scene_of_run Hs)) /store_scene lt_r.
Qed.

(** Lines 132-145 on a scene object and a numeric threshold: the values
    come from the working scene, the masks from its confidences and the
    transformed threshold. *)
Lemma get_optimized_values_run (w : World R) r s thr x ms cd :
  lookup_scene w (PyRef r) = Ok s -> torch_tensor thr = Ok x ->
  let t := scene_conf_trf s x in
  let ws := with_min_conf_thr t (working_scene E (py_truth cd) (py_truth ms) s) in
  get_optimized_values E (PyRef r) thr ms cd w =
  (Ok (scene_imgs ws, scene_pts3d ws, get_masks ws, scene_focals ws,
       scene_im_poses ws),
   mkWorld (heap_after_export E (py_truth cd) (py_truth ms) r s t (heap w))
     (files w) (calls w)).
Proof.
move=> Hs Hthr; have [lt_r _] := proj1 (lookup_sceneE _ _ _) Hs.
rewrite /get_optimized_values /working_scene /heap_after_export Hthr.
set h := heap w; set f := files w; set c := calls w.
case: (py_truth cd); case: (py_truth ms).
- rewrite (bind_run _ (clean_pointcloud_run Hs)).
  rewrite (bind_run _ (mask_sky_method_run (lookup_scene_rcons_last _ _ _ _))) /=.
  rewrite (bind_run _ (scene_of_run (lookup_scene_rcons_last _ _ _ _))) bind_lift.
  rewrite (bind_run _ (setattr_min_conf_thr_run _ (lookup_scene_rcons_last _ _ _ _))) /=.
  rewrite set_nth_rcons_last.
  by rewrite (bind_run _ (scene_of_run (lookup_scene_rcons_last _ _ _ _))).
- rewrite (bind_run _ (clean_pointcloud_run Hs)) bind_ret.
  rewrite (bind_run _ (scene_of_run (lookup_scene_rcons_last _ _ _ _))) bind_lift.
  rewrite (bind_run _ (setattr_min_conf_thr_run _ (lookup_scene_rcons_last _ _ _ _))) /=.
  rewrite set_nth_rcons_last.
  by rewrite (bind_run _ (scene_of_run (lookup_scene_rcons_last _ _ _ _))).
- rewrite bind_ret (bind_run _ (mask_sky_method_run Hs)).
  rewrite (bind_run _ (scene_of_run (lookup_scene_rcons_last _ _ _ _))) bind_lift.
  rewrite (bind_run _ (setattr_min_conf_thr_run _ (lookup_scene_rcons_last _ _ _ _))) /=.
  rewrite set_nth_rcons_last.
  by rewrite (bind_run _ (scene_of_run (lookup_scene_rcons_last _ _ _ _))).
- rewrite !bind_ret (bind_run _ (scene_of_run Hs)) bind_lift.
  rewrite (bind_run _ (setattr_min_conf_thr_run _ Hs)).
  by rewrite (bind_run _ (scene_of_run (lookup_scene_set_nth _ _ _ _ lt_r))).
Qed.

(** numpy on well-shaped inputs. *)
Lemma py_index_nth {A} (d : A) (xs : seq A) (i : nat) :
  (i < size xs)%N -> py_index xs i = Ok (nth d xs i).
Proof. by move=> lt; rewrite /py_index (ohead_drop d) lt. Qed.

Lemma omapM_ok {A B} (P : pred A) (f : A -> outcome B) (g : A -> B)
    (xs : seq A) :
  (forall x, P x -> f x = Ok (g x)) -> all P xs ->
  omapM f xs = Ok [seq g x | x <- xs].
Proof.
move=> Hf; elim: xs => [|x xs IH] //= /andP[Px Pxs].
by rewrite (Hf _ Px) /= (IH Pxs).
Qed.

Lemma all_zip_sizes {A} (arrays : seq (seq A)) (msk : seq (seq bool)) :
  [seq size p | p <- arrays] = [seq size m | m <- msk] ->
  all (fun pm => size pm.1 == size pm.2) (zip arrays msk).
Proof.
elim: arrays msk => [|p ps IH] [|m ms] //= [-> /IH ->].
by rewrite eqxx.
Qed.

Lemma concat_masked_ok {A} (arrays : seq (seq A)) (msk : seq (seq bool)) :
  [seq size p | p <- arrays] = [seq size m | m <- msk] ->
  (0 < size arrays)%N ->
  concat_masked arrays msk = Ok (masked arrays msk).
Proof.
move=> Hsz Hpos; rewrite /concat_masked /masked.
rewrite (omapM_ok (g := fun pm => mask pm.2 pm.1) _ (all_zip_sizes Hsz)) /=.
  by move=> [p m] /= /eqP Hpm; rewrite /np_bool_index Hpm eqxx.
by case: arrays msk Hsz Hpos => [|p ps] [|m ms] //=.
Qed.

(** The converter on inputs of one length with matching grids and an
    invertible first pose: one file, holding the geometry under the
    canonical transform. *)
Lemma converter_run (w : World R) outdir name imgs pts3d msk focals c0 cams
    cs cc pc tc :
  size pts3d = size imgs -> size msk = size imgs ->
  size (c0 :: cams) = size imgs -> size focals = size imgs ->
  [seq size p | p <- pts3d] = [seq size m | m <- msk] ->
  [seq size im | im <- imgs] = [seq size m | m <- msk] ->
  c0 \in unitmx -> OPENGL E \in unitmx ->
  let outfile := glb_path E outdir name pc in
  _convert_scene_output_to_glb E outdir name imgs pts3d msk focals (c0 :: cams)
    cs cc pc tc w =
  (Ok outfile,
   mkWorld (heap w)
     (fs_write outfile
        (GlbFile
           (mkTrimeshScene [:: exported_geometry E (py_truth pc) imgs pts3d msk]
              (canonical_transform E c0)))
        (files w))
     (calls w)).
Proof.
move=> Hp Hm Hc Hf Hpm Him u0 uG; rewrite /glb_path; cbv zeta.
have Hpos : (0 < size imgs)%N by rewrite -Hc.
rewrite /_convert_scene_output_to_glb /converter_lengths_ok.
rewrite Hp Hm Hc Hf !eqxx !leqnn /= bind_ret.
have tail (sc : trimesh_Scene R) (type : string) :
  bind (lift (py_index (c0 :: cams) 0)) (fun c1 =>
  bind (lift (np_linalg_inv (c1 *m OPENGL E *m rot R))) (fun T =>
  bind (write_file
          (os_path_join outdir
             (String.append (py_format E name)
                (String.append "_" (String.append type ".glb"))))
          (GlbFile (apply_transform T sc)))
    (fun _ => ret
       (os_path_join outdir
          (String.append (py_format E name)
             (String.append "_" (String.append type ".glb"))))))) w =
  (Ok (os_path_join outdir
         (String.append (py_format E name)
            (String.append "_" (String.append type ".glb")))),
   mkWorld (heap w)
     (fs_write
        (os_path_join outdir
           (String.append (py_format E name)
              (String.append "_" (String.append type ".glb"))))
        (GlbFile (mkTrimeshScene (scene_geometry sc)
                    (canonical_transform E c0 *m base_transform sc)))
        (files w))
     (calls w)).
  rewrite /py_index /= bind_lift /np_linalg_inv (canonical_unitmx u0 uG) /=.
  rewrite bind_lift.
  by rewrite /bind /write_file /=.
rewrite /exported_geometry.
case: (py_truth pc).
- rewrite bindA concat_masked_ok ?Hp // bind_lift bindA concat_masked_ok //.
  rewrite bind_lift bind_ret.
  by move: (tail (add_geometry (PointCloud (masked pts3d msk) (masked imgs msk))
                    (trimesh_Scene_new R)) "pointcloud"%string);
     rewrite /= mulmx1.
- have -> : omapM (fun i =>
              obind (py_index imgs i) (fun im =>
              obind (py_index pts3d i) (fun p =>
              obind (py_index msk i) (fun m =>
              Ok (pts3d_to_trimesh E im p m))))) (iota 0 (size imgs)) =
            Ok [seq pts3d_to_trimesh E (nth [::] imgs i) (nth [::] pts3d i)
                      (nth [::] msk i) | i <- iota 0 (size imgs)].
    apply: (omapM_ok (P := fun i => (i < size imgs)%N)).
      by move=> i lt; rewrite !(py_index_nth [::]) ?Hp ?Hm.
    by apply/allP=> i; rewrite mem_iota add0n.
  rewrite bindA bind_lift bind_ret.
  by move: (tail (add_geometry
                    (Trimesh (cat_meshes E
                       [seq pts3d_to_trimesh E (nth [::] imgs i)
                              (nth [::] pts3d i) (nth [::] msk i)
                       | i <- iota 0 (size imgs)]))
                    (trimesh_Scene_new R)) "mesh"%string);
     rewrite /= mulmx1.
Qed.

(** The working copy keeps every shape. *)
Lemma size_mapi {A B} (f : nat -> A -> B) (xs : seq A) :
  size (mapi f xs) = size xs.
Proof. by rewrite /mapi size_map size_zip size_iota minnn. Qed.

Lemma map_zip_snd {A B C} (g : B -> C) (xs : seq A) (ys : seq B) :
  size xs = size ys -> [seq g p.2 | p <- zip xs ys] = [seq g y | y <- ys].
Proof. by elim: xs ys => [|x xs IH] [|y ys] //= [/IH ->]. Qed.

Lemma sizes_mapi2 {A B} (f : nat -> nat -> A -> B) (xss : seq (seq A)) :
  [seq size c | c <- mapi (fun i xs => mapi (f i) xs) xss] =
  [seq size c | c <- xss].
Proof.
rewrite /mapi -map_comp.
rewrite (eq_map (g := fun p => size p.2)).
  by move=> [i xs] /=; rewrite size_map size_zip size_iota minnn.
by rewrite (@map_zip_snd _ _ _ size) // size_iota.
Qed.

Lemma sizes_get_masks (s : SceneState R) :
  [seq size m | m <- get_masks s] = [seq size c | c <- scene_im_conf s].
Proof.
rewrite /get_masks -map_comp; apply: eq_map => c /=.
by rewrite size_map.
Qed.

Lemma working_scene_sizes cd ms (s : SceneState R) :
  [seq size c | c <- scene_im_conf (working_scene E cd ms s)] =
  [seq size c | c <- scene_im_conf s].
Proof.
rewrite /working_scene /clean_pointcloud_copy /mask_sky_copy.
by case: cd; case: ms; rewrite /= ?sizes_mapi2.
Qed.

Lemma working_scene_frame cd ms (s : SceneState R) :
  let ws := working_scene E cd ms s in
  [/\ scene_imgs ws = scene_imgs s, scene_pts3d ws = scene_pts3d s,
      scene_im_poses ws = scene_im_poses s, scene_focals ws = scene_focals s &
      scene_conf_trf ws = scene_conf_trf s].
Proof. by case: cd; case: ms. Qed.

Lemma sizes_eq_size {A B} (xs : seq (seq A)) (ys : seq (seq B)) :
  [seq size x | x <- xs] = [seq size y | y <- ys] -> size xs = size ys.
Proof. by move/(congr1 size); rewrite !size_map. Qed.

(** The export step on a well-formed scene object. *)
Lemma export_run (w : World R) outdir name r s thr x pc ms cd tc cs :
  lookup_scene w (PyRef r) = Ok s -> torch_tensor thr = Ok x ->
  scene_invariant s -> scene_grids_ok s -> (0 < size (scene_im_poses s))%N ->
  first_pose s \in unitmx -> OPENGL E \in unitmx ->
  let t := scene_conf_trf s x in
  let ws := with_min_conf_thr t (working_scene E (py_truth cd) (py_truth ms) s) in
  let outfile := glb_path E outdir name pc in
  get_3D_model_from_scene E outdir name (PyRef r) thr pc ms cd tc cs w =
  (Ok (PyStr outfile),
   mkWorld (heap_after_export E (py_truth cd) (py_truth ms) r s t (heap w))
     (fs_write outfile
        (GlbFile
           (mkTrimeshScene
              [:: exported_geometry E (py_truth pc) (scene_imgs s)
                    (scene_pts3d s) (get_masks ws)]
              (canonical_transform E (first_pose s))))
        (files w))
     (calls w)).
Proof.
move=> Hs Hthr.
move=> /and4P[/eqP Hip /eqP Hpc /eqP Hcp /eqP Hpf] /andP[/eqP Gp /eqP Gi].
move=> Hpos u0 uG t ws outfile.
rewrite /get_3D_model_from_scene (bind_run _ (get_optimized_values_run _ _ Hs Hthr)).
have [Ei Ep Ec Ef _] := working_scene_frame (py_truth cd) (py_truth ms) s.
rewrite /= Ei Ep Ec Ef.
have Hsz := working_scene_sizes (py_truth cd) (py_truth ms) s.
case Hposes: (scene_im_poses s) Hpos u0 Hcp => [|c0 cams] // _ u0 Hcp.
rewrite /first_pose Hposes /= in u0 *.
have Hmsk : [seq size m | m <- get_masks ws] =
            [seq size c | c <- scene_im_conf s].
  by rewrite sizes_get_masks /ws /= Hsz.
have H1 : size (scene_pts3d s) = size (scene_imgs s) by rewrite Hip.
have H2 : size (get_masks ws) = size (scene_imgs s).
  by rewrite (sizes_eq_size Hmsk) -Hpc Hip.
have H3 : size (c0 :: cams) = size (scene_imgs s) by rewrite -Hcp -Hpc Hip.
have H4 : size (scene_focals s) = size (scene_imgs s).
  by rewrite -Hpf Hposes -Hcp -Hpc Hip.
have H5 : [seq size p | p <- scene_pts3d s] = [seq size m | m <- get_masks ws].
  by rewrite Hmsk.
have H6 : [seq size p | p <- scene_imgs s] = [seq size m | m <- get_masks ws].
  by rewrite Hmsk.
have Hconv := @converter_run
  (mkWorld (heap_after_export E (py_truth cd) (py_truth ms) r s t (heap w))
     (files w) (calls w))
  outdir name _ _ _ _ c0 cams cs PyNone pc tc H1 H2 H3 H4 H5 H6 u0 uG.
by rewrite (bind_run _ Hconv).
Qed.

(** Frame rules. *)
Lemma keeps_bind {X A B} (proj : World R -> X) (c : M R A) (k : A -> M R B) :
  keeps proj c -> (forall a, keeps proj (k a)) -> keeps proj (bind c k).
Proof.
move=> Hc Hk w; rewrite /bind; move: (Hc w).
by case: (c w) => [[a|e] w'] /= <- //; apply: Hk.
Qed.

Lemma keeps_ret {X A} (proj : World R -> X) (a : A) : keeps proj (ret a).
Proof. by []. Qed.

Lemma keeps_lift {X A} (proj : World R -> X) (o : outcome A) :
  keeps proj (lift o).
Proof. by []. Qed.

Lemma keeps_assert {X} (proj : World R -> X) (b : bool) :
  keeps proj (py_assert b).
Proof. by case: b. Qed.

Lemma keeps_scene_of {X} (proj : World R -> X) (v : pyval R) :
  keeps proj (scene_of v).
Proof. by []. Qed.

Lemma keeps_if {X A} (proj : World R -> X) (b : bool) (c1 c2 : M R A) :
  keeps proj c1 -> keeps proj c2 -> keeps proj (if b then c1 else c2).
Proof. by case: b. Qed.

Lemma write_file_keeps_heap path c : keeps (@heap R) (write_file path c).
Proof. by []. Qed.

Lemma write_file_keeps_calls path c : keeps (@calls R) (write_file path c).
Proof. by []. Qed.

Lemma new_object_keeps_files s : keeps (@files R) (new_object s).
Proof. by []. Qed.

Lemma new_object_keeps_calls s : keeps (@calls R) (new_object s).
Proof. by []. Qed.

Lemma store_scene_keeps_files v s : keeps (@files R) (store_scene v s).
Proof. by move=> w; rewrite /store_scene; case: v => //= r; case: ifP. Qed.

Lemma store_scene_keeps_calls v s : keeps (@calls R) (store_scene v s).
Proof. by move=> w; rewrite /store_scene; case: v => //= r; case: ifP. Qed.

Ltac frame :=
  cbv zeta;
  lazymatch goal with
  | |- keeps _ (bind _ _) => apply: keeps_bind; [frame | move=> ?; frame]
  | |- keeps _ (if _ then _ else _) => apply: keeps_if; frame
  | |- keeps _ (ret _) => exact: keeps_ret
  | |- keeps _ (lift _) => exact: keeps_lift
  | |- keeps _ (py_assert _) => exact: keeps_assert
  | |- keeps _ (scene_of _) => exact: keeps_scene_of
  | |- keeps (@heap _) (write_file _ _) => exact: write_file_keeps_heap
  | |- keeps (@calls _) (write_file _ _) => exact: write_file_keeps_calls
  | |- keeps (@files _) (new_object _) => exact: new_object_keeps_files
  | |- keeps (@calls _) (new_object _) => exact: new_object_keeps_calls
  | |- keeps (@files _) (store_scene _ _) => exact: store_scene_keeps_files
  | |- keeps (@calls _) (store_scene _ _) => exact: store_scene_keeps_calls
  | |- _ => idtac
  end.

Lemma converter_keeps_heap outdir name imgs pts3d msk focals cams cs cc pc tc :
  keeps (@heap R)
    (_convert_scene_output_to_glb E outdir name imgs pts3d msk focals cams cs
       cc pc tc).
Proof. by rewrite /_convert_scene_output_to_glb; frame. Qed.

Lemma converter_keeps_calls outdir name imgs pts3d msk focals cams cs cc pc tc :
  keeps (@calls R)
    (_convert_scene_output_to_glb E outdir name imgs pts3d msk focals cams cs
       cc pc tc).
Proof. by rewrite /_convert_scene_output_to_glb; frame. Qed.

Lemma get_optimized_values_keeps_files scene thr ms cd :
  keeps (@files R) (get_optimized_values E scene thr ms cd).
Proof.
rewrite /get_optimized_values /clean_pointcloud /mask_sky_method
        /setattr_min_conf_thr.
by frame.
Qed.

Lemma get_optimized_values_keeps_calls scene thr ms cd :
  keeps (@calls R) (get_optimized_values E scene thr ms cd).
Proof.
rewrite /get_optimized_values /clean_pointcloud /mask_sky_method
        /setattr_min_conf_thr.
by frame.
Qed.

Lemma export_keeps_calls outdir name scene thr pc ms cd tc cs :
  keeps (@calls R)
    (get_3D_model_from_scene E outdir name scene thr pc ms cd tc cs).
Proof.
rewrite /get_3D_model_from_scene; case: scene; try by frame.
all: move=> *; apply: keeps_bind;
  [exact: get_optimized_values_keeps_calls|move=> [[[[a b] c] d] e]].
all: by apply: keeps_bind; [exact: converter_keeps_calls|frame].
Qed.

(** The store after an export, whatever the converter does. *)
Lemma export_heap (w : World R) outdir name r s thr x pc ms cd tc cs :
  lookup_scene w (PyRef r) = Ok s -> torch_tensor thr = Ok x ->
  heap (get_3D_model_from_scene E outdir name (PyRef r) thr pc ms cd tc cs w).2 =
  heap_after_export E (py_truth cd) (py_truth ms) r s (scene_conf_trf s x)
    (heap w).
Proof.
move=> Hs Hthr.
rewrite /get_3D_model_from_scene (bind_run _ (get_optimized_values_run _ _ Hs Hthr)).
cbv zeta; set w1 := mkWorld _ _ _.
have -> : heap_after_export E (py_truth cd) (py_truth ms) r s
            (scene_conf_trf s x) (heap w) = heap w1 by [].
apply: (keeps_bind (proj := @heap R)); first exact: converter_keeps_heap.
by move=> a; frame.
Qed.

(** An export of a value that is not an object fails on the first attribute
    access, before anything is written. *)
Lemma get_optimized_values_not_object (w : World R) v thr ms cd :
  (forall r, v <> PyRef r) ->
  get_optimized_values E v thr ms cd w = (Raise AttributeError, w).
Proof.
move=> Hv; rewrite /get_optimized_values.
have Hl w' : lookup_scene w' v = Raise AttributeError.
  by case: v Hv => // r /(_ r).
have Hso w' : scene_of v w' = (Raise AttributeError, w').
  by rewrite /scene_of Hl.
case: (py_truth cd).
  by rewrite /clean_pointcloud bindA (bind_raise _ (Hso w)).
rewrite bind_ret; case: (py_truth ms).
  by rewrite /mask_sky_method bindA (bind_raise _ (Hso w)).
by rewrite bind_ret (bind_raise _ (Hso w)).
Qed.

(** The alignment session. *)
Lemma call_global_aligner_run (w : World R) output device mode :
  call_global_aligner (E := E) output device mode w =
  (Ok (PyRef (size (heap w))),
   mkWorld (rcons (heap w) (global_aligner output device mode)) (files w)
     (rcons (calls w) (Call_global_aligner R mode))).
Proof. by []. Qed.

Lemma call_compute_global_alignment_run (w : World R) r s init niter schedule lr :
  lookup_scene w (PyRef r) = Ok s ->
  let res := compute_global_alignment E s init niter schedule lr in
  call_compute_global_alignment E (PyRef r) init niter schedule lr w =
  (Ok res.2,
   mkWorld (set_nth res.1 (heap w) r res.1) (files w)
     (rcons (calls w)
        (Call_compute_global_alignment init niter schedule lr))).
Proof.
move=> Hs res; have [lt_r _] := proj1 (lookup_sceneE _ _ _) Hs.
rewrite /call_compute_global_alignment (bind_run _ (scene_of_run Hs)).
by rewrite /bind /log_call /store_scene /= lt_r.
Qed.

(** The part of the orchestrator that follows the alignment session. *)
Lemma gallery_keeps_calls (scene : pyval R) (outfile : pyval R) :
  keeps (@calls R)
    (bind (scene_of scene) (fun s =>
     bind (lift (div_by_global_max (get_depthmaps E s))) (fun depths =>
     bind (lift (div_by_global_max (scene_im_conf s))) (fun confs =>
     bind (lift (omapM (fun i =>
             obind (py_index (scene_imgs s) i) (fun im =>
             obind (py_index depths i) (fun d =>
             obind (py_index [seq [seq cmap_jet E x | x <- d0] | d0 <- confs] i)
               (fun c => Ok [:: Color im; rgb E (Gray d); rgb E (Rgba c)]))))
             (iota 0 (size (scene_imgs s)))))
       (fun imgs => ret (scene, outfile, flatten imgs)))))).
Proof. by frame. Qed.

(** The orchestrator is the alignment session followed by the export call
    of line 209 and the gallery. *)
Lemma get_reconstructed_scene_split (w : World R) outdir (model : model_t E)
    device image_size filelist schedule niter thr pc ms cd tc cs sg winsize
    refid :
  get_reconstructed_scene outdir model device image_size filelist schedule
    niter thr pc ms cd tc cs sg winsize refid w =
  bind
    (get_3D_model_from_scene E outdir (PyRef (size (heap w))) thr pc ms cd tc
       cs (default_cam_size R))
    (fun outfile =>
     bind (scene_of (PyRef (size (heap w)))) (fun s =>
     bind (lift (div_by_global_max (get_depthmaps E s))) (fun depths =>
     bind (lift (div_by_global_max (scene_im_conf s))) (fun confs =>
     bind (lift (omapM (fun i =>
             obind (py_index (scene_imgs s) i) (fun im =>
             obind (py_index depths i) (fun d =>
             obind (py_index [seq [seq cmap_jet E x | x <- d0] | d0 <- confs] i)
               (fun c => Ok [:: Color im; rgb E (Gray d); rgb E (Rgba c)]))))
             (iota 0 (size (scene_imgs s)))))
       (fun imgs => ret (PyRef (size (heap w)), outfile, flatten imgs))))))
    (world_after_alignment model device image_size filelist schedule niter sg
       winsize refid w).
Proof.
rewrite /get_reconstructed_scene /world_after_alignment; cbv zeta.
rewrite (bind_run _ (call_global_aligner_run _ _ _ _)).
case: ifP => _.
- rewrite bindA.
  rewrite (bind_run _ (call_compute_global_alignment_run _ _ _ _
                         (lookup_scene_rcons_last _ _ _ _))) /=.
  by rewrite bind_ret set_nth_rcons_last -!cats1 -catA.
- by rewrite bind_ret cats1.
Qed.
End Runs.

(** ** The export step and the orchestrator *)

Section Claims.
Variable R : realFieldType.
Variable E : externals R.

(** Reading back what was written. *)
Lemma fs_read_write path (c : file_content R) fs :
  fs_read path (fs_write path c fs) = Some c.
Proof. by rewrite /fs_read /fs_write /= eqxx. Qed.

Lemma files_after_alignment (w : World R) (model : model_t E) device image_size
    filelist schedule niter sg winsize refid :
  files (world_after_alignment model device image_size filelist schedule niter
           sg winsize refid w) = files w.
Proof. by rewrite /world_after_alignment; cbv zeta; case: ifP. Qed.

Lemma calls_after_alignment (w : World R) (model : model_t E) device image_size
    filelist schedule niter sg winsize refid :
  calls (world_after_alignment model device image_size filelist schedule niter
           sg winsize refid w) =
  calls w ++
  (if (2 < size (resolved_views E image_size filelist))%N then
     [:: Call_global_aligner R PointCloudOptimizer;
         Call_compute_global_alignment "mst" niter schedule (1 / 100)]
   else [:: Call_global_aligner R PairViewer]).
Proof. by rewrite /world_after_alignment; cbv zeta; case: ifP. Qed.

(** Claim C1 (the code departs from it). The spec has every reconstruction
    run write one file [{name}_pointcloud.glb] or [{name}_mesh.glb] into
    [outdir] and return its path. The call at line 209 hands eight
    arguments by position to the nine parameters of
    [get_3D_model_from_scene]: the scene lands in [scene_name] and the
    threshold in [scene]. With a number as threshold, as the slider gives
    it, the export raises [AttributeError] on its first attribute access:
    the run ends with that exception and the file system is as before. *)
Theorem reconstruction_export_raises (w : World R) outdir (model : model_t E)
    device image_size filelist schedule niter x pc ms cd tc cs sg winsize
    refid :
  let run :=
    get_reconstructed_scene outdir model device image_size filelist schedule
      niter (PyNum x) pc ms cd tc cs sg winsize refid w in
  run.1 = Raise AttributeError /\ files run.2 = files w.
Proof.
rewrite /= get_reconstructed_scene_split /get_3D_model_from_scene.
rewrite bindA.
rewrite (bind_raise _ (get_optimized_values_not_object _ _ _ _ _ _)) //=.
by rewrite files_after_alignment.
Qed.

(** The export step called with its arguments in place (lines 557-558). *)
Lemma export_writes_named_file (w : World R) outdir name r s thr x pc ms cd tc
    cs :
  lookup_scene w (PyRef r) = Ok s -> torch_tensor thr = Ok x ->
  scene_invariant s -> scene_grids_ok s -> (0 < size (scene_im_poses s))%N ->
  first_pose s \in unitmx -> OPENGL E \in unitmx ->
  let run := get_3D_model_from_scene E outdir (PyStr name) (PyRef r) thr pc ms
               cd tc cs w in
  let outfile :=
    os_path_join outdir
      (String.append name
         (if py_truth pc then "_pointcloud.glb" else "_mesh.glb"))%string in
  run.1 = Ok (PyStr outfile) /\
  exists c, files run.2 = fs_write outfile c (files w).
Proof.
move=> Hs Hthr Hinv Hg Hpos u0 uG.
cbv zeta; rewrite (@export_run R E w outdir (PyStr name) r s thr x pc ms cd tc cs
             Hs Hthr Hinv Hg Hpos u0 uG) /glb_path /=.
by case: (py_truth pc); split=> //; eexists.
Qed.

(** After the alignment session nothing is logged: the export call and the
    gallery make no call of the session. *)
Lemma run_calls (w : World R) outdir (model : model_t E) device image_size
    filelist schedule niter thr pc ms cd tc cs sg winsize refid :
  calls (get_reconstructed_scene outdir model device image_size filelist
           schedule niter thr pc ms cd tc cs sg winsize refid w).2 =
  calls w ++
  (if (2 < size (resolved_views E image_size filelist))%N then
     [:: Call_global_aligner R PointCloudOptimizer;
         Call_compute_global_alignment "mst" niter schedule (1 / 100)]
   else [:: Call_global_aligner R PairViewer]).
Proof.
rewrite -(calls_after_alignment w model device image_size filelist schedule
           niter sg winsize refid) get_reconstructed_scene_split.
apply: (keeps_bind (proj := @calls R)); first exact: export_keeps_calls.
by move=> outfile; apply: gallery_keeps_calls.
Qed.

(** Claim C6. With more than two resolved views the orchestrator opens the
    alignment session in mode [PointCloudOptimizer] and makes one call of
    [compute_global_alignment] with init ["mst"], the caller's [niter] and
    [schedule] (and the learning rate 0.01); with exactly two resolved
    views it opens the session in mode [PairViewer] and makes no
    optimization call. The calls are read off the call log of the run,
    whatever happens after the alignment. *)
Theorem alignment_mode_by_view_count (w : World R) outdir (model : model_t E)
    device image_size filelist schedule niter thr pc ms cd tc cs sg winsize
    refid :
  let n := size (resolved_views E image_size filelist) in
  let w' :=
    (get_reconstructed_scene outdir model device image_size filelist schedule
       niter thr pc ms cd tc cs sg winsize refid w).2 in
  ((2 < n)%N ->
   calls w' =
   calls w ++
   [:: Call_global_aligner R PointCloudOptimizer;
       Call_compute_global_alignment "mst" niter schedule (1 / 100)]) /\
  (n = 2%N -> calls w' = calls w ++ [:: Call_global_aligner R PairViewer]).
Proof.
move=> n w'; rewrite /w' run_calls -/n.
by split=> [->|->].
Qed.

(** Claim C2. An export of a scene object writes a scene whose transform is
    the inverse of (first camera's camera-to-world pose x OPENGL x the
    rotation by 180 degrees about the y axis). Composed with the first
    camera's pose it is the inverse of (OPENGL x rot), in which the pose
    no longer occurs: the first camera sits at the identity up to the fixed
    correction. Had the optimizer expressed the same scene in a world frame
    moved by an invertible [W], the transform composed with [W] would be
    the same, so the exported geometry does not depend on the world
    frame. *)
Theorem export_canonical_frame (w : World R) outdir name r s thr x pc ms cd tc
    cs :
  lookup_scene w (PyRef r) = Ok s -> torch_tensor thr = Ok x ->
  scene_invariant s -> scene_grids_ok s -> (0 < size (scene_im_poses s))%N ->
  first_pose s \in unitmx -> OPENGL E \in unitmx ->
  let run := get_3D_model_from_scene E outdir name (PyRef r) thr pc ms cd tc
               cs w in
  exists sc,
    [/\ run.1 = Ok (PyStr (glb_path E outdir name pc)),
        fs_read (glb_path E outdir name pc) (files run.2) = Some (GlbFile sc),
        base_transform sc = invmx (first_pose s *m OPENGL E *m rot R),
        base_transform sc *m first_pose s = invmx (OPENGL E *m rot R) &
        forall W, W \in unitmx ->
          canonical_transform E (W *m first_pose s) *m W = base_transform sc].
Proof.
move=> Hs Hthr Hinv Hg Hpos u0 uG.
cbv zeta; rewrite (@export_run R E w outdir name r s thr x pc ms cd tc cs
             Hs Hthr Hinv Hg Hpos u0 uG) /=.
eexists; split; first by [].
- by rewrite fs_read_write.
- by [].
- exact: canonical_transform_first_pose.
- by move=> W uW; apply: canonical_transform_frame_change.
Qed.

(** The caller's object and the other objects after an export. *)
Lemma nth_set_nth_ne {A} (d d' y : A) (h : seq A) (r r' : nat) :
  r' != r -> (r' < size h)%N -> nth d (set_nth d' h r y) r' = nth d h r'.
Proof.
move=> ne lt'.
have lt2 : (r' < size (set_nth d' h r y))%N.
  by rewrite size_set_nth leq_max lt' orbT.
rewrite (set_nth_default d' d lt2) nth_set_nth /= (negbTE ne).
exact: set_nth_default.
Qed.

Lemma lookup_after_export cd ms r (s : SceneState R) t h f c :
  (r < size h)%N -> nth s h r = s ->
  lookup_scene (mkWorld (heap_after_export E cd ms r s t h) f c) (PyRef r) =
  Ok (if cd || ms then s else with_min_conf_thr t s).
Proof.
move=> lt_r Hn; rewrite /heap_after_export.
case: cd; case: ms; rewrite [_ || _]/=; last by rewrite lookup_scene_set_nth.
all: apply/lookup_sceneE; rewrite /= ?size_rcons ?nth_rcons ?size_rcons.
all: by rewrite ?lt_r ?(ltnW lt_r) ?(leqW lt_r) ?(leqW (leqW lt_r)) ?(ltnW (leqW lt_r)).
Qed.

Lemma export_caller_scene (w : World R) outdir name r s thr x pc ms cd tc cs :
  lookup_scene w (PyRef r) = Ok s -> torch_tensor thr = Ok x ->
  lookup_scene
    (get_3D_model_from_scene E outdir name (PyRef r) thr pc ms cd tc cs w).2
    (PyRef r) =
  Ok (if py_truth cd || py_truth ms then s
      else with_min_conf_thr (scene_conf_trf s x) s).
Proof.
move=> Hs Hthr; have [lt_r Hn] := proj1 (lookup_sceneE _ _ _) Hs.
have Hh := @export_heap R E w outdir name r s thr x pc ms cd tc cs Hs Hthr.
set w' := (get_3D_model_from_scene _ _ _ _ _ _ _ _ _ _ _).2 in Hh *.
have -> : lookup_scene w' (PyRef r) =
          lookup_scene (mkWorld (heap w') [::] [::]) (PyRef r) by [].
by rewrite Hh lookup_after_export.
Qed.

Lemma export_other_scenes (w : World R) outdir name r s thr x pc ms cd tc cs r' :
  lookup_scene w (PyRef r) = Ok s -> torch_tensor thr = Ok x ->
  r' != r -> (r' < size (heap w))%N ->
  lookup_scene
    (get_3D_model_from_scene E outdir name (PyRef r) thr pc ms cd tc cs w).2
    (PyRef r') =
  lookup_scene w (PyRef r').
Proof.
move=> Hs Hthr ne lt'.
have Hh := @export_heap R E w outdir name r s thr x pc ms cd tc cs Hs Hthr.
rewrite /lookup_scene Hh /heap_after_export !(ohead_drop s) lt'.
case: (py_truth cd); case: (py_truth ms);
  rewrite ?size_rcons ?size_set_nth ?nth_rcons ?size_rcons ?lt' ?(leqW lt')
          ?(leqW (leqW lt')) //.
by rewrite leq_max lt' orbT nth_set_nth_ne.
Qed.

(** Claim C4, amended. An export of the scene object [r] changes no field
    of that object other than [min_conf_thr] and leaves every other object
    of the store as it was. With [clean_depth] and [mask_sky] both unset
    it sets [min_conf_thr] to the scene's [conf_trf] of the threshold; with
    either set the assignment of line 144 lands on the working copy and the
    caller's object is unchanged. *)
Theorem export_frame (w : World R) outdir name r s thr x pc ms cd tc cs :
  lookup_scene w (PyRef r) = Ok s -> torch_tensor thr = Ok x ->
  let w' := (get_3D_model_from_scene E outdir name (PyRef r) thr pc ms cd tc
               cs w).2 in
  lookup_scene w' (PyRef r) =
    Ok (if py_truth cd || py_truth ms then s
        else with_min_conf_thr (scene_conf_trf s x) s) /\
  (forall r', r' != r -> (r' < size (heap w))%N ->
     lookup_scene w' (PyRef r') = lookup_scene w (PyRef r')).
Proof.
move=> Hs Hthr w'; split; first exact: export_caller_scene.
by move=> r' ne lt'; apply: (@export_other_scenes w outdir name r s thr x).
Qed.

(** Claim C5. Two exports of the same scene object with the same threshold
    and flags, the second run on the world the first one left, compute the
    same per-view masks, hence the same masked-point counts. *)
Theorem export_masks_idempotent (w : World R) outdir name r s thr x pc ms cd tc
    cs :
  lookup_scene w (PyRef r) = Ok s -> torch_tensor thr = Ok x ->
  let w1 := (get_3D_model_from_scene E outdir name (PyRef r) thr pc ms cd tc
               cs w).2 in
  exists msk,
    [/\ export_masks E (PyRef r) thr ms cd w = Ok msk,
        export_masks E (PyRef r) thr ms cd w1 = Ok msk,
        msk = get_masks
                (with_min_conf_thr (scene_conf_trf s x)
                   (working_scene E (py_truth cd) (py_truth ms) s)) &
        export_point_count E (PyRef r) thr ms cd w1 =
        export_point_count E (PyRef r) thr ms cd w].
Proof.
move=> Hs Hthr w1.
have H0 : export_masks E (PyRef r) thr ms cd w =
          Ok (get_masks
                (with_min_conf_thr (scene_conf_trf s x)
                   (working_scene E (py_truth cd) (py_truth ms) s))).
  by rewrite /export_masks
             (@get_optimized_values_run R E w r s thr x ms cd Hs Hthr).
have H1 := @export_caller_scene w outdir name r s thr x pc ms cd tc cs Hs Hthr.
have H2 : export_masks E (PyRef r) thr ms cd w1 =
          Ok (get_masks
                (with_min_conf_thr (scene_conf_trf s x)
                   (working_scene E (py_truth cd) (py_truth ms) s))).
  rewrite /export_masks
          (@get_optimized_values_run R E w1 r _ thr x ms cd H1 Hthr) /=.
  by case: (py_truth cd); case: (py_truth ms).
by eexists; split; [exact: H0 | exact: H2 | | rewrite /export_point_count H0 H2].
Qed.

(** The post-processing only narrows the masks: a pixel that the working
    copy keeps is kept by the caller's scene at the same threshold. *)
Lemma nth_mapi {A B} (d : A) (d' : B) (f : nat -> A -> B) (xs : seq A) i :
  (i < size xs)%N -> nth d' (mapi f xs) i = f i (nth d xs i).
Proof.
move=> lt; rewrite /mapi (nth_map (0%N, d)) ?size_zip ?size_iota ?minnn //.
by rewrite nth_zip ?size_iota //= nth_iota.
Qed.

Lemma lowered_masks_narrow (g : nat -> nat -> bool) (confs : seq (seq R)) t i j :
  nth false
    (nth [::]
       [seq [seq t <= c | c <- conf]
       | conf <- mapi (fun i conf =>
                   mapi (fun j c => if g i j then Num.min c 0 else c) conf)
                   confs] i) j ->
  nth false (nth [::] [seq [seq t <= c | c <- conf] | conf <- confs] i) j.
Proof.
case: (ltnP i (size confs)) => [lti|gei]; last first.
  by rewrite ![nth [::] _ i]nth_default ?size_map ?size_zip ?size_iota ?minnn.
rewrite !(nth_map [::]) ?size_mapi // (nth_mapi [::]) //.
case: (ltnP j (size (nth [::] confs i))) => [ltj|gej]; last first.
  by rewrite ![nth false _ j]nth_default ?size_map ?size_zip ?size_iota ?minnn.
rewrite (nth_map (0 : R)) ?size_mapi // (nth_mapi (0 : R)) //.
rewrite (nth_map (0 : R)) //.
by case: (g i j) => //; rewrite le_min => /andP[].
Qed.

Lemma post_processing_narrows (cd ms : bool) (s : SceneState R) t i j :
  nth false
    (nth [::] (get_masks (with_min_conf_thr t (working_scene E cd ms s))) i) j ->
  nth false (nth [::] (get_masks (with_min_conf_thr t s)) i) j.
Proof.
rewrite /working_scene /get_masks; case: cd; case: ms => //=.
- by move/lowered_masks_narrow/lowered_masks_narrow.
- exact: lowered_masks_narrow.
- exact: lowered_masks_narrow.
Qed.
(** Empty masks keep no pixel. *)
Lemma mask_all_false {A} (m : seq bool) (xs : seq A) :
  all negb m -> mask m xs = [::].
Proof. by elim: m xs => [|[] m IH] [|x xs] //= /IH. Qed.

Lemma masked_all_false {A} (arrays : seq (seq A)) (msk : seq (seq bool)) :
  all (all negb) msk -> masked arrays msk = [::].
Proof.
rewrite /masked; elim: arrays msk => [|a arrays IH] [|m msk] //= /andP[Hm Hs].
by rewrite mask_all_false // IH.
Qed.

Lemma get_masks_all_false (s : SceneState R) :
  all (all (fun c => c < scene_min_conf_thr s)) (scene_im_conf s) ->
  all (all negb) (get_masks s).
Proof.
rewrite /get_masks all_map => /allP H; apply/allP=> conf /H /= /allP Hc.
by rewrite all_map; apply/allP=> c /Hc /=; rewrite -ltNge.
Qed.
End Claims.

(** ** The diagnostic gallery *)

Section Gallery.
Variable R : realFieldType.

(** Python's [max] returns an element that bounds all the others. *)
Lemma foldl_max_spec (m : R) (xs : seq R) :
  let r := foldl (fun m y => if m < y then y else m) m xs in
  [/\ m <= r, forall y, y \in xs -> y <= r & r \in m :: xs].
Proof.
elim: xs m => [|x xs IH] m /=; first by split=> //; rewrite mem_seq1.
have [Hm' Hxs Hin] := IH (if m < x then x else m).
have [m_le x_le] : m <= (if m < x then x else m) /\ x <= (if m < x then x else m).
  by case: ltP => [/ltW|].
split.
- exact: le_trans m_le Hm'.
- by move=> y; rewrite in_cons => /orP[/eqP->|/Hxs //]; apply: le_trans x_le Hm'.
- move: Hin; rewrite !in_cons; case: ltP => _ /orP[->|->] //; rewrite ?orbT //.
Qed.

Lemma py_max_spec (x : R) (xs : seq R) :
  exists m, [/\ py_max (x :: xs) = Ok m, m \in x :: xs &
                forall y, y \in x :: xs -> y <= m].
Proof.
have [Hx Hxs Hin] := foldl_max_spec x xs.
eexists; split; [by [] | exact: Hin |].
by move=> y; rewrite in_cons => /orP[/eqP->|/Hxs].
Qed.

Lemma np_max_spec (d : seq R) :
  (0 < size d)%N ->
  exists m, [/\ np_max d = Ok m, m \in d & forall y, y \in d -> y <= m].
Proof. by case: d => // x xs _; apply: py_max_spec. Qed.

(** The per-view maxima. *)
Lemma omapM_np_max (arrays : seq (seq R)) :
  all (fun d => 0 < size d)%N arrays ->
  exists ms,
    [/\ omapM (@np_max R) arrays = Ok ms, size ms = size arrays,
        forall m, m \in ms -> m \in flatten arrays &
        forall x, x \in flatten arrays -> exists2 m, m \in ms & x <= m].
Proof.
elim: arrays => [|d arrays IH] /=; first by exists [::]; split.
case/andP=> /np_max_spec[m [-> m_in m_ub]] /IH[ms [-> Hsz Hin Hub]] /=.
exists (m :: ms); split=> //=; first by rewrite Hsz.
- move=> y; rewrite in_cons mem_cat => /orP[/eqP->|/Hin ->]; first by rewrite m_in.
  by rewrite orbT.
- move=> y; rewrite mem_cat => /orP[/m_ub le|/Hub[m' in' le]].
    by exists m => //; rewrite mem_head.
  by exists m' => //; rewrite in_cons in' orbT.
Qed.

(** The divisor is the maximum over all views. *)
Lemma div_by_global_max_ok (arrays : seq (seq R)) :
  (0 < size arrays)%N -> all (fun d => 0 < size d)%N arrays ->
  exists M,
    [/\ M \in flatten arrays, forall x, x \in flatten arrays -> x <= M &
        div_by_global_max arrays =
        Ok [seq [seq x / M | x <- d] | d <- arrays]].
Proof.
move=> Hpos /omapM_np_max[ms [Hms Hsz Hin Hub]].
case: ms Hms Hsz Hin Hub => [|m ms] Hms Hsz Hin Hub.
  by move: Hpos; rewrite -Hsz.
have [M [HM M_in M_ub]] := py_max_spec m ms.
exists M; split.
- exact: Hin.
- by move=> x /Hub[m' /M_ub le1 le2]; apply: le_trans le2 le1.
- have obind_ok A B (a : A) (f : A -> outcome B) : obind (Ok a) f = f a by [].
  by rewrite /div_by_global_max Hms obind_ok HM.
Qed.

(** On at least one map, none of them of size zero, the normalisation
    divides every map by one and the same value [M], the maximum of the
    values of all maps. *)
Theorem depth_normalised_by_global_max (depths : seq (seq R)) :
  (0 < size depths)%N -> all (fun d => 0 < size d)%N depths ->
  exists M,
    [/\ M \in flatten depths, forall x, x \in flatten depths -> x <= M &
        div_by_global_max depths =
        Ok [seq [seq x / M | x <- d] | d <- depths]].
Proof. exact: div_by_global_max_ok. Qed.

(** The gallery of a run whose export step returns: with no threshold
    ([None]) the export is skipped, and the three images of every view
    follow, depth and confidence divided by their maxima over all views. *)
Lemma reconstruction_gallery (E : externals R) (w : World R) outdir
    (model : model_t E) device image_size filelist schedule niter pc ms cd tc
    cs sg winsize refid s :
  let w1 := world_after_alignment model device image_size filelist schedule
              niter sg winsize refid w in
  let scene := PyRef (size (heap w)) : pyval R in
  lookup_scene w1 scene = Ok s ->
  (0 < size (scene_imgs s))%N ->
  size (get_depthmaps E s) = size (scene_imgs s) ->
  size (scene_im_conf s) = size (scene_imgs s) ->
  all (fun d => 0 < size d)%N (get_depthmaps E s) ->
  all (fun d => 0 < size d)%N (scene_im_conf s) ->
  exists Md Mc,
    [/\ Md \in flatten (get_depthmaps E s),
        forall x, x \in flatten (get_depthmaps E s) -> x <= Md,
        Mc \in flatten (scene_im_conf s),
        forall x, x \in flatten (scene_im_conf s) -> x <= Mc &
        get_reconstructed_scene outdir model device image_size filelist
          schedule niter PyNone pc ms cd tc cs sg winsize refid w =
        (Ok (scene, PyNone,
             flatten
               [seq [:: Color (nth [::] (scene_imgs s) i);
                        rgb E (Gray [seq x / Md
                                    | x <- nth [::] (get_depthmaps E s) i]);
                        rgb E (Rgba [seq cmap_jet E (x / Mc)
                                    | x <- nth [::] (scene_im_conf s) i])]
               | i <- iota 0 (size (scene_imgs s))]),
         w1)].
Proof.
move=> w1 scene Hs Hpos Hd Hc Hdne Hcne.
have Hdpos : (0 < size (get_depthmaps E s))%N by rewrite Hd.
have Hcpos : (0 < size (scene_im_conf s))%N by rewrite Hc.
have [Md [Md_in Md_ub HMd]] := div_by_global_max_ok Hdpos Hdne.
have [Mc [Mc_in Mc_ub HMc]] := div_by_global_max_ok Hcpos Hcne.
exists Md, Mc; split=> //.
rewrite get_reconstructed_scene_split -/w1 -/scene.
rewrite /get_3D_model_from_scene bind_ret (bind_run _ (scene_of_run Hs)).
rewrite HMd bind_lift HMc bind_lift.
set depths := [seq [seq x / Md | x <- d] | d <- get_depthmaps E s].
set confs := [seq [seq cmap_jet E x | x <- d0]
             | d0 <- [seq [seq x / Mc | x <- d] | d <- scene_im_conf s]].
have -> : omapM (fun i =>
            obind (py_index (scene_imgs s) i) (fun im =>
            obind (py_index depths i) (fun d =>
            obind (py_index confs i) (fun c =>
            Ok [:: Color im; rgb E (Gray d); rgb E (Rgba c)]))))
            (iota 0 (size (scene_imgs s))) =
          Ok [seq [:: Color (nth [::] (scene_imgs s) i);
                      rgb E (Gray [seq x / Md
                                  | x <- nth [::] (get_depthmaps E s) i]);
                      rgb E (Rgba [seq cmap_jet E (x / Mc)
                                  | x <- nth [::] (scene_im_conf s) i])]
             | i <- iota 0 (size (scene_imgs s))].
  apply: (omapM_ok (P := fun i => (i < size (scene_imgs s))%N)).
    move=> i lt.
    rewrite !(py_index_nth [::]) ?size_map ?Hd ?Hc //=.
    rewrite /depths /confs !(nth_map [::]) ?size_map ?Hd ?Hc //.
    by rewrite -map_comp.
  by apply/allP=> i; rewrite mem_iota add0n.
by rewrite bind_lift.
Qed.
End Gallery.

(** ** The converter's assertion *)

Section Assertion.
Variable R : realFieldType.
Variable E : externals R.

(** No step of the converter other than its assertion can end in an
    assertion failure. *)
Lemma no_assert_obind {A B} (o : outcome A) (f : A -> outcome B) :
  no_assert o -> (forall a, no_assert (f a)) -> no_assert (obind o f).
Proof. by case: o => [a|e] //= _ Hf. Qed.

Lemma no_assert_omapM {A B} (f : A -> outcome B) (xs : seq A) :
  (forall x, no_assert (f x)) -> no_assert (omapM f xs).
Proof.
move=> Hf; elim: xs => [|x xs IH] //=.
apply: no_assert_obind => // y.
by apply: no_assert_obind.
Qed.

Lemma no_assert_py_index {A} (xs : seq A) i : no_assert (py_index xs i).
Proof. by rewrite /py_index; case: (ohead _). Qed.

Lemma no_assert_concat_masked {A} (arrays : seq (seq A)) msk :
  no_assert (concat_masked arrays msk).
Proof.
apply: no_assert_obind; last by case.
by apply: no_assert_omapM => pm; rewrite /np_bool_index; case: ifP.
Qed.

Lemma quiet_bind {A B} (c : M R A) (k : A -> M R B) :
  quiet c -> (forall a, quiet (k a)) -> quiet (bind c k).
Proof.
move=> Hc Hk w; rewrite /bind; move: (Hc w).
by case: (c w) => [[a|e] w'] //= _; apply: Hk.
Qed.

Lemma quiet_lift {A} (o : outcome A) : no_assert o -> quiet (lift (R := R) o).
Proof. by move=> H w. Qed.

Lemma quiet_ret {A} (a : A) : quiet (ret (R := R) a).
Proof. by []. Qed.

Lemma converter_quiet outdir name imgs pts3d msk focals cams cs cc pc tc :
  converter_lengths_ok imgs pts3d msk focals cams ->
  quiet (_convert_scene_output_to_glb E outdir name imgs pts3d msk focals cams
           cs cc pc tc).
Proof.
move=> Hok; rewrite /_convert_scene_output_to_glb Hok /=.
apply: quiet_bind => // _; apply: quiet_bind.
  case: (py_truth pc).
    apply: quiet_bind => [|pts].
      by apply: quiet_lift; apply: no_assert_concat_masked.
    apply: quiet_bind => [|col] //.
    by apply: quiet_lift; apply: no_assert_concat_masked.
  apply: quiet_bind => [|meshes] //.
  apply: quiet_lift; apply: no_assert_omapM => i.
  apply: no_assert_obind => [|im]; first exact: no_assert_py_index.
  apply: no_assert_obind => [|p]; first exact: no_assert_py_index.
  by apply: no_assert_obind => [|m] //; exact: no_assert_py_index.
move=> sc; apply: quiet_bind => [|c0].
  by apply: quiet_lift; apply: no_assert_py_index.
apply: quiet_bind => [|T].
  by apply: quiet_lift; rewrite /np_linalg_inv; case: ifP.
by apply: quiet_bind.
Qed.

(** An export that hands values to the converter was given a threshold
    that is a number. *)
Lemma bind_ok_inv {A B} (c : M R A) (k : A -> M R B) w b w2 :
  bind c k w = (Ok b, w2) ->
  exists a w1, c w = (Ok a, w1) /\ k a w1 = (Ok b, w2).
Proof.
rewrite /bind; case: (c w) => [[a|e] w1] // H.
by exists a, w1.
Qed.

Lemma get_optimized_values_ok_thr (w : World R) scene thr ms cd vals w' :
  get_optimized_values E scene thr ms cd w = (Ok vals, w') ->
  exists x, torch_tensor thr = Ok x.
Proof.
rewrite /get_optimized_values.
move=> H0.
have [sc1 [w1 [_ H1]]] := bind_ok_inv H0.
have [sc2 [w2 [_ H2]]] := bind_ok_inv H1.
have [s2 [w3 [_ H3]]] := bind_ok_inv H2.
have [x [w4 [Hl _]]] := bind_ok_inv H3.
by exists x; case: Hl.
Qed.

(** Reading the scene raises no assertion failure, and on a scene that
    satisfies the invariant neither does the converter. *)
Lemma quiet_scene_of (v : pyval R) : quiet (scene_of v).
Proof.
move=> w; rewrite /scene_of /lookup_scene /=.
by case: v => // r; case: (ohead _).
Qed.

Lemma quiet_new_object (s : SceneState R) : quiet (new_object s).
Proof. by []. Qed.

Lemma quiet_store_scene (v : pyval R) (s : SceneState R) :
  quiet (store_scene v s).
Proof. by move=> w; rewrite /store_scene; case: v => // r; case: ifP. Qed.

Lemma get_optimized_values_quiet scene thr ms cd :
  quiet (get_optimized_values E scene thr ms cd).
Proof.
rewrite /get_optimized_values /clean_pointcloud /mask_sky_method
        /setattr_min_conf_thr.
apply: quiet_bind => [|sc1].
  case: ifP => _; last exact: quiet_ret.
  by apply: quiet_bind => [|s]; [exact: quiet_scene_of|exact: quiet_new_object].
apply: quiet_bind => [|sc2].
  case: ifP => _; last exact: quiet_ret.
  by apply: quiet_bind => [|s]; [exact: quiet_scene_of|exact: quiet_new_object].
apply: quiet_bind => [|s]; first exact: quiet_scene_of.
cbv zeta; apply: quiet_bind => [|x].
  by apply: quiet_lift; case: thr.
apply: quiet_bind => [|_].
  by apply: quiet_bind => [|s']; [exact: quiet_scene_of|exact: quiet_store_scene].
apply: quiet_bind => [|s']; first exact: quiet_scene_of.
exact: quiet_ret.
Qed.

Lemma export_never_asserts (w : World R) outdir name r s thr pc ms cd tc cs :
  lookup_scene w (PyRef r) = Ok s -> scene_invariant s ->
  (get_3D_model_from_scene E outdir name (PyRef r) thr pc ms cd tc cs w).1
  <> Raise AssertionError.
Proof.
move=> Hs /and4P[/eqP Hip /eqP Hpc /eqP Hcp /eqP Hpf].
rewrite /get_3D_model_from_scene.
have Hq := @get_optimized_values_quiet (PyRef r) thr ms cd w.
case Hres: (get_optimized_values E (PyRef r) thr ms cd w) Hq => [[vals|e] w1];
  last first.
  by rewrite (bind_raise _ Hres) /=; case: e {Hres}.
move=> _; have [x Hthr] := get_optimized_values_ok_thr Hres.
rewrite (bind_run _ (@get_optimized_values_run R E w r s thr x ms cd Hs Hthr)).
cbv zeta; set ws := with_min_conf_thr _ _; set w2 := mkWorld _ _ _.
have [Ei Ep Ec Ef _] := working_scene_frame E (py_truth cd) (py_truth ms) s.
have Hsz := working_scene_sizes E (py_truth cd) (py_truth ms) s.
have Hok : converter_lengths_ok (scene_imgs ws) (scene_pts3d ws)
             (get_masks ws) (scene_focals ws) (scene_im_poses ws).
  rewrite /converter_lengths_ok /ws /= Ei Ep Ec Ef.
  rewrite (sizes_eq_size (sizes_get_masks (R := R) ws)) /ws /=.
  rewrite (sizes_eq_size Hsz).
  by rewrite -Hpc -Hip -Hpf -Hcp -Hpc -Hip !eqxx !leqnn.
have Hq := @converter_quiet outdir name _ _ _ _ _ cs PyNone pc tc Hok w2.
rewrite /bind; move: Hq.
by case: (_convert_scene_output_to_glb _ _ _ _ _ _ _ _ _ _ _ _ _) => [[a|[]] w3].
Qed.
(** Claim C10. The converter raises [AssertionError], before doing anything
    else, exactly when its inputs violate
    [len(pts3d) == len(mask) <= len(imgs) <= len(cams2world) == len(focals)];
    and an export of a scene object whose five per-view sequences have one
    length never ends in [AssertionError]. *)
Theorem converter_length_assertion :
  (forall (w : World R) outdir name imgs pts3d msk focals cams cs cc pc tc,
     converter_lengths_ok imgs pts3d msk focals cams = false ->
     _convert_scene_output_to_glb E outdir name imgs pts3d msk focals cams cs
       cc pc tc w = (Raise AssertionError, w)) /\
  (forall (w : World R) outdir name imgs pts3d msk focals cams cs cc pc tc,
     converter_lengths_ok imgs pts3d msk focals cams = true ->
     (_convert_scene_output_to_glb E outdir name imgs pts3d msk focals cams cs
        cc pc tc w).1 <> Raise AssertionError) /\
  (forall (imgs : seq (image R)) (pts3d : seq (pointmap R)) msk focals cams,
     converter_lengths_ok imgs pts3d msk focals cams <->
     [/\ size pts3d = size msk, (size msk <= size imgs)%N,
         (size imgs <= size cams)%N & size cams = size focals]) /\
  (forall (w : World R) outdir name r s thr pc ms cd tc cs,
     lookup_scene w (PyRef r) = Ok s -> scene_invariant s ->
     (get_3D_model_from_scene E outdir name (PyRef r) thr pc ms cd tc cs w).1
     <> Raise AssertionError).
Proof.
split; [|split; [|split]].
- move=> w outdir name imgs pts3d msk focals cams cs cc pc tc Hno.
  by rewrite /_convert_scene_output_to_glb Hno.
- move=> w outdir name imgs pts3d msk focals cams cs cc pc tc Hok.
  have := @converter_quiet outdir name imgs pts3d msk focals cams cs cc pc tc
            Hok w.
  by case: (_.1) => // -[].
- move=> imgs pts3d msk focals cams; rewrite /converter_lengths_ok; split.
    by case/and4P=> /eqP-> -> -> /eqP->.
  by case=> -> -> -> ->; rewrite !eqxx.
- move=> w outdir name r s thr pc ms cd tc cs Hs Hinv.
  exact: (@export_never_asserts w outdir name r s thr pc ms cd tc cs Hs Hinv).
Qed.
End Assertion.

(** ** Persistence *)

Section Persistence.
Variable R : realFieldType.

(** Writing a file twice keeps the last content. *)
Lemma fs_write_twice path (c1 c2 : file_content R) fs :
  fs_write path c2 (fs_write path c1 fs) = fs_write path c2 fs.
Proof. by rewrite /fs_write /= eqxx /= filter_id. Qed.

(** Reading a dictionary after an assignment. *)
Lemma dict_get_rcons {V} (k k' : string) (v : V) (d : seq (string * V)) :
  ~~ has (fun p => p.1 == k') d ->
  dict_get k (rcons d (k', v)) = if k == k' then Some v else dict_get k d.
Proof.
rewrite /dict_get; elim: d => [|[k0 v0] d IH] /=.
  by rewrite eq_sym; case: eqP.
rewrite negb_or => /andP[ne /IH {}IH].
case: (k0 =P k) => [E0|_] //=.
by move: ne; rewrite E0 eq_sym => /negbTE->.
Qed.

Lemma dict_get_replace {V} (k k' : string) (v : V) (d : seq (string * V)) :
  has (fun p => p.1 == k') d ->
  dict_get k [seq (if p.1 == k' then (k', v) else p) | p <- d] =
  if k == k' then Some v else dict_get k d.
Proof.
rewrite /dict_get; elim: d => [|[k0 v0] d IH] //=.
case: (k0 =P k') => [->|ne0] /=.
  move=> _; rewrite [k' == k]eq_sym; case: (k =P k') => // nek.
  case Hh: (has (fun p => p.1 == k') d); first by rewrite IH //; case: eqP nek.
  suff -> : [seq (if p.1 == k' then (k', v) else p) | p <- d] = d by [].
  elim: d Hh {IH} => [|[k1 v1] d IH] //=.
  by case: eqP => //= _ /IH->.
move=> Hh; case: (k0 =P k) => [E0|_] /=; last exact: IH.
by case: eqP => // Ek; case: ne0; rewrite E0.
Qed.

Lemma dict_get_set {V} (k k' : string) (v : V) (d : seq (string * V)) :
  dict_get k (dict_set k' v d) = if k == k' then Some v else dict_get k d.
Proof.
rewrite /dict_set; case: ifP => [|/negbT].
  exact: dict_get_replace.
exact: dict_get_rcons.
Qed.

(** The dictionary built by the loop of lines 490-492. *)
Lemma extrinsics_uniq (poses : seq 'M[R]_4) (names : seq string) acc :
  uniq ([seq kv.1 | kv <- acc] ++ names) -> size poses = size names ->
  foldl (@add_pose R) acc (zip poses names) =
  acc ++ [seq (pn.2, tolist pn.1) | pn <- zip poses names].
Proof.
elim: names poses acc => [|n names IH] [|p poses] acc //=; rewrite ?cats0 //.
move=> Hu [Hsz].
have Hn : ~~ has (fun kv => kv.1 == n) acc.
  move: Hu; rewrite cat_uniq => /and3P[_ /hasPn Hd _].
  apply/hasPn=> kv kv_in; apply/negP=> /eqP En.
  by move: (Hd n (mem_head _ _)); rewrite -En map_f.
rewrite /add_pose /dict_set /= (negbTE Hn) IH //.
  by rewrite map_rcons cat_rcons.
by rewrite cat_rcons.
Qed.

Lemma extrinsics_get (poses : seq 'M[R]_4) (names : seq string) acc k :
  dict_get k (foldl (@add_pose R) acc (zip poses names)) =
  foldl (fun o pv => if k == pv.2 then Some (tolist pv.1) else o)
    (dict_get k acc) (zip poses names).
Proof.
elim: names poses acc => [|n names IH] [|p poses] acc //=.
by rewrite IH /add_pose dict_get_set.
Qed.

Lemma extrinsics_last (poses : seq 'M[R]_4) (names : seq string) o i :
  size poses = size names -> (i < size names)%N ->
  nth EmptyString names i \notin drop i.+1 names ->
  foldl (fun o pv => if nth EmptyString names i == pv.2
                     then Some (tolist pv.1) else o) o (zip poses names) =
  Some (tolist (nth 0 poses i)).
Proof.
elim: names poses o i => [|n names IH] [|p poses] o [|i] //= [Hsz].
  rewrite eqxx drop0 => _ Hno.
  elim: names poses Hno {IH Hsz} => [|m names IH] [|q poses] //=.
  by rewrite in_cons negb_or => /andP[/negbTE-> /IH].
by rewrite ltnS => lt Hno; apply: IH.
Qed.

(** A pose is written as four rows of four numbers. *)
Lemma tolist_shape (pose : 'M[R]_4) : is_4x4 (tolist pose).
Proof.
rewrite /is_4x4 /tolist size_map size_enum_ord eqxx /=.
by rewrite all_map; apply/allP=> i _ /=; rewrite size_map size_enum_ord.
Qed.

Lemma extrinsics_shapes (poses : seq 'M[R]_4) (names : seq string) acc :
  all (fun kv => is_4x4 kv.2) acc ->
  all (fun kv => is_4x4 kv.2) (foldl (@add_pose R) acc (zip poses names)).
Proof.
elim: names poses acc => [|n names IH] [|p poses] acc //= Hacc.
apply: IH; rewrite /add_pose /dict_set /=; case: ifP => _.
  rewrite all_map; apply/allP=> kv /(allP Hacc) /= Hkv.
  by case: ifP => _ //=; apply: tolist_shape.
by rewrite all_rcons /= tolist_shape.
Qed.

(** Claim C7. [save_camera_poses] raises [AssertionError] and writes nothing
    when the numbers of poses and of names differ; when they agree it
    writes a JSON object with the single key ["extrinsics"], whose value
    maps every view name to its pose as four rows of four numbers: the pose
    of the last view of that name, and exactly the pairs (name, pose) in
    view order when the names are distinct. *)
Theorem save_camera_poses_spec (w : World R) (poses : seq 'M[R]_4)
    (names : seq string) (path : string) :
  (size poses != size names ->
   save_camera_poses poses names path w = (Raise AssertionError, w)) /\
  (size poses = size names ->
   let M_ext := foldl (@add_pose R) [::] (zip poses names) in
   [/\ save_camera_poses poses names path w =
         (Ok tt,
          mkWorld (heap w)
            (fs_write (os_path_join "./estimation" path)
               (JsonFile
                  (JObj [:: ("extrinsics"%string,
                             JObj [seq (kv.1, json_of_pose kv.2)
                                  | kv <- M_ext])]))
               (files w))
            (calls w)),
       all (fun kv => is_4x4 kv.2) M_ext,
       forall i, (i < size names)%N ->
         nth EmptyString names i \notin drop i.+1 names ->
         dict_get (nth EmptyString names i) M_ext =
         Some (tolist (nth 0 poses i)) &
       uniq names ->
       M_ext = [seq (pn.2, tolist pn.1) | pn <- zip poses names]]).
Proof.
split.
  move=> ne; rewrite /save_camera_poses eq_sym (negbTE ne).
  by [].
move=> Hsz M_ext; split.
- rewrite /save_camera_poses Hsz eqxx bind_ret /json_dump_extrinsics -/M_ext.
  rewrite /bind /os_path_isfile /write_file /=.
  by case: (has _ _) => //=; rewrite fs_write_twice.
- exact: extrinsics_shapes.
- move=> i lt Hno; rewrite /M_ext extrinsics_get /=.
  exact: extrinsics_last.
- by move=> Hu; rewrite /M_ext extrinsics_uniq.
Qed.

(** Claim C8. On an array with four columns [save_point_to_ply] does what
    it does on the array's first three columns: it writes the rows cut to
    three entries. *)
Theorem save_point_to_ply_drops_column (w : World R) (points : array2 R)
    (file_name : string) :
  ncols points = 4%N ->
  save_point_to_ply points file_name w =
    save_point_to_ply (slice_cols3 points) file_name w /\
  save_point_to_ply points file_name w =
    (Ok tt,
     mkWorld (heap w)
       (fs_write (os_path_join "./estimation/" file_name)
          (PlyFile [seq take 3 r | r <- rows points]) (files w))
       (calls w)).
Proof.
by move=> H4; rewrite /save_point_to_ply /Vector3dVector /= H4 /= H4.
Qed.
End Persistence.

(** ** The concrete scene *)

Section DemoFacts.

(** The hypotheses of the statements above hold of the concrete scene. *)
Lemma demo_pose0_unitmx : Demo.pose0 \in unitmx.
Proof.
rewrite unitmxE /Demo.pose0.
have -> : \det (block_mx (1%:M : 'M[rat]_3) (const_mx 1 : 'M_(3, 1)) 0
                  (1%:M : 'M[rat]_1)) =
          \det (1%:M : 'M[rat]_3) * \det (1%:M : 'M[rat]_1).
  by rewrite det_ublock.
by rewrite !det1.
Qed.

Lemma demo_opengl_unitmx : OPENGL Demo.ext \in unitmx.
Proof.
rewrite /= /Demo.opengl unitmxE.
have -> : \det (block_mx (1%:M : 'M[rat]_1) 0 0
                  (block_mx ((-1)%:M : 'M[rat]_2) 0 0 (1%:M : 'M[rat]_1))) =
          \det (1%:M : 'M[rat]_1) *
          (\det ((-1)%:M : 'M[rat]_2) * \det (1%:M : 'M[rat]_1)).
  by rewrite !det_ublock.
by rewrite !det1 det_scalar.
Qed.

Lemma demo_lookup : lookup_scene Demo.world (PyRef 0) = Ok Demo.scene.
Proof. by []. Qed.

Lemma demo_invariant : scene_invariant Demo.scene.
Proof. by []. Qed.

Lemma demo_grids : scene_grids_ok Demo.scene.
Proof. by []. Qed.

Lemma demo_first_pose : first_pose Demo.scene \in unitmx.
Proof. exact: demo_pose0_unitmx. Qed.

End DemoFacts.

(** ** The statements at the concrete scene *)

Lemma export_canonical_frame_witness :
  exists sc,
    [/\ (get_3D_model_from_scene Demo.ext "./estimation/" (PyStr "box")
           (PyRef 0) (PyNum 3) (PyBool true) (PyBool false) (PyBool true)
           (PyBool false) (PyNum (5 / 100)) Demo.world).1 =
        Ok (PyStr (glb_path Demo.ext "./estimation/" (PyStr "box")
                     (PyBool true))),
        fs_read (glb_path Demo.ext "./estimation/" (PyStr "box") (PyBool true))
          (files (get_3D_model_from_scene Demo.ext "./estimation/"
                    (PyStr "box") (PyRef 0) (PyNum 3) (PyBool true)
                    (PyBool false) (PyBool true) (PyBool false)
                    (PyNum (5 / 100)) Demo.world).2) =
        Some (GlbFile sc),
        base_transform sc =
        invmx (first_pose Demo.scene *m OPENGL Demo.ext *m rot rat),
        base_transform sc *m first_pose Demo.scene =
        invmx (OPENGL Demo.ext *m rot rat) &
        forall W, W \in unitmx ->
          canonical_transform Demo.ext (W *m first_pose Demo.scene) *m W =
          base_transform sc].
Proof.
apply: (@export_canonical_frame rat Demo.ext Demo.world "./estimation/"
          (PyStr "box") 0 Demo.scene (PyNum 3) 3 (PyBool true) (PyBool false)
          (PyBool true) (PyBool false) (PyNum (5 / 100))).
- exact: demo_lookup.
- by [].
- exact: demo_invariant.
- exact: demo_grids.
- by [].
- exact: demo_first_pose.
- exact: demo_opengl_unitmx.
Defined.

Lemma depth_normalised_by_global_max_witness :
  exists M : rat,
    [/\ M \in flatten [:: [:: 1; 2]; [:: 4; 3]],
        forall x, x \in flatten [:: [:: 1; 2]; [:: 4; 3]] -> x <= M &
        div_by_global_max [:: [:: 1; 2]; [:: 4; 3]] =
        Ok [seq [seq x / M | x <- d] | d <- [:: [:: 1; 2]; [:: 4; 3]]]].
Proof.
by apply: (@depth_normalised_by_global_max rat [:: [:: 1; 2]; [:: 4; 3]]).
Defined.

(** Two views with depth maxima 2 and 4: both are divided by 4. *)
Example depth_maxima_2_and_4 :
  div_by_global_max [:: [:: 1; 2 : rat]; [:: 4; 3]] =
  Ok [:: [:: 1 / 4; 2 / 4]; [:: 4 / 4; 3 / 4]].
Proof. by []. Qed.

Lemma export_frame_witness :
  let w' :=
    (get_3D_model_from_scene Demo.ext "./estimation/" (PyStr "box") (PyRef 0)
       (PyNum 5) (PyBool false) (PyBool false) (PyBool false) (PyBool false)
       (PyNum (5 / 100)) Demo.world).2 in
  lookup_scene w' (PyRef 0) =
    Ok (if py_truth (PyBool false : pyval rat) || py_truth (PyBool false : pyval rat)
        then Demo.scene
        else with_min_conf_thr (scene_conf_trf Demo.scene 5) Demo.scene) /\
  (forall r', r' != 0%N -> (r' < size (heap Demo.world))%N ->
     lookup_scene w' (PyRef r') = lookup_scene Demo.world (PyRef r')).
Proof.
by apply: (@export_frame rat Demo.ext Demo.world "./estimation/" (PyStr "box")
             0 Demo.scene (PyNum 5) 5).
Defined.

(** With depth clean-up on, an export asked for the threshold 5 leaves the
    caller's scene at its threshold 3: [min_conf_thr] is not set to
    [conf_trf 5]. *)
Lemma export_clean_depth_keeps_min_conf_thr :
  let w' :=
    (get_3D_model_from_scene Demo.ext "./estimation/" (PyStr "box") (PyRef 0)
       (PyNum 5) (PyBool false) (PyBool false) (PyBool true) (PyBool false)
       (PyNum (5 / 100)) Demo.world).2 in
  read_min_conf_thr w' (PyRef 0) = Ok 3 /\
  read_min_conf_thr w' (PyRef 0) <> Ok (scene_conf_trf Demo.scene 5).
Proof.
rewrite /read_min_conf_thr.
by rewrite (@export_caller_scene rat Demo.ext Demo.world "./estimation/"
              (PyStr "box") 0 Demo.scene (PyNum 5) 5).
Qed.

Lemma export_masks_idempotent_witness :
  let w1 :=
    (get_3D_model_from_scene Demo.ext "./estimation/" (PyStr "box") (PyRef 0)
       (PyNum 3) (PyBool true) (PyBool true) (PyBool true) (PyBool false)
       (PyNum (5 / 100)) Demo.world).2 in
  exists msk,
    [/\ export_masks Demo.ext (PyRef 0) (PyNum 3) (PyBool true) (PyBool true)
          Demo.world = Ok msk,
        export_masks Demo.ext (PyRef 0) (PyNum 3) (PyBool true) (PyBool true)
          w1 = Ok msk,
        msk = get_masks
                (with_min_conf_thr (scene_conf_trf Demo.scene 3)
                   (working_scene Demo.ext (py_truth (PyBool true : pyval rat))
                      (py_truth (PyBool true : pyval rat)) Demo.scene)) &
        export_point_count Demo.ext (PyRef 0) (PyNum 3) (PyBool true)
          (PyBool true) w1 =
        export_point_count Demo.ext (PyRef 0) (PyNum 3) (PyBool true)
          (PyBool true) Demo.world].
Proof.
by apply: (@export_masks_idempotent rat Demo.ext Demo.world "./estimation/"
             (PyStr "box") 0 Demo.scene (PyNum 3) 3).
Defined.

Lemma save_point_to_ply_drops_column_witness :
  save_point_to_ply Demo.points4 "box_point_cloud.ply" Demo.world =
    save_point_to_ply (slice_cols3 Demo.points4) "box_point_cloud.ply"
      Demo.world /\
  save_point_to_ply Demo.points4 "box_point_cloud.ply" Demo.world =
    (Ok tt,
     mkWorld (heap Demo.world)
       (fs_write (os_path_join "./estimation/" "box_point_cloud.ply")
          (PlyFile [seq take 3 r | r <- rows Demo.points4])
          (files Demo.world))
       (calls Demo.world)).
Proof.
by apply: (@save_point_to_ply_drops_column rat Demo.world Demo.points4
             "box_point_cloud.ply").
Defined.

(** Three views, threshold 3.0 from the slider: the run stops with an
    AttributeError and the file system is untouched. *)
Example reconstruction_run_fails :
  let run :=
    get_reconstructed_scene (E := Demo.ext) "/tmp/out" tt "cuda" 512
      [:: "a.png"; "b.png"; "c.png"]%string "linear" 300 (PyNum 3)
      (PyBool false) (PyBool false) (PyBool true) (PyBool false)
      (PyNum (5 / 100)) "complete" 1 0 Demo.world in
  run.1 = Raise AttributeError /\ files run.2 = [::].
Proof.
cbv zeta; rewrite get_reconstructed_scene_split /get_3D_model_from_scene bindA.
by rewrite (bind_raise _ (get_optimized_values_not_object _ _ _ _ _ _)).
Qed.

(** Three poses and two names. *)
Example save_poses_count_mismatch :
  save_camera_poses [:: Demo.pose0; 1%:M; 1%:M] [:: "a"; "b"]%string
    "box_poses.json" Demo.world =
  (Raise AssertionError, Demo.world).
Proof. by []. Qed.

(** Three views under the [complete] topology: the iterative mode; two
    views, or one view duplicated: the pair viewer and no optimization. *)
Example three_views_iterative :
  calls (get_reconstructed_scene (E := Demo.ext) "/tmp/out" tt "cuda" 512
           [:: "a.png"; "b.png"; "c.png"]%string "linear" 300 (PyNum 3)
           (PyBool false) (PyBool false) (PyBool true) (PyBool false)
           (PyNum (5 / 100)) "complete" 1 0 Demo.world).2 =
  [:: Call_global_aligner rat PointCloudOptimizer;
      Call_compute_global_alignment "mst" 300 "linear" (1 / 100)].
Proof. by rewrite run_calls. Qed.

Example two_views_pair_viewer :
  calls (get_reconstructed_scene (E := Demo.ext) "/tmp/out" tt "cuda" 512
           [:: "a.png"; "b.png"]%string "linear" 300 (PyNum 3)
           (PyBool false) (PyBool false) (PyBool true) (PyBool false)
           (PyNum (5 / 100)) "complete" 1 0 Demo.world).2 =
  [:: Call_global_aligner rat PairViewer].
Proof. by rewrite run_calls. Qed.

Example one_view_duplicated :
  size (resolved_views Demo.ext 512 [:: "a.png"%string]) = 2%N /\
  calls (get_reconstructed_scene (E := Demo.ext) "/tmp/out" tt "cuda" 512
           [:: "a.png"]%string "linear" 300 (PyNum 3)
           (PyBool false) (PyBool false) (PyBool true) (PyBool false)
           (PyNum (5 / 100)) "complete" 1 0 Demo.world).2 =
  [:: Call_global_aligner rat PairViewer].
Proof. by rewrite run_calls. Qed.

(** * Further properties *)

(** ** The scene-graph sliders *)

Section Options.

Lemma max_winsize_of0 : max_winsize_of 0 = 1.
Proof. by []. Qed.

Lemma max_winsize_ofS (n : nat) :
  max_winsize_of n.+1 = Posz (maxn 1 (n %/ 2)).
Proof.
rewrite /max_winsize_of.
have -> : (n.+1 : int) - 1 = n by rewrite -addn1 PoszD addrK.
rewrite divz_nat.
case: (n %/ 2)%N => [|k] //.
by rewrite /Order.max /= ltz_nat /maxn; case: ifP.
Qed.

Lemma set_scenegraph_optionsE inputfiles winsize refid sg :
  set_scenegraph_options inputfiles winsize refid sg =
  (winsize_slider (max_winsize_of (num_files_of inputfiles)) (sg == "swin"%string),
   refid_slider (num_files_of inputfiles) (sg == "oneref"%string)).
Proof.
rewrite /set_scenegraph_options.
case: eqP => [->|_] //.
by case: eqP.
Qed.

(** Property X1. Whatever files are selected, the window-size slider
    returned by [set_scenegraph_options] is consistent: its minimum is 1
    and its value is its maximum, which is at least 1. With fewer than
    three files the maximum is 1; with [n >= 3] files it is the largest
    [k] with [2 * k + 1 <= n]. *)
Theorem winsize_slider_range inputfiles winsize refid sg :
  let n := num_files_of inputfiles in
  let ws := (set_scenegraph_options inputfiles winsize refid sg).1 in
  [/\ slider_ok ws, minimum ws = 1, value ws = maximum ws,
      (n < 3)%N -> maximum ws = 1 &
      (2 < n)%N ->
      (2 * maximum ws + 1 <= (n : int)) && ((n : int) < 2 * maximum ws + 3)].
Proof.
move=> n ws; rewrite /ws set_scenegraph_optionsE /= /slider_ok /= -/n.
case: n => [|n]; first by split.
rewrite max_winsize_ofS; split=> //.
- by rewrite lexx andbT lez_nat leq_max.
- rewrite ltnS => le2; congr Posz.
  by apply/maxn_idPl; rewrite -ltnS ltn_divLR // mul2n -addnn; case: n le2 => [|[|[|]]].
- rewrite ltnS => lt1.
  have Hk : (0 < n %/ 2)%N by rewrite divn_gt0.
  have -> : maxn 1 (n %/ 2) = (n %/ 2)%N by apply/maxn_idPr.
  rewrite -PoszM -!PoszD lez_nat ltz_nat.
  rewrite addn1 ltnS mulnC leq_trunc_div /=.
  have := ltn_ceil n (isT : 0 < 2)%N.
  rewrite mulSn mulnC addnC.
  by rewrite -[(1 + (1 + 1))%N]/(3%N) addn3 addn2 !ltnS.
Qed.

(** Property X2. The reference-id slider starts at 0 and ranges from 0
    to the number of files minus one. Its range is valid except for an
    empty list of files, where the maximum is -1, below the minimum;
    with no selection at all ([None]) one file is assumed. *)
Theorem refid_slider_range inputfiles winsize refid sg :
  let rs := (set_scenegraph_options inputfiles winsize refid sg).2 in
  [/\ minimum rs = 0, value rs = 0,
      maximum rs = (num_files_of inputfiles : int) - 1 &
      slider_ok rs = (inputfiles != Some [::])].
Proof.
move=> rs; rewrite /rs set_scenegraph_optionsE /= /slider_ok /=; split=> //.
by case: inputfiles {rs} => [[|f fs]|].
Qed.

(** Property X3. The window-size slider is shown exactly for the scene
    graph "swin" and the reference-id slider exactly for "oneref", so the
    two are never shown together; the sliders' current values, which the
    function receives, have no influence on what it returns. *)
Theorem scenegraph_sliders_visibility inputfiles winsize refid sg :
  let r := set_scenegraph_options inputfiles winsize refid sg in
  [/\ visible r.1 = (sg == "swin"%string),
      visible r.2 = (sg == "oneref"%string),
      ~~ (visible r.1 && visible r.2) &
      forall winsize' refid',
        set_scenegraph_options inputfiles winsize' refid' sg = r].
Proof.
move=> r; rewrite /r !set_scenegraph_optionsE /=; split=> //.
- by case: eqP => // ->.
- by move=> w' r'; rewrite set_scenegraph_optionsE.
Qed.
End Options.

(** ** The converter on arbitrary inputs *)

Section Converter.
Variable R : realFieldType.
Variable E : externals R.

Lemma bind_lift_raise {A B} (e : exn) (k : A -> M R B) w :
  bind (lift (Raise e)) k w = (Raise e, w).
Proof. by []. Qed.

(** Every step of the converter before the export is a pure computation:
    a call either raises in the world it started in, or writes one file. *)
Lemma converter_cases (w : World R) outdir name imgs pts3d msk focals cams
    cs cc pc tc :
  (exists e,
     _convert_scene_output_to_glb E outdir name imgs pts3d msk focals cams
       cs cc pc tc w = (Raise e, w)) \/
  (exists g c0,
     [/\ converter_lengths_ok imgs pts3d msk focals cams,
         built_geometry E (py_truth pc) imgs pts3d msk g,
         py_index cams 0 = Ok c0,
         c0 *m OPENGL E *m rot R \in unitmx &
         _convert_scene_output_to_glb E outdir name imgs pts3d msk focals cams
           cs cc pc tc w =
         (Ok (glb_path E outdir name pc),
          mkWorld (heap w)
            (fs_write (glb_path E outdir name pc)
               (GlbFile (mkTrimeshScene [:: g] (canonical_transform E c0)))
               (files w))
            (calls w))]).
Proof.
rewrite /_convert_scene_output_to_glb /glb_path /built_geometry; cbv zeta.
case Hlen: (converter_lengths_ok _ _ _ _ _); last by left; exists AssertionError.
rewrite /py_assert bind_ret.
have tail (g : geometry R) :
  (exists e,
     bind (lift (py_index cams 0)) (fun c0 =>
       bind (lift (np_linalg_inv (c0 *m OPENGL E *m rot R))) (fun T =>
         bind (write_file
                 (os_path_join outdir
                    (String.append (py_format E name)
                       (String.append "_"
                          (String.append
                             (if py_truth pc then "pointcloud"%string
                              else "mesh"%string) ".glb"))))
                 (GlbFile (apply_transform T
                    (add_geometry g (trimesh_Scene_new R)))))
           (fun _ => ret
              (os_path_join outdir
                 (String.append (py_format E name)
                    (String.append "_"
                       (String.append
                          (if py_truth pc then "pointcloud"%string
                           else "mesh"%string) ".glb"))))))) w =
     (Raise e, w)) \/
  (exists c0,
     [/\ py_index cams 0 = Ok c0, c0 *m OPENGL E *m rot R \in unitmx &
     bind (lift (py_index cams 0)) (fun c0 =>
       bind (lift (np_linalg_inv (c0 *m OPENGL E *m rot R))) (fun T =>
         bind (write_file
                 (os_path_join outdir
                    (String.append (py_format E name)
                       (String.append "_"
                          (String.append
                             (if py_truth pc then "pointcloud"%string
                              else "mesh"%string) ".glb"))))
                 (GlbFile (apply_transform T
                    (add_geometry g (trimesh_Scene_new R)))))
           (fun _ => ret
              (os_path_join outdir
                 (String.append (py_format E name)
                    (String.append "_"
                       (String.append
                          (if py_truth pc then "pointcloud"%string
                           else "mesh"%string) ".glb"))))))) w =
     (Ok (os_path_join outdir
            (String.append (py_format E name)
               (String.append "_"
                  (String.append
                     (if py_truth pc then "pointcloud"%string
                      else "mesh"%string) ".glb")))),
      mkWorld (heap w)
        (fs_write
           (os_path_join outdir
              (String.append (py_format E name)
                 (String.append "_"
                    (String.append
                       (if py_truth pc then "pointcloud"%string
                        else "mesh"%string) ".glb"))))
           (GlbFile (mkTrimeshScene [:: g] (canonical_transform E c0)))
           (files w))
        (calls w))]).
  case Hc0: (py_index cams 0) => [c0|e]; last by left; exists e.
  rewrite bind_lift /np_linalg_inv.
  case: ifP => Hu; last by left; exists LinAlgError.
  right; exists c0; split=> //.
  by rewrite bind_lift /bind /write_file /ret /apply_transform /= mulmx1.
case: (py_truth pc) tail => tail.
- case Hp: (concat_masked pts3d msk) => [pts|e]; last by left; exists e.
  case Hi: (concat_masked imgs msk) => [col|e]; last by left; exists e.
  rewrite bindA bind_lift bindA bind_lift bind_ret.
  case: (tail (PointCloud pts col)) => [[e He]|[c0 [H0 Hu Hr]]].
    by left; exists e.
  right; exists (PointCloud pts col), c0; split=> //.
  by exists pts, col.
- case Hm: (omapM _ _) => [meshes|e]; last first.
    by left; exists e; rewrite bindA bind_lift_raise.
  rewrite bindA bind_lift bind_ret.
  case: (tail (Trimesh (cat_meshes E meshes))) => [[e He]|[c0 [H0 Hu Hr]]].
    by left; exists e.
  right; exists (Trimesh (cat_meshes E meshes)), c0; split=> //.
  by exists meshes.
Qed.


(** Property X4. A call of the converter does one of two things. Either
    it raises and leaves the store, the file system and the call log
    exactly as they were; or the length assertion held, the first camera
    pose [c0] makes [c0 * OPENGL * rot] invertible, and it returns the
    path [outdir/<name>_<mesh|pointcloud>.glb] after writing that one
    file: a scene with exactly one geometry (built from the images, the
    point maps and the masks only, no camera is added) under the inverse
    of [c0 * OPENGL * rot]. *)
Theorem converter_raises_or_writes_one_file (w : World R) outdir name imgs
    pts3d msk focals cams cs cc pc tc :
  let run :=
    _convert_scene_output_to_glb E outdir name imgs pts3d msk focals cams
      cs cc pc tc w in
  (exists e, run = (Raise e, w)) \/
  (exists g c0,
     [/\ converter_lengths_ok imgs pts3d msk focals cams,
         built_geometry E (py_truth pc) imgs pts3d msk g,
         head 0 cams = c0 /\ (0 < size cams)%N,
         c0 *m OPENGL E *m rot R \in unitmx &
         run =
         (Ok (glb_path E outdir name pc),
          mkWorld (heap w)
            (fs_write (glb_path E outdir name pc)
               (GlbFile (mkTrimeshScene [:: g] (canonical_transform E c0)))
               (files w))
            (calls w))]).
Proof.
move=> run; rewrite /run {run}.
case: (converter_cases w outdir name imgs pts3d msk focals cams cs cc pc tc).
  by left.
move=> [g [c0 [Hlen Hg Hc0 Hu Hrun]]]; right; exists g, c0; split=> //.
by case: cams Hc0 {Hlen Hrun} => [|c cams] //= [->].
Qed.

Lemma omapM_sizes {A} (arrays : seq (seq A)) (msk : seq (seq bool)) ys :
  omapM (fun pm => np_bool_index pm.1 pm.2) (zip arrays msk) = Ok ys ->
  (size msk <= size arrays)%N ->
  sumn [seq size y | y <- ys] = sumn [seq count id m | m <- msk].
Proof.
elim: arrays msk ys => [|p ps IH] [|m ms] ys //=; first by case=> <-.
  by case=> <-.
rewrite /np_bool_index; case: eqP => // Hpm.
case Hrest: (omapM _ _) => [zs|] //= [<-] /=.
rewrite ltnS => le; rewrite (IH _ _ Hrest le).
by rewrite size_mask.
Qed.

Lemma concat_masked_size {A} (arrays : seq (seq A)) (msk : seq (seq bool)) xs :
  concat_masked arrays msk = Ok xs -> (size msk <= size arrays)%N ->
  size xs = masked_point_count msk.
Proof.
rewrite /concat_masked /masked_point_count.
case Hys: (omapM _ _) => [ys|] //=.
case: ys Hys => [|y ys] //= Hys [<-] le.
by rewrite -(omapM_sizes Hys le) /= size_cat size_flatten.
Qed.

(** Property X5. In point-cloud mode a converter call that returns has
    written a point cloud with as many points as the masks keep pixels,
    and with exactly one colour for each point. *)
Theorem pointcloud_export_counts (w w' : World R) outdir name imgs pts3d msk
    focals cams cs cc pc tc p :
  py_truth pc ->
  _convert_scene_output_to_glb E outdir name imgs pts3d msk focals cams
    cs cc pc tc w = (Ok p, w') ->
  exists pts col T,
    [/\ fs_read p (files w') = Some (GlbFile (mkTrimeshScene [:: PointCloud pts col] T)),
        size pts = masked_point_count msk &
        size col = masked_point_count msk].
Proof.
move=> Hpc.
case: (converter_cases w outdir name imgs pts3d msk focals cams cs cc pc tc).
  by move=> [e ->].
move=> [g [c0 [Hlen Hg _ _ ->]]] [<- <-] /=.
move: Hg; rewrite /built_geometry Hpc => -[pts [col [Hp Hc ->]]].
exists pts, col, (canonical_transform E c0).
move/and4P: Hlen => [/eqP Hpm le_mi _ _].
split.
- by rewrite /fs_read /fs_write /= eqxx.
- by apply: (concat_masked_size Hp); rewrite Hpm.
- exact: (concat_masked_size Hc).
Qed.

Lemma omapM_cat {A B} (f : A -> outcome B) (xs ys : seq A) :
  omapM f (xs ++ ys) =
  obind (omapM f xs) (fun us => obind (omapM f ys) (fun vs => Ok (us ++ vs))).
Proof.
elim: xs => [|x xs IH] /=; first by case: (omapM f ys).
by case: (f x) => //= y; rewrite IH; case: (omapM f xs) => //= us; case: (omapM f ys).
Qed.

(** Property X6. The length assertion admits fewer point maps than
    images, but mesh mode does not: its loop runs over the images and
    indexes the point maps, so with fewer point maps than images the
    converter raises [IndexError] and writes nothing. *)
Theorem mesh_export_needs_every_pointmap (w : World R) outdir name imgs pts3d
    msk focals cams cs cc pc tc :
  ~~ py_truth pc ->
  converter_lengths_ok imgs pts3d msk focals cams ->
  (size pts3d < size imgs)%N ->
  _convert_scene_output_to_glb E outdir name imgs pts3d msk focals cams
    cs cc pc tc w = (Raise IndexError, w).
Proof.
move=> /negbTE Hpc Hlen lt.
rewrite /_convert_scene_output_to_glb Hlen /py_assert bind_ret Hpc; cbv zeta.
move/and4P: Hlen => [/eqP Hpm _ _ _].
set f := fun i : nat => _.
have -> : omapM f (iota 0 (size imgs)) = Raise IndexError.
  have -> : iota 0 (size imgs) =
            iota 0 (size pts3d) ++
            size pts3d :: iota (size pts3d).+1 (size imgs - (size pts3d).+1).
    by rewrite -[X in _ ++ X]/(iota (size pts3d) (size imgs - (size pts3d).+1).+1)
               subnSK // -{2}[size pts3d]add0n -iotaD subnKC // ltnW.
  rewrite omapM_cat.
  have -> : omapM f (iota 0 (size pts3d)) =
            Ok [seq pts3d_to_trimesh E (nth [::] imgs i) (nth [::] pts3d i)
                      (nth [::] msk i) | i <- iota 0 (size pts3d)].
    apply: (omapM_ok (P := fun i => (i < size pts3d)%N)).
    - move=> i lti; rewrite /f (py_index_nth [::]) ?(ltn_trans lti) //=.
      by rewrite (py_index_nth [::]) //= (py_index_nth [::]) -?Hpm.
    - by apply/allP=> i; rewrite mem_iota add0n.
  rewrite /= /f (py_index_nth [::]) //=.
  by rewrite /py_index drop_oversize.
by rewrite bindA bind_lift_raise.
Qed.

(** Property X7. In point-cloud mode, when there is no point map (and so
    no mask) the length assertion holds but the concatenation has nothing
    to concatenate: the converter raises [ValueError] and writes
    nothing. *)
Theorem pointcloud_export_no_pointmaps (w : World R) outdir name imgs msk
    focals cams cs cc pc tc :
  py_truth pc ->
  converter_lengths_ok imgs [::] msk focals cams ->
  _convert_scene_output_to_glb E outdir name imgs [::] msk focals cams
    cs cc pc tc w = (Raise ValueError, w).
Proof.
move=> Hpc Hlen.
rewrite /_convert_scene_output_to_glb Hlen /py_assert bind_ret Hpc.
by case: msk Hlen => [|m ms].
Qed.

End Converter.

(** ** Paths and the files an export touches *)

Section Paths.

Lemma length_append (a b : string) :
  String.length (String.append a b) = (String.length a + String.length b)%N.
Proof. by elim: a => [|c a IH] //=; rewrite IH. Qed.

Lemma startswith_sep_append (a b : string) :
  startswith_sep (String.append a b) =
  if a is EmptyString then startswith_sep b else startswith_sep a.
Proof. by case: a. Qed.

(** The length of a joined path whose last component ends in a suffix that
    does not start with the separator. *)
Lemma os_path_join_length (a f : string) (c : ascii) (s : string) :
  Ascii.eqb c "/"%char = false ->
  String.length (os_path_join a (String.append f (String c s))) =
  (String.length (os_path_join a (String.append f (String c EmptyString))) +
   String.length s)%N.
Proof.
move=> Hc; rewrite /os_path_join !startswith_sep_append.
have -> : (if f is EmptyString then startswith_sep (String c s)
           else startswith_sep f) =
          (if f is EmptyString then startswith_sep (String c EmptyString)
           else startswith_sep f).
  by case: f => //=; rewrite Hc.
case: ifP => _; first by rewrite !length_append /= addn1 addSn addnS.
by case: ifP => _; rewrite !length_append /= ?length_append /= addn1 !addnS !addnA.
Qed.

End Paths.

Section ExportFiles.
Variable R : realFieldType.
Variable E : externals R.

(** The mesh and the point cloud of one scene go to different files. *)
Lemma glb_path_modes outdir (name pc pc' : pyval R) :
  py_truth pc != py_truth pc' ->
  glb_path E outdir name pc != glb_path E outdir name pc'.
Proof.
move=> Hne; apply/eqP=> /(congr1 String.length); rewrite /glb_path.
have Hu : Ascii.eqb "_" "/" = false by [].
by case: (py_truth pc) (py_truth pc') Hne => [] [] // _;
   rewrite (@os_path_join_length outdir (py_format E name) "_" "pointcloud.glb" Hu)
           (@os_path_join_length outdir (py_format E name) "_" "mesh.glb" Hu);
   move/eqP; rewrite eqn_add2l.
Qed.

Lemma fs_read_write_ne (p q : string) (c : file_content R) fs :
  p != q -> fs_read p (fs_write q c fs) = fs_read p fs.
Proof.
move=> ne; rewrite /fs_read /fs_write /= eq_sym (negbTE ne).
rewrite -filter_predI.
congr (if _ is p0 :: _ then _ else _).
apply: eq_filter => x /=.
by case: eqP => // ->; rewrite ne.
Qed.

(** What an export does to the file system: nothing when the scene is
    [None] or when it raises, one write when it returns a path. *)
Lemma export_files_cases (w : World R) outdir name scene thr pc ms cd tc cs :
  let run := get_3D_model_from_scene E outdir name scene thr pc ms cd tc cs w in
  [\/ scene = PyNone /\ run = (Ok PyNone, w),
      exists e, run.1 = Raise e /\ files run.2 = files w |
      exists c,
        run.1 = Ok (PyStr (glb_path E outdir name pc)) /\
        files run.2 = fs_write (glb_path E outdir name pc) (GlbFile c) (files w)].
Proof.
move=> run.
pose run' :=
    bind (get_optimized_values E scene thr ms cd) (fun vals =>
      let '(rgbimg, pts3d, msk, focals, cams2world) := vals in
      bind (_convert_scene_output_to_glb E outdir name rgbimg pts3d msk focals
              cams2world cs PyNone pc tc)
        (fun outfile => ret (PyStr outfile : pyval R))) w.
have Hgen :
  (exists e, run'.1 = Raise e /\ files run'.2 = files w) \/
  (exists c,
     run'.1 = Ok (PyStr (glb_path E outdir name pc)) /\
     files run'.2 = fs_write (glb_path E outdir name pc) (GlbFile c) (files w)).
  rewrite /run'.
  have Hk := get_optimized_values_keeps_files E scene thr ms cd w.
  rewrite /bind; case: (get_optimized_values _ _ _ _ _ _) Hk => [[vals|e] w1] /= Hk.
    case: vals => [[[[rgbimg pts3d] msk] focals] cams2world].
    case: (converter_cases E w1 outdir name rgbimg pts3d msk focals cams2world
             cs PyNone pc tc) => [[e ->]|[g [c0 [_ _ _ _ ->]]]] /=.
      by left; exists e.
    by right; eexists; split; first reflexivity; rewrite /= Hk.
  by left; exists e.
rewrite /run /get_3D_model_from_scene.
case: scene @run' Hgen {run} => [|b|x|s|r] /= Hgen; first by constructor 1.
all: by case: Hgen => H; [constructor 2|constructor 3].
Qed.

(** Property X8. Whatever its arguments and whatever its outcome, an
    export leaves every file other than
    [outdir/<scene_name>_<mesh|pointcloud>.glb] as it was. *)
Theorem export_touches_one_file (w : World R) outdir name scene thr pc ms cd
    tc cs p :
  p != glb_path E outdir name pc ->
  fs_read p
    (files (get_3D_model_from_scene E outdir name scene thr pc ms cd tc cs w).2) =
  fs_read p (files w).
Proof.
move=> ne.
case: (export_files_cases w outdir name scene thr pc ms cd tc cs).
- by move=> [_ ->].
- by move=> [e [_ ->]].
- by move=> [c [_ ->]]; rewrite fs_read_write_ne.
Qed.

(** Property X9. An export that raises has not touched the file system:
    the file is written by the last step only. *)
Theorem export_failure_writes_nothing (w : World R) outdir name scene thr pc
    ms cd tc cs e :
  (get_3D_model_from_scene E outdir name scene thr pc ms cd tc cs w).1 = Raise e ->
  files (get_3D_model_from_scene E outdir name scene thr pc ms cd tc cs w).2 =
  files w.
Proof.
case: (export_files_cases w outdir name scene thr pc ms cd tc cs).
- by move=> [_ ->].
- by move=> [e' [_ ->]].
- by move=> [c [-> _]].
Qed.

(** Property X10. The mesh and the point cloud of one scene name go to
    two different files: an export in one mode never changes the file of
    the other mode. *)
Theorem export_modes_do_not_collide (w : World R) outdir name scene thr pc pc'
    ms cd tc cs :
  py_truth pc != py_truth pc' ->
  fs_read (glb_path E outdir name pc')
    (files (get_3D_model_from_scene E outdir name scene thr pc ms cd tc cs w).2) =
  fs_read (glb_path E outdir name pc') (files w).
Proof.
move=> ne.
have Hp : glb_path E outdir name pc' != glb_path E outdir name pc.
  by apply: glb_path_modes; rewrite eq_sym.
case: (export_files_cases w outdir name scene thr pc ms cd tc cs).
- by move=> [_ ->].
- by move=> [e [_ ->]].
- by move=> [c [_ ->]]; rewrite fs_read_write_ne.
Qed.

(** main_demo's option events. *)
(** Property X11. The callback of main_demo's option events binds
    [tmpdirname] and is called with the seven inputs [scene, min_conf_thr,
    as_pointcloud, mask_sky, clean_depth, transparent_cams, cam_size]; by
    position the scene state lands in [scene_name] and the slider's
    number in [scene]. So every such event raises [AttributeError] and
    changes nothing, whatever the scene state is, also when it is still
    [None]. *)
Theorem option_event_raises (w : World R) tmpdirname scene x pc ms cd tc cs :
  model_from_scene_fun E tmpdirname scene (PyNum x) pc ms cd tc cs w =
  (Raise AttributeError, w).
Proof.
rewrite /model_from_scene_fun /get_3D_model_from_scene.
have Hx : forall r, PyNum x <> PyRef r :> pyval R by [].
by rewrite (bind_raise _ (@get_optimized_values_not_object R E w _ pc cd tc Hx)).
Qed.

End ExportFiles.

(** ** The range of the gallery's maps *)

Section GalleryRange.
Variable R : realFieldType.

Lemma omapM_np_max_empty (arrays : seq (seq R)) :
  ~~ all (fun d => 0 < size d)%N arrays ->
  omapM (@np_max R) arrays = Raise ValueError.
Proof.
elim: arrays => [|d arrays IH] //=.
rewrite negb_and; case: d => [|x xs] //= Hne.
by rewrite IH.
Qed.

(** Property X12. The normalisation of the gallery (lines 227-230)
    succeeds exactly when there is at least one view and no view's map is
    empty; otherwise it raises [ValueError]. *)
Theorem gallery_maxima_need_pixels (arrays : seq (seq R)) :
  is_ok (div_by_global_max arrays) =
    (0 < size arrays)%N && all (fun d => 0 < size d)%N arrays /\
  (~~ is_ok (div_by_global_max arrays) ->
   div_by_global_max arrays = Raise ValueError).
Proof.
case: (boolP (_ && _)) => [/andP[Hpos Hne]|].
  by have [M [_ _ ->]] := div_by_global_max_ok Hpos Hne.
rewrite negb_and -leqNgt leqn0 => /orP[/eqP/size0nil->|Hn] //.
by rewrite /div_by_global_max omapM_np_max_empty.
Qed.

(** Property X13. When no map is empty, no value is negative and some
    value is positive, every normalised value lies between 0 and 1 and
    the value 1 is reached. *)
Theorem normalised_maps_in_unit_range (arrays : seq (seq R)) :
  all (fun d => 0 < size d)%N arrays ->
  all (all (fun x => 0 <= x)) arrays ->
  has (has (fun x => 0 < x)) arrays ->
  exists out,
    [/\ div_by_global_max arrays = Ok out,
        all (all (fun y => (0 <= y) && (y <= 1))) out &
        has (has (pred1 1)) out].
Proof.
move=> Hne Hge Hgt.
have Hpos : (0 < size arrays)%N by case: arrays Hgt {Hne Hge}.
have [M [M_in M_ub ->]] := div_by_global_max_ok Hpos Hne.
have M_gt0 : 0 < M.
  case/hasP: Hgt => d d_in /hasP[x x_in x_gt0].
  apply: lt_le_trans x_gt0 (M_ub _ _).
  by apply/flattenP; exists d.
eexists; split; first reflexivity.
- rewrite all_map; apply/allP=> d d_in /=; rewrite all_map; apply/allP=> x x_in /=.
  have x_fl : x \in flatten arrays by apply/flattenP; exists d.
  have x_ge0 : 0 <= x by move/allP: Hge => /(_ _ d_in)/allP/(_ _ x_in).
  by rewrite divr_ge0 ?(ltW M_gt0) //= ler_pdivrMr // mul1r M_ub.
- case/flattenP: M_in => d d_in M_d.
  apply/hasP; exists [seq x / M | x <- d]; first exact: map_f.
  apply/hasP; exists (M / M); first exact: map_f.
  by rewrite /= divff // gt_eqF.
Qed.

End GalleryRange.

(** ** The gallery of a run *)

Section GalleryRun.
Variable R : realFieldType.
Variable E : externals R.

Lemma omapM_inv {A B} (f : A -> outcome B) (xs : seq A) (ys : seq B) :
  omapM f xs = Ok ys ->
  size ys = size xs /\
  forall x0 y0 k, (k < size xs)%N -> f (nth x0 xs k) = Ok (nth y0 ys k).
Proof.
elim: xs ys => [|x xs IH] ys /=; first by case=> <-.
case Hx: (f x) => [y|] //=; case Hxs: (omapM f xs) => [zs|] //= [<-] /=.
have [-> Hk] := IH _ Hxs; split=> // x0 y0 [|k] //=.
by rewrite ltnS; apply: Hk.
Qed.

Lemma py_index_inv {A} (d : A) (xs : seq A) (i : nat) (x : A) :
  py_index xs i = Ok x -> (i < size xs)%N /\ x = nth d xs i.
Proof.
by rewrite /py_index (ohead_drop d); case: ltnP => // lt [<-].
Qed.

(** When the normalisation returns, it has divided by the maximum. *)
Lemma div_by_global_max_inv (arrays out : seq (seq R)) :
  div_by_global_max arrays = Ok out ->
  exists M,
    [/\ M \in flatten arrays, forall x, x \in flatten arrays -> x <= M &
        out = [seq [seq x / M | x <- d] | d <- arrays]].
Proof.
case Hne: (all (fun d => 0 < size d)%N arrays); last first.
  by rewrite /div_by_global_max omapM_np_max_empty ?Hne.
case: arrays Hne => [|d arrays] // Hne.
have [M [M_in M_ub ->]] := @div_by_global_max_ok R (d :: arrays) isT Hne.
by case=> <-; exists M.
Qed.

(** The entries of a list of blocks of one size. *)
Lemma nth_flatten_blocks {A} (d : A) (n : nat) (bs : seq (seq A)) i j :
  all (fun b => size b == n) bs -> (j < n)%N ->
  nth d (flatten bs) (n * i + j) = nth d (nth [::] bs i) j.
Proof.
move=> Hbs lt; elim: bs i Hbs => [|b bs IH] [|i] /=.
- by rewrite !nth_nil.
- by rewrite !nth_nil.
- by move=> /andP[/eqP Hb _]; rewrite muln0 add0n nth_cat Hb lt.
- move=> /andP[/eqP Hb Hbs]; rewrite nth_cat Hb mulnS -addnA.
  by rewrite ltnNge leq_addr /= addKn IH.
Qed.

Lemma size_flatten_blocks {A} (n : nat) (bs : seq (seq A)) :
  all (fun b => size b == n) bs -> size (flatten bs) = (n * size bs)%N.
Proof.
elim: bs => [|b bs IH] /=; first by rewrite muln0.
by move=> /andP[/eqP Hb /IH]; rewrite size_cat Hb mulnS => ->.
Qed.

(** Claim C3. Whenever a run of [get_reconstructed_scene] reaches the
    diagnostic renderer and returns its gallery, the gallery holds three
    images per view of the returned scene, and there is one value [M], the
    maximum of the depth values of all views ([M] is one of them and
    bounds them all), such that the depth image of every view [i], the
    entry [3 * i + 1] of the gallery, is the rendering of that view's
    depth map divided by [M]: by the maximum over all views, not by the
    view's own. The quotients are stated for [M <> 0]; at [M = 0] numpy
    yields nan or inf, which a field has not. *)
Theorem gallery_depth_by_global_max (w w' : World R) outdir
    (model : model_t E) device image_size filelist schedule niter thr pc ms
    cd tc cs sg winsize refid (sc out : pyval R) (gal : seq (ndarray R)) :
  get_reconstructed_scene outdir model device image_size filelist schedule
    niter thr pc ms cd tc cs sg winsize refid w = (Ok (sc, out, gal), w') ->
  exists s M,
    [/\ lookup_scene w' sc = Ok s,
        M \in flatten (get_depthmaps E s),
        forall x, x \in flatten (get_depthmaps E s) -> x <= M,
        size gal = (3 * size (scene_imgs s))%N &
        M != 0 ->
        forall i, (i < size (scene_imgs s))%N ->
          nth (Gray [::]) gal (3 * i + 1) =
          rgb E (Gray [seq x / M | x <- nth [::] (get_depthmaps E s) i])].
Proof.
rewrite get_reconstructed_scene_split => Hrun.
have [outfile [w2 [_ H1]]] := bind_ok_inv Hrun.
have [s [w3 [[Hs Hw3] H2]]] := bind_ok_inv H1.
rewrite -{w3}Hw3 in H2.
have [depths [w4 [[Hd Hw4] H3]]] := bind_ok_inv H2.
rewrite -{w4}Hw4 in H3.
have [confs [w5 [[Hc Hw5] H4]]] := bind_ok_inv H3.
rewrite -{w5}Hw5 in H4.
have [imgs [w6 [[Hi Hw6] H5]]] := bind_ok_inv H4.
rewrite -{w6}Hw6 in H5.
case: H5 => <- _ <- <-.
have [M [M_in M_ub Hdepths]] := div_by_global_max_inv Hd.
have [Hsz Hk] := omapM_inv Hi.
rewrite size_iota in Hsz Hk.
have Hblock i : (i < size (scene_imgs s))%N ->
    exists im c,
      nth [::] imgs i =
      [:: Color im;
          rgb E (Gray [seq x / M | x <- nth [::] (get_depthmaps E s) i]);
          rgb E (Rgba c)].
  move=> lt; have := Hk 0%N [::] i lt; rewrite nth_iota // add0n.
  case Him: (py_index _ i) => [im|] //=.
  case Hdi: (py_index depths i) => [di|] //=.
  case Hci: (py_index _ i) => [c|] //= [<-].
  have [lt_d ->] := py_index_inv [::] Hdi.
  exists im, c; congr [:: _; rgb E (Gray _); _].
  by move: lt_d; rewrite Hdepths size_map => lt_d; rewrite (nth_map [::]).
have Hall : all (fun b => size b == 3%N) imgs.
  apply/(all_nthP [::]) => i; rewrite Hsz => /Hblock[im [c ->]].
  by [].
exists s, M; split=> //.
- by rewrite (size_flatten_blocks Hall) Hsz.
- move=> _ i lt; rewrite (nth_flatten_blocks _ _ Hall) //.
  by have [im [c ->]] := Hblock i lt.
Qed.

End GalleryRun.

(** ** More on the saved poses and points *)

Section PersistenceMore.
Variable R : realFieldType.

Lemma save_camera_poses_run (w : World R) (poses : seq 'M[R]_4)
    (names : seq string) (path : string) :
  size poses = size names ->
  save_camera_poses poses names path w =
  (Ok tt,
   mkWorld (heap w)
     (fs_write (os_path_join "./estimation" path)
        (JsonFile
           (json_dump_extrinsics (foldl (@add_pose R) [::] (zip poses names))))
        (files w))
     (calls w)).
Proof.
move=> Hsz; rewrite /save_camera_poses Hsz eqxx bind_ret.
rewrite /bind /os_path_isfile /write_file /=.
by case: (has _ _) => //=; rewrite fs_write_twice.
Qed.

Lemma dict_set_keys {V} (k : string) (v : V) (d : seq (string * V)) :
  [seq p.1 | p <- dict_set k v d] =
  if k \in [seq p.1 | p <- d] then [seq p.1 | p <- d]
  else rcons [seq p.1 | p <- d] k.
Proof.
rewrite /dict_set.
have -> : has (fun p => p.1 == k) d = (k \in [seq p.1 | p <- d]).
  by elim: d => [|p d IH] //=; rewrite in_cons IH eq_sym.
case: ifP => _; last by rewrite map_rcons.
rewrite -map_comp; apply: eq_map => p /=.
by case: eqP.
Qed.

(** The keys of the dictionary: the names in the order of their first
    occurrence. *)
Lemma extrinsics_keys (poses : seq 'M[R]_4) (names : seq string) :
  size poses = size names ->
  [seq kv.1 | kv <- foldl (@add_pose R) [::] (zip poses names)] =
  rev (undup (rev names)).
Proof.
elim/last_ind: names poses => [|ns n IH] poses; first by case: poses.
case/lastP: poses => [|ps p]; first by rewrite size_rcons.
rewrite !size_rcons => -[Hsz].
rewrite zip_rcons // -cats1 foldl_cat /= /add_pose /= dict_set_keys IH //.
rewrite rev_rcons /= mem_rev mem_undup.
by case: ifP => _ //; rewrite rev_cons.
Qed.

(** Property X14. When the counts agree, the members of "extrinsics" in
    the file written by [save_camera_poses] are keyed by the view names
    in the order of their first occurrence, each name once: there are at
    most as many members as poses, and fewer exactly when a name
    repeats. *)
Theorem save_camera_poses_members (w : World R) (poses : seq 'M[R]_4)
    (names : seq string) (path : string) :
  size poses = size names ->
  exists members,
    [/\ fs_read (os_path_join "./estimation" path)
          (files (save_camera_poses poses names path w).2) =
        Some (JsonFile (JObj [:: ("extrinsics"%string, JObj members)])),
        [seq m.1 | m <- members] = rev (undup (rev names)),
        (size members <= size poses)%N &
        (size members < size poses)%N = ~~ uniq names].
Proof.
move=> Hsz; rewrite save_camera_poses_run //=.
eexists; split; first by rewrite /fs_read /fs_write /= eqxx.
- by rewrite -map_comp -(extrinsics_keys Hsz); apply: eq_map.
- have := extrinsics_keys Hsz => /(congr1 size).
  by rewrite !size_map size_rev => ->; rewrite Hsz -(size_rev names) size_undup.
- have := extrinsics_keys Hsz => /(congr1 size).
  rewrite !size_map size_rev => ->.
  by rewrite Hsz -(size_rev names) ltn_size_undup rev_uniq.
Qed.

(** Property X15. [save_camera_poses] replaces the file: after a second
    call with the same path the file system is what the second call alone
    would have produced; nothing of the first call's poses is kept. *)
Theorem save_camera_poses_overwrites (w : World R) (poses1 poses2 : seq 'M[R]_4)
    (names1 names2 : seq string) (path : string) :
  size poses1 = size names1 -> size poses2 = size names2 ->
  files (save_camera_poses poses2 names2 path
           (save_camera_poses poses1 names1 path w).2).2 =
  files (save_camera_poses poses2 names2 path w).2.
Proof.
move=> H1 H2; rewrite (save_camera_poses_run w path H1) /=.
by rewrite !(save_camera_poses_run _ path H2) /= fs_write_twice.
Qed.

Lemma tolist_inj : injective (@tolist R).
Proof.
move=> p q /eq_in_map Hpq; apply/matrixP=> i j.
have /eq_in_map/(_ j) := Hpq i (mem_enum _ _).
by apply; rewrite mem_enum.
Qed.

Lemma json_of_pose_inj : injective (@json_of_pose R).
Proof.
move=> m1 m2 [] /inj_map; apply=> r1 r2 [] /inj_map; apply.
by move=> x y [].
Qed.

(** Property X16. The JSON written for a pose determines the pose: two
    poses with the same JSON value are equal. *)
Theorem pose_encoding_injective (p q : 'M[R]_4) :
  json_of_pose (tolist p) = json_of_pose (tolist q) -> p = q.
Proof. by move/json_of_pose_inj/tolist_inj. Qed.

(** Property X17. On an array whose rows all have the declared width,
    [save_point_to_ply] succeeds exactly for widths 3 and 4: it then
    writes one point of three coordinates per row and touches nothing
    but that file. For any other width it raises and writes nothing. *)
Theorem save_point_to_ply_by_width (w : World R) (points : array2 R)
    (file_name : string) :
  array2_wf points ->
  if (ncols points == 3%N) || (ncols points == 4%N) then
    exists pcd,
      [/\ save_point_to_ply points file_name w =
          (Ok tt,
           mkWorld (heap w)
             (fs_write (os_path_join "./estimation/" file_name) (PlyFile pcd)
                (files w))
             (calls w)),
          size pcd = size (rows points) &
          all (fun r => size r == 3%N) pcd]
  else save_point_to_ply points file_name w = (Raise RuntimeError, w).
Proof.
move=> Hwf; rewrite /save_point_to_ply /Vector3dVector; cbv zeta.
case: (ncols points =P 3%N) => [H3|/eqP N3] /=.
  rewrite H3 /= H3 /=.
  exists (rows points); split=> //.
  by move: Hwf; rewrite /array2_wf H3.
case: (ncols points =P 4%N) => [H4|/eqP N4] /=.
  rewrite H4 /=.
  exists [seq take 3 r | r <- rows points]; split=> //; first by rewrite size_map.
  rewrite all_map; apply/allP=> r /(allP Hwf) /=.
  by rewrite H4 size_take => /eqP->.
by rewrite (negbTE N3).
Qed.

End PersistenceMore.

(** ** The script *)

Section Script.
Variable R : realFieldType.
Variable E : externals R.
Variable listdir : string -> seq string.
Variable load_model : string -> string -> model_t E.
Variable torch_cat : seq (pointmap R) -> outcome (seq (vec3 R)).

(** The collection loop with [k] files still to take. *)
Lemma collect_files_take (k : nat) p (listing fp fn : seq string) :
  size fp = size fn ->
  collect_files (Posz (size fp + k)) p listing fp fn =
  (fp ++ [seq os_path_join p f | f <- take k listing], fn ++ take k listing).
Proof.
elim: listing k fp fn => [|f fs IH] k fp fn Hsz /=; first by rewrite !cats0.
case: k => [|k]; first by rewrite addn0 eqxx /= !cats0.
have -> : (Posz (size fp) == Posz (size fp + k.+1)) = false.
  by rewrite eqz_nat -{1}[size fp]addn0 eqn_add2l.
have := IH k (rcons fp (os_path_join p f)) (rcons fn f).
rewrite !size_rcons Hsz addSnnS => -> //.
by rewrite !cat_rcons.
Qed.

Lemma collect_files_all (k : nat) p (listing fp fn : seq string) :
  collect_files (Negz k) p listing fp fn =
  (fp ++ [seq os_path_join p f | f <- listing], fn ++ listing).
Proof.
elim: listing fp fn => [|f fs IH] fp fn /=; first by rewrite !cats0.
by rewrite IH !cat_rcons.
Qed.

(** Property X18. The collection loop of the script (lines 531-535), for
    a non-negative number of views [k], collects the first [k] names of
    the directory listing (all of them when there are fewer); for a
    negative number it collects every name. The paths are the names
    joined to the image directory, and the slice [files_path[:num_view]]
    that is loaded is the slice of the listing, joined likewise. *)
Theorem collect_files_spec (num_view : int) p (listing : seq string) :
  let c := collect_files num_view p listing [::] [::] in
  [/\ c.2 = (if num_view is Posz k then take k listing else listing),
      c.1 = [seq os_path_join p f | f <- c.2] &
      py_slice_to num_view c.1 =
      [seq os_path_join p f | f <- py_slice_to num_view listing]].
Proof.
case: num_view => k /=.
  rewrite (@collect_files_take k p listing [::] [::]) //=; split=> //.
  by rewrite -map_take take_takel.
rewrite collect_files_all /=; split=> //.
by rewrite size_map map_take.
Qed.


Lemma save_camera_poses_keeps_calls (poses : seq 'M[R]_4) names path :
  keeps (@calls R) (save_camera_poses poses names path).
Proof.
move=> w; rewrite /save_camera_poses /bind /py_assert.
case: (size names == size poses) => //=.
by case: (has _ _).
Qed.

Lemma save_point_to_ply_keeps_calls (points : array2 R) file_name :
  keeps (@calls R) (save_point_to_ply points file_name).
Proof.
move=> w; rewrite /save_point_to_ply /bind /lift /=.
by case: (Vector3dVector _).
Qed.

(** The script up to the point where it holds the optimized scene. *)
Lemma main_split (w : World R) item num_view :
  let s := main_scene listdir load_model item num_view in
  let scene := PyRef (size (heap w)) : pyval R in
  main listdir load_model torch_cat item num_view w =
  bind (get_3D_model_from_scene E "./estimation/" (PyStr item) scene
          (default_min_conf_thr R) (PyBool false) (PyBool false)
          (PyBool false) (PyBool false) (default_cam_size R))
    (fun _ =>
     bind (get_3D_model_from_scene E "./estimation/" (PyStr item) scene
             (default_min_conf_thr R) (PyBool true) (PyBool false)
             (PyBool false) (PyBool false) (default_cam_size R))
       (fun _ =>
        bind (save_camera_poses (scene_im_poses s)
                (main_frame_names listdir item num_view)
                (String.append item "_poses.json"))
          (fun _ =>
           bind (lift (point_cloud_array torch_cat (scene_pts3d s)))
             (fun point_cloud =>
              save_point_to_ply point_cloud
                (String.append item "_point_cloud.ply")))))
    (mkWorld (rcons (heap w) s) (files w)
       (calls w ++
        [:: Call_global_aligner R PointCloudOptimizer;
            Call_compute_global_alignment "mst" 300 "cosine" (1 / 100)])).
Proof.
move=> s scene; rewrite /main; cbv zeta.
rewrite (bind_run _ (@call_global_aligner_run R E _ _ _ _)).
rewrite (bind_run _ (@call_compute_global_alignment_run R E _ _ _ _ _ _ _
                       (lookup_scene_rcons_last _ _ _ _))) /=.
rewrite set_nth_rcons_last.
rewrite (bind_run _ (scene_of_run (lookup_scene_rcons_last _ _ _ _))).
by rewrite -!cats1 -catA.
Qed.

(** Property X19. Whatever the item and the number of views, and
    whatever happens afterwards, the script's alignment session is
    [global_aligner] in PointCloudOptimizer mode followed by
    [compute_global_alignment] with init "mst", 300 iterations, the
    cosine schedule and learning rate 0.01; no other session call is
    made. *)
Theorem main_alignment_calls (w : World R) item num_view :
  calls (main listdir load_model torch_cat item num_view w).2 =
  calls w ++
  [:: Call_global_aligner R PointCloudOptimizer;
      Call_compute_global_alignment "mst" 300 "cosine" (1 / 100)].
Proof.
rewrite main_split.
set w1 := mkWorld _ _ _.
rewrite -[RHS]/(calls w1).
move: w1; apply: keeps_bind; first exact: export_keeps_calls.
move=> _; apply: keeps_bind; first exact: export_keeps_calls.
move=> _; apply: keeps_bind; first exact: save_camera_poses_keeps_calls.
move=> _; apply: keeps_bind; first exact: keeps_lift.
by move=> pc; apply: save_point_to_ply_keeps_calls.
Qed.


(** The four files of the script have four names. *)
Lemma script_paths_uniq (item : string) :
  uniq [:: glb_path E "./estimation/" (PyStr item) (PyBool false);
           glb_path E "./estimation/" (PyStr item) (PyBool true);
           os_path_join "./estimation" (String.append item "_poses.json");
           os_path_join "./estimation/"
             (String.append item "_point_cloud.ply")].
Proof.
have Hu : Ascii.eqb "_" "/" = false by [].
have Hj b : os_path_join "./estimation" b = os_path_join "./estimation/" b.
  by rewrite /os_path_join; case: (startswith_sep b).
apply: (@map_uniq _ _ String.length).
rewrite /glb_path /= Hj.
rewrite (@os_path_join_length "./estimation/" item "_" "mesh.glb" Hu).
rewrite (@os_path_join_length "./estimation/" item "_" "pointcloud.glb" Hu).
rewrite (@os_path_join_length "./estimation/" item "_" "poses.json" Hu).
rewrite (@os_path_join_length "./estimation/" item "_" "point_cloud.ply" Hu).
by rewrite /= !inE !eqn_add2l.
Qed.


(** The two exports of the script, on a scene that can be written. *)
Lemma main_exports_run (w : World R) item num_view :
  let s := main_scene listdir load_model item num_view in
  let s' := with_min_conf_thr (scene_conf_trf s 3) s in
  exportable E s ->
  main listdir load_model torch_cat item num_view w =
  bind (save_camera_poses (scene_im_poses s)
          (main_frame_names listdir item num_view)
          (String.append item "_poses.json"))
    (fun _ =>
     bind (lift (point_cloud_array torch_cat (scene_pts3d s)))
       (fun point_cloud =>
        save_point_to_ply point_cloud
          (String.append item "_point_cloud.ply")))
    (mkWorld (rcons (heap w) s')
       (fs_write (glb_path E "./estimation/" (PyStr item) (PyBool true))
          (glb_of E true s')
          (fs_write (glb_path E "./estimation/" (PyStr item) (PyBool false))
             (glb_of E false s') (files w)))
       (calls w ++
        [:: Call_global_aligner R PointCloudOptimizer;
            Call_compute_global_alignment "mst" 300 "cosine" (1 / 100)])).
Proof.
move=> s s' /and5P[Hinv Hgrid Hpos u0 uG]; rewrite main_split -/s.
have Hthr : torch_tensor (default_min_conf_thr R) = Ok 3 by [].
set w1 := mkWorld (rcons (heap w) s) _ _.
have Hs1 : lookup_scene w1 (PyRef (size (heap w))) = Ok s.
  exact: lookup_scene_rcons_last.
rewrite (bind_run _ (@export_run R E w1 "./estimation/" (PyStr item)
           (size (heap w)) s (default_min_conf_thr R) 3 (PyBool false)
           (PyBool false) (PyBool false) (PyBool false) (default_cam_size R)
           Hs1 Hthr Hinv Hgrid Hpos u0 uG)).
rewrite /heap_after_export /= set_nth_rcons_last.
set w2 := mkWorld (rcons (heap w) _) _ _.
have Hs2 : lookup_scene w2 (PyRef (size (heap w))) = Ok s'.
  exact: lookup_scene_rcons_last.
rewrite (bind_run _ (@export_run R E w2 "./estimation/" (PyStr item)
           (size (heap w)) s' (default_min_conf_thr R) 3 (PyBool true)
           (PyBool false) (PyBool false) (PyBool false) (default_cam_size R)
           Hs2 Hthr Hinv Hgrid Hpos u0 uG)).
by rewrite /heap_after_export /= set_nth_rcons_last.
Qed.


Lemma save_point_to_ply_run3 (w : World R) (points : array2 R) file_name :
  ncols points = 3%N ->
  save_point_to_ply points file_name w =
  (Ok tt,
   mkWorld (heap w)
     (fs_write (os_path_join "./estimation/" file_name)
        (PlyFile (rows points)) (files w))
     (calls w)).
Proof. by move=> H3; rewrite /save_point_to_ply /Vector3dVector /= H3 /= H3. Qed.

(** Property X20. When the optimized scene can be exported, there are as
    many collected names as poses and [torch.cat] succeeds, the script
    ends normally with four files: the mesh and the point cloud of the
    scene, both with the masks of the default threshold 3 (transformed by
    the scene's confidence transform, which the scene object now holds)
    and under the same transform; the poses as read before the exports,
    keyed by the collected names; and the PLY with every point of every
    view, masked or not. *)
Theorem main_writes_four_files (w : World R) item num_view pts :
  let s := main_scene listdir load_model item num_view in
  let names := main_frame_names listdir item num_view in
  let s' := with_min_conf_thr (scene_conf_trf s 3) s in
  let run := main listdir load_model torch_cat item num_view w in
  exportable E s ->
  size names = size (scene_im_poses s) ->
  torch_cat (scene_pts3d s) = Ok pts ->
  [/\ run.1 = Ok tt,
      lookup_scene run.2 (PyRef (size (heap w))) = Ok s',
      fs_read (glb_path E "./estimation/" (PyStr item) (PyBool false))
        (files run.2) = Some (glb_of E false s') /\
      fs_read (glb_path E "./estimation/" (PyStr item) (PyBool true))
        (files run.2) = Some (glb_of E true s'),
      fs_read (os_path_join "./estimation" (String.append item "_poses.json"))
        (files run.2) =
      Some (JsonFile
              (json_dump_extrinsics
                 (foldl (@add_pose R) [::] (zip (scene_im_poses s) names)))) &
      fs_read
        (os_path_join "./estimation/" (String.append item "_point_cloud.ply"))
        (files run.2) =
      Some (PlyFile [seq [:: p.1.1; p.1.2; p.2] | p <- pts])].
Proof.
move=> s names s' run Hexp Hsz Hcat.
have := script_paths_uniq item.
rewrite /= !inE !negb_or -!andbA andbT => /and5P[mp mj my pj /andP[py jy]].
have Hrun : run =
  (Ok tt,
   mkWorld (rcons (heap w) s')
     (fs_write
        (os_path_join "./estimation/" (String.append item "_point_cloud.ply"))
        (PlyFile [seq [:: p.1.1; p.1.2; p.2] | p <- pts])
        (fs_write
           (os_path_join "./estimation" (String.append item "_poses.json"))
           (JsonFile
              (json_dump_extrinsics
                 (foldl (@add_pose R) [::] (zip (scene_im_poses s) names))))
           (fs_write (glb_path E "./estimation/" (PyStr item) (PyBool true))
              (glb_of E true s')
              (fs_write
                 (glb_path E "./estimation/" (PyStr item) (PyBool false))
                 (glb_of E false s') (files w)))))
     (calls w ++
      [:: Call_global_aligner R PointCloudOptimizer;
          Call_compute_global_alignment "mst" 300 "cosine" (1 / 100)])).
  rewrite /run (@main_exports_run w item num_view Hexp) -/s -/names -/s'.
  rewrite (bind_run _ (@save_camera_poses_run R _ _ _ _ (esym Hsz))).
  rewrite /point_cloud_array Hcat [obind _ _]/= bind_lift.
  by rewrite save_point_to_ply_run3.
rewrite Hrun; split.
- by [].
- exact: lookup_scene_rcons_last.
- rewrite [files _]/=; split.
    by rewrite 3?fs_read_write_ne // fs_read_write.
  by rewrite 2?fs_read_write_ne // fs_read_write.
- by rewrite [files _]/= fs_read_write_ne // fs_read_write.
- by rewrite [files _]/= fs_read_write.
Qed.

(** Property X21. When the number of collected names differs from the
    number of poses, the script stops with [AssertionError] in
    [save_camera_poses]: the two GLB files are written, the poses file
    and the PLY file are not touched. *)
Theorem main_stops_at_pose_count (w : World R) item num_view :
  let s := main_scene listdir load_model item num_view in
  let names := main_frame_names listdir item num_view in
  let s' := with_min_conf_thr (scene_conf_trf s 3) s in
  let run := main listdir load_model torch_cat item num_view w in
  exportable E s ->
  size names != size (scene_im_poses s) ->
  [/\ run.1 = Raise AssertionError,
      fs_read (glb_path E "./estimation/" (PyStr item) (PyBool false))
        (files run.2) = Some (glb_of E false s'),
      fs_read (glb_path E "./estimation/" (PyStr item) (PyBool true))
        (files run.2) = Some (glb_of E true s'),
      fs_read (os_path_join "./estimation" (String.append item "_poses.json"))
        (files run.2) =
      fs_read (os_path_join "./estimation" (String.append item "_poses.json"))
        (files w) &
      fs_read
        (os_path_join "./estimation/" (String.append item "_point_cloud.ply"))
        (files run.2) =
      fs_read
        (os_path_join "./estimation/" (String.append item "_point_cloud.ply"))
        (files w)].
Proof.
move=> s names s' run Hexp Hsz.
have := script_paths_uniq item.
rewrite /= !inE !negb_or -!andbA andbT => /and5P[mp mj my pj /andP[py jy]].
have Hrun : run =
  (Raise AssertionError,
   mkWorld (rcons (heap w) s')
     (fs_write (glb_path E "./estimation/" (PyStr item) (PyBool true))
        (glb_of E true s')
        (fs_write (glb_path E "./estimation/" (PyStr item) (PyBool false))
           (glb_of E false s') (files w)))
     (calls w ++
      [:: Call_global_aligner R PointCloudOptimizer;
          Call_compute_global_alignment "mst" 300 "cosine" (1 / 100)])).
  rewrite /run (@main_exports_run w item num_view Hexp) -/s -/names -/s'.
  by rewrite /save_camera_poses (negbTE Hsz) /py_assert.
rewrite Hrun; split; rewrite ?[files _]/=.
- by [].
- by rewrite fs_read_write_ne // fs_read_write.
- exact: fs_read_write.
- by rewrite 2?fs_read_write_ne // eq_sym.
- by rewrite 2?fs_read_write_ne // eq_sym.
Qed.

End Script.

(** ** Where the saved files land *)

Section Locations.
Variable R : realFieldType.

(** Where a name lands under a directory that is itself relative. *)
Lemma os_path_join_estimation (name : string) :
  os_path_join "./estimation" name =
    (if startswith_sep name then name
     else String.append "./estimation/" name) /\
  os_path_join "./estimation/" name =
    (if startswith_sep name then name
     else String.append "./estimation/" name).
Proof. by rewrite /os_path_join; case: (startswith_sep name). Qed.

(** Property X25. [save_camera_poses] and [save_point_to_ply] write under
    ./estimation only when the name they are given is relative: a name
    that starts with the separator is used as it is, so the file lands
    outside that directory. *)
Theorem saved_files_location (w : World R) (poses : seq 'M[R]_4)
    (names : seq string) (points : array2 R) (name : string) :
  size poses = size names -> ncols points = 3%N ->
  let target :=
    if startswith_sep name then name
    else String.append "./estimation/" name in
  fs_read target (files (save_camera_poses poses names name w).2) =
    Some (JsonFile
            (json_dump_extrinsics
               (foldl (@add_pose R) [::] (zip poses names)))) /\
  fs_read target (files (save_point_to_ply points name w).2) =
    Some (PlyFile (rows points)).
Proof.
move=> Hsz H3 target.
have [Hj1 Hj2] := os_path_join_estimation name.
rewrite (save_camera_poses_run w name Hsz) (save_point_to_ply_run3 w name H3) /=.
by rewrite Hj1 Hj2 !fs_read_write.
Qed.

End Locations.

(** ** The preprocessing script *)

Section PreprocessFacts.
Import Preprocess.
Variable pixels : Type.
Variable interpolate : pixels -> nat -> nat -> nat * nat -> pixels.

Local Notation entry := (entry pixels).
Local Notation fsys := (fsys pixels).
Local Notation images_dir := "sfm_data/box_images"%string.

Lemma dict_get_has {V} (k : string) (d : seq (string * V)) :
  has (fun p => p.1 == k) d = isSome (dict_get k d).
Proof.
rewrite /dict_get; elim: d => [|p d IH] //=.
by case: eqP.
Qed.

(** Reading an entry that no earlier entry shadows. *)
Lemma dict_get_cat {V} (k : string) (v : V) (d1 d2 : seq (string * V)) :
  k \notin [seq p.1 | p <- d1] ->
  dict_get k (d1 ++ (k, v) :: d2) = Some v.
Proof.
rewrite /dict_get; elim: d1 => [|p d1 IH] /=; first by rewrite eqxx.
by rewrite in_cons negb_or eq_sym => /andP[/negbTE-> /IH].
Qed.

(** Replacing the one entry of a name. *)
Lemma dict_set_cat {V} (k : string) (v v' : V) (d1 d2 : seq (string * V)) :
  uniq [seq p.1 | p <- d1 ++ (k, v) :: d2] ->
  dict_set k v' (d1 ++ (k, v) :: d2) = d1 ++ (k, v') :: d2.
Proof.
rewrite map_cat cat_uniq /= negb_or => /and3P[_ /andP[Hd1 _] /andP[Hd2 _]].
rewrite /dict_set has_cat /= eqxx orbT map_cat /= eqxx.
have Hid (d : seq (string * V)) :
    k \notin [seq p.1 | p <- d] ->
    [seq (if p.1 == k then (k, v') else p) | p <- d] = d.
  elim: d => [|p d IH] //=; rewrite in_cons negb_or eq_sym => /andP[/negbTE-> /IH->].
  by [].
by rewrite !Hid.
Qed.

Lemma dict_get_imwrite (q dir filename : string) img (fs : fsys) :
  dict_get q (cv2_imwrite dir filename img fs) =
  if q == dir then omap (dict_set filename (ImageFile img)) (dict_get dir fs)
  else dict_get q fs.
Proof.
rewrite /dict_get /cv2_imwrite.
elim: fs => [|d fs IH] /=; first by case: ifP.
case: (d.1 =P dir) => [Hd|Hd] /=.
  rewrite Hd; case: (q =P dir) => [->|/eqP Hq]; first by rewrite eqxx.
  by rewrite eq_sym (negbTE Hq) IH (negbTE Hq).
case: (q =P dir) => [Hq|Hq].
  rewrite Hq; move/eqP/negbTE: Hd => ->.
  by move: IH; rewrite Hq eqxx.
case: (d.1 =P q) => // _.
by move: IH; move/eqP/negbTE: Hq => ->.
Qed.

(** The loop on a directory that starts with images. *)
Lemma resize_loop_prefix (dir : string) (done pre rest : directory pixels)
    (fs : fsys) :
  dict_get dir fs = Some (done ++ pre ++ rest) ->
  uniq [seq e.1 | e <- done ++ pre ++ rest] ->
  all (fun e => is_image e.2) pre ->
  exists fs',
    [/\ resize_loop interpolate dir dir [seq e.1 | e <- pre ++ rest] fs =
        resize_loop interpolate dir dir [seq e.1 | e <- rest] fs',
        dict_get dir fs' =
        Some (done ++ [seq (e.1, resized interpolate e.2) | e <- pre] ++ rest) &
        forall q, q != dir -> dict_get q fs' = dict_get q fs].
Proof.
elim: pre done fs => [|[n [i|]] pre IH] done fs //=; first by exists fs.
move=> Hfs Hu /= Himg.
have Hn : n \notin [seq e.1 | e <- done].
  by move: Hu; rewrite map_cat cat_uniq /= negb_or => /and3P[_ /andP[]].
rewrite /cv2_imread Hfs dict_get_cat //=.
set i' := mkImage _ _ _.
set fs1 := cv2_imwrite _ _ _ _.
have Hfs1 : dict_get dir fs1 =
            Some (rcons done (n, ImageFile i') ++ pre ++ rest).
  by rewrite dict_get_imwrite eqxx Hfs /= dict_set_cat // cat_rcons.
have Hu1 : uniq [seq e.1 | e <- rcons done (n, ImageFile i') ++ pre ++ rest].
  by move: Hu; rewrite cat_rcons !map_cat.
have [fs' [Hloop Hdir Hother]] := IH _ _ Hfs1 Hu1 Himg.
exists fs'; split=> //; first by rewrite Hdir cat_rcons.
by move=> q Hq; rewrite Hother // dict_get_imwrite (negbTE Hq).
Qed.

(** Property X22. When sfm_data/box_images exists and holds only
    decodable images, [resize_image] ends normally and has replaced every
    file, under its own name and in the listing's order, by its 512 x 288
    version: the function writes where it reads, so no original is kept.
    No other directory changes. *)
Theorem resize_image_resizes_in_place (fs : fsys) (d : directory pixels) :
  dict_get images_dir fs = Some d ->
  uniq [seq e.1 | e <- d] ->
  all (fun e => is_image e.2) d ->
  let r := resize_image interpolate fs in
  [/\ r.1 = Done tt,
      dict_get images_dir r.2 =
      Some [seq (e.1, resized interpolate e.2) | e <- d] &
      forall q, q != images_dir -> dict_get q r.2 = dict_get q fs].
Proof.
move=> Hd Hu Himg r; rewrite /r /resize_image /os_path_exists /os_listdir.
rewrite dict_get_has Hd /= Hd.
have := @resize_loop_prefix images_dir [::] d [::] fs.
rewrite /= !cats0 => /(_ Hd Hu Himg)[fs' [-> Hdir Hother]] /=.
by split.
Qed.

(** Property X23. When sfm_data/box_images does not exist,
    [resize_image] creates it empty and ends normally: the directory it
    lists is the one it has just made, so the listing cannot fail. *)
Theorem resize_image_creates_directory (fs : fsys) :
  dict_get images_dir fs = None ->
  resize_image interpolate fs = (Done tt, rcons fs (images_dir, [::])).
Proof.
move=> Hd; rewrite /resize_image /os_path_exists /os_listdir dict_get_has Hd /=.
rewrite /os_makedirs.
have -> : dict_get images_dir (rcons fs (images_dir, [::])) =
          Some ([::] : directory pixels).
  move: Hd; rewrite /dict_get -cats1 filter_cat /=.
  by case: [seq p <- fs | p.1 == images_dir].
by [].
Qed.

(** Property X24. At the first entry that [cv2.imread] cannot decode,
    [cv2.resize] raises: the entries listed before it are already
    resized, that entry and the ones after it are left as they were, and
    no other directory changes. *)
Theorem resize_image_stops_at_unreadable (fs : fsys)
    (pre post : directory pixels) (filename : string) :
  dict_get images_dir fs = Some (pre ++ (filename, Other pixels) :: post) ->
  uniq [seq e.1 | e <- pre ++ (filename, Other pixels) :: post] ->
  all (fun e => is_image e.2) pre ->
  let r := resize_image interpolate fs in
  [/\ r.1 = Failed Cv2Error,
      dict_get images_dir r.2 =
      Some ([seq (e.1, resized interpolate e.2) | e <- pre] ++
            (filename, Other pixels) :: post) &
      forall q, q != images_dir -> dict_get q r.2 = dict_get q fs].
Proof.
move=> Hd Hu Himg r; rewrite /r /resize_image /os_path_exists /os_listdir.
rewrite dict_get_has Hd /= Hd.
have := @resize_loop_prefix images_dir [::] pre
          ((filename, Other pixels) :: post) fs.
rewrite /= => /(_ Hd Hu Himg)[fs' [-> Hdir Hother]] /=.
have Hn : filename \notin
    [seq p.1 | p <- [seq (e.1, resized interpolate e.2) | e <- pre]].
  move: Hu; rewrite map_cat cat_uniq /= negb_or => /and3P[_ /andP[Hn _] _].
  by rewrite -map_comp (@eq_map _ _ _ (fun e => e.1)).
by rewrite /cv2_imread Hdir (dict_get_cat _ _ Hn) /=; split.
Qed.

End PreprocessFacts.

(** ** The concrete scene, continued *)

Lemma demo_exportable : exportable Demo.ext Demo.scene.
Proof.
by rewrite /exportable demo_invariant demo_grids demo_first_pose
           demo_opengl_unitmx.
Qed.

Lemma demo_converter_run pc :
  _convert_scene_output_to_glb Demo.ext "./estimation/" (PyStr "box")
    (scene_imgs Demo.scene) (scene_pts3d Demo.scene) (get_masks Demo.scene)
    (scene_focals Demo.scene) (scene_im_poses Demo.scene) (PyNum (5 / 100))
    PyNone pc (PyBool false) Demo.world =
  (Ok (glb_path Demo.ext "./estimation/" (PyStr "box") pc),
   mkWorld (heap Demo.world)
     (fs_write (glb_path Demo.ext "./estimation/" (PyStr "box") pc)
        (GlbFile
           (mkTrimeshScene
              [:: exported_geometry Demo.ext (py_truth pc)
                    (scene_imgs Demo.scene) (scene_pts3d Demo.scene)
                    (get_masks Demo.scene)]
              (canonical_transform Demo.ext Demo.pose0)))
        (files Demo.world))
     (calls Demo.world)).
Proof.
apply: (@converter_run rat Demo.ext Demo.world "./estimation/" (PyStr "box")
          (scene_imgs Demo.scene) (scene_pts3d Demo.scene)
          (get_masks Demo.scene) (scene_focals Demo.scene) Demo.pose0
          [:: 1%:M] (PyNum (5 / 100)) PyNone pc (PyBool false)) => //.
- exact: demo_pose0_unitmx.
- exact: demo_opengl_unitmx.
Qed.

Lemma pointcloud_export_counts_witness :
  let run :=
    _convert_scene_output_to_glb Demo.ext "./estimation/" (PyStr "box")
      (scene_imgs Demo.scene) (scene_pts3d Demo.scene) (get_masks Demo.scene)
      (scene_focals Demo.scene) (scene_im_poses Demo.scene) (PyNum (5 / 100))
      PyNone (PyBool true) (PyBool false) Demo.world in
  exists pts col T,
    [/\ fs_read (glb_path Demo.ext "./estimation/" (PyStr "box") (PyBool true))
          (files run.2) =
        Some (GlbFile (mkTrimeshScene [:: PointCloud pts col] T)),
        size pts = masked_point_count (get_masks Demo.scene) &
        size col = masked_point_count (get_masks Demo.scene)].
Proof.
move=> run.
apply: (@pointcloud_export_counts rat Demo.ext Demo.world run.2
          "./estimation/" (PyStr "box") (scene_imgs Demo.scene)
          (scene_pts3d Demo.scene) (get_masks Demo.scene)
          (scene_focals Demo.scene) (scene_im_poses Demo.scene)
          (PyNum (5 / 100)) PyNone (PyBool true) (PyBool false)
          (glb_path Demo.ext "./estimation/" (PyStr "box") (PyBool true))).
- by [].
- by rewrite /run demo_converter_run.
Defined.

Lemma mesh_export_needs_every_pointmap_witness :
  _convert_scene_output_to_glb Demo.ext "./estimation/" (PyStr "box")
    (scene_imgs Demo.scene) (take 1 (scene_pts3d Demo.scene))
    (take 1 (get_masks Demo.scene)) (scene_focals Demo.scene)
    (scene_im_poses Demo.scene) (PyNum (5 / 100)) PyNone (PyBool false)
    (PyBool false) Demo.world =
  (Raise IndexError, Demo.world).
Proof.
by apply: (@mesh_export_needs_every_pointmap rat Demo.ext Demo.world
             "./estimation/" (PyStr "box")).
Defined.

Lemma pointcloud_export_no_pointmaps_witness :
  _convert_scene_output_to_glb Demo.ext "./estimation/" (PyStr "box")
    (scene_imgs Demo.scene) [::] [::] (scene_focals Demo.scene)
    (scene_im_poses Demo.scene) (PyNum (5 / 100)) PyNone (PyBool true)
    (PyBool false) Demo.world =
  (Raise ValueError, Demo.world).
Proof.
by apply: (@pointcloud_export_no_pointmaps rat Demo.ext Demo.world
             "./estimation/" (PyStr "box")).
Defined.

Lemma export_touches_one_file_witness :
  fs_read "./estimation/box_poses.json"%string
    (files (get_3D_model_from_scene Demo.ext "./estimation/" (PyStr "box")
              (PyRef 0) (PyNum 3) (PyBool true) (PyBool false) (PyBool false)
              (PyBool false) (PyNum (5 / 100)) Demo.world).2) =
  fs_read "./estimation/box_poses.json"%string (files Demo.world).
Proof.
by apply: (@export_touches_one_file rat Demo.ext Demo.world "./estimation/"
             (PyStr "box") (PyRef 0) (PyNum 3) (PyBool true) (PyBool false)
             (PyBool false) (PyBool false) (PyNum (5 / 100))
             "./estimation/box_poses.json"%string).
Defined.

Lemma export_failure_writes_nothing_witness :
  files (get_3D_model_from_scene Demo.ext "/tmp/out" (PyRef 0) (PyNum 3)
           (PyBool false) (PyBool false) (PyBool true) (PyBool false)
           (PyNum (5 / 100)) (PyNum (5 / 100)) Demo.world).2 =
  files Demo.world.
Proof.
by apply: (@export_failure_writes_nothing rat Demo.ext Demo.world "/tmp/out"
             (PyRef 0) (PyNum 3) (PyBool false) (PyBool false) (PyBool true)
             (PyBool false) (PyNum (5 / 100)) (PyNum (5 / 100))
             AttributeError).
Defined.

Lemma export_modes_do_not_collide_witness :
  fs_read (glb_path Demo.ext "./estimation/" (PyStr "box") (PyBool false))
    (files (get_3D_model_from_scene Demo.ext "./estimation/" (PyStr "box")
              (PyRef 0) (PyNum 3) (PyBool true) (PyBool false) (PyBool false)
              (PyBool false) (PyNum (5 / 100)) Demo.world).2) =
  fs_read (glb_path Demo.ext "./estimation/" (PyStr "box") (PyBool false))
    (files Demo.world).
Proof.
by apply: (@export_modes_do_not_collide rat Demo.ext Demo.world
             "./estimation/" (PyStr "box") (PyRef 0) (PyNum 3) (PyBool true)
             (PyBool false)).
Defined.

Lemma normalised_maps_in_unit_range_witness :
  exists out,
    [/\ div_by_global_max [:: [:: 1; 2]; [:: 4; 3 : rat]] = Ok out,
        all (all (fun y => (0 <= y) && (y <= 1))) out &
        has (has (pred1 1)) out].
Proof.
by apply: (@normalised_maps_in_unit_range rat [:: [:: 1; 2]; [:: 4; 3]]).
Defined.

Lemma save_camera_poses_members_witness :
  exists members,
    [/\ fs_read (os_path_join "./estimation" "box_poses.json")
          (files (save_camera_poses [:: Demo.pose0; 1%:M]
                    [:: "a.png"; "a.png"]%string "box_poses.json"
                    Demo.world).2) =
        Some (JsonFile (JObj [:: ("extrinsics"%string, JObj members)])),
        [seq m.1 | m <- members] =
        rev (undup (rev [:: "a.png"; "a.png"]%string)),
        (size members <= size [:: Demo.pose0; 1%:M])%N &
        (size members < size [:: Demo.pose0; 1%:M])%N =
        ~~ uniq [:: "a.png"; "a.png"]%string].
Proof.
by apply: (@save_camera_poses_members rat Demo.world [:: Demo.pose0; 1%:M]
             [:: "a.png"; "a.png"]%string "box_poses.json").
Defined.

Lemma save_camera_poses_overwrites_witness :
  files (save_camera_poses [:: Demo.pose0] [:: "b.png"]%string "box_poses.json"
           (save_camera_poses [:: Demo.pose0; 1%:M]
              [:: "a.png"; "b.png"]%string "box_poses.json" Demo.world).2).2 =
  files (save_camera_poses [:: Demo.pose0] [:: "b.png"]%string "box_poses.json"
           Demo.world).2.
Proof.
by apply: (@save_camera_poses_overwrites rat Demo.world [:: Demo.pose0; 1%:M]
             [:: Demo.pose0] [:: "a.png"; "b.png"]%string [:: "b.png"]%string
             "box_poses.json").
Defined.

Lemma pose_encoding_injective_witness : Demo.pose0 = Demo.pose0.
Proof.
by apply: (@pose_encoding_injective rat Demo.pose0 Demo.pose0).
Defined.

Lemma save_point_to_ply_by_width_witness :
  exists pcd,
    [/\ save_point_to_ply Demo.points4 "box_point_cloud.ply" Demo.world =
        (Ok tt,
         mkWorld (heap Demo.world)
           (fs_write (os_path_join "./estimation/" "box_point_cloud.ply")
              (PlyFile pcd) (files Demo.world))
           (calls Demo.world)),
        size pcd = size (rows Demo.points4) &
        all (fun r => size r == 3%N) pcd].
Proof.
by apply: (@save_point_to_ply_by_width rat Demo.world Demo.points4
             "box_point_cloud.ply").
Defined.

Lemma main_writes_four_files_witness :
  let s := main_scene DemoScript.listdir DemoScript.load_model "box" 2 in
  let names := main_frame_names DemoScript.listdir "box" 2 in
  let s' := with_min_conf_thr (scene_conf_trf s 3) s in
  let run :=
    main DemoScript.listdir DemoScript.load_model DemoScript.torch_cat "box" 2
      Demo.world in
  [/\ run.1 = Ok tt,
      lookup_scene run.2 (PyRef (size (heap Demo.world))) = Ok s',
      fs_read (glb_path Demo.ext "./estimation/" (PyStr "box") (PyBool false))
        (files run.2) = Some (glb_of Demo.ext false s') /\
      fs_read (glb_path Demo.ext "./estimation/" (PyStr "box") (PyBool true))
        (files run.2) = Some (glb_of Demo.ext true s'),
      fs_read (os_path_join "./estimation" (String.append "box" "_poses.json"))
        (files run.2) =
      Some (JsonFile
              (json_dump_extrinsics
                 (foldl (@add_pose rat) [::] (zip (scene_im_poses s) names)))) &
      fs_read
        (os_path_join "./estimation/"
           (String.append "box" "_point_cloud.ply"))
        (files run.2) =
      Some (PlyFile
              [seq [:: p.1.1; p.1.2; p.2]
              | p <- flatten (scene_pts3d Demo.scene)])].
Proof.
apply: (@main_writes_four_files rat Demo.ext DemoScript.listdir
          DemoScript.load_model DemoScript.torch_cat Demo.world "box" 2
          (flatten (scene_pts3d Demo.scene))).
- exact: demo_exportable.
- by [].
- by [].
Defined.

Lemma main_stops_at_pose_count_witness :
  let s := main_scene DemoScript.listdir DemoScript.load_model "box" 3 in
  let s' := with_min_conf_thr (scene_conf_trf s 3) s in
  let run :=
    main DemoScript.listdir DemoScript.load_model DemoScript.torch_cat "box" 3
      Demo.world in
  [/\ run.1 = Raise AssertionError,
      fs_read (glb_path Demo.ext "./estimation/" (PyStr "box") (PyBool false))
        (files run.2) = Some (glb_of Demo.ext false s'),
      fs_read (glb_path Demo.ext "./estimation/" (PyStr "box") (PyBool true))
        (files run.2) = Some (glb_of Demo.ext true s'),
      fs_read (os_path_join "./estimation" (String.append "box" "_poses.json"))
        (files run.2) =
      fs_read (os_path_join "./estimation" (String.append "box" "_poses.json"))
        (files Demo.world) &
      fs_read
        (os_path_join "./estimation/"
           (String.append "box" "_point_cloud.ply"))
        (files run.2) =
      fs_read
        (os_path_join "./estimation/"
           (String.append "box" "_point_cloud.ply"))
        (files Demo.world)].
Proof.
apply: (@main_stops_at_pose_count rat Demo.ext DemoScript.listdir
          DemoScript.load_model DemoScript.torch_cat Demo.world "box" 3).
- exact: demo_exportable.
- by [].
Defined.

Lemma resize_image_resizes_in_place_witness :
  let r := Preprocess.resize_image DemoPreprocess.interpolate DemoPreprocess.fs in
  [/\ r.1 = Preprocess.Done tt,
      dict_get "sfm_data/box_images" r.2 =
      Some [seq (e.1, Preprocess.resized DemoPreprocess.interpolate e.2)
           | e <- DemoPreprocess.frames] &
      forall q, q != "sfm_data/box_images"%string ->
        dict_get q r.2 = dict_get q DemoPreprocess.fs].
Proof.
by apply: (@resize_image_resizes_in_place nat DemoPreprocess.interpolate
             DemoPreprocess.fs DemoPreprocess.frames).
Defined.

Lemma resize_image_creates_directory_witness :
  Preprocess.resize_image DemoPreprocess.interpolate [::] =
  (Preprocess.Done tt, [:: ("sfm_data/box_images"%string, [::])]).
Proof.
by apply: (@resize_image_creates_directory nat DemoPreprocess.interpolate
             [::]).
Defined.

Lemma resize_image_stops_at_unreadable_witness :
  let r :=
    Preprocess.resize_image DemoPreprocess.interpolate
      DemoPreprocess.fs_mixed in
  [/\ r.1 = Preprocess.Failed Preprocess.Cv2Error,
      dict_get "sfm_data/box_images" r.2 =
      Some ([seq (e.1, Preprocess.resized DemoPreprocess.interpolate e.2)
            | e <- [:: ("a.png"%string,
                        Preprocess.ImageFile (Preprocess.mkImage 640 480 1))]] ++
            ("notes.txt"%string, Preprocess.Other nat) ::
            [:: ("b.png"%string,
                 Preprocess.ImageFile (Preprocess.mkImage 1024 576 2))]) &
      forall q, q != "sfm_data/box_images"%string ->
        dict_get q r.2 = dict_get q DemoPreprocess.fs_mixed].
Proof.
by apply: (@resize_image_stops_at_unreadable nat DemoPreprocess.interpolate
             DemoPreprocess.fs_mixed
             [:: ("a.png"%string,
                  Preprocess.ImageFile (Preprocess.mkImage 640 480 1))]
             [:: ("b.png"%string,
                  Preprocess.ImageFile (Preprocess.mkImage 1024 576 2))]
             "notes.txt").
Defined.

Lemma saved_files_location_witness :
  fs_read "/tmp/poses.json"%string
    (files (save_camera_poses [:: Demo.pose0] [:: "a.png"%string]
              "/tmp/poses.json" Demo.world).2) =
    Some (JsonFile
            (json_dump_extrinsics
               (foldl (@add_pose rat) [::]
                  (zip [:: Demo.pose0] [:: "a.png"%string])))) /\
  fs_read "/tmp/poses.json"%string
    (files (save_point_to_ply (slice_cols3 Demo.points4) "/tmp/poses.json"
              Demo.world).2) =
    Some (PlyFile (rows (slice_cols3 Demo.points4))).
Proof.
by apply: (@saved_files_location rat Demo.world [:: Demo.pose0]
             [:: "a.png"%string] (slice_cols3 Demo.points4)
             "/tmp/poses.json").
Defined.

(** A run that reaches the gallery: three files, no threshold. The depth
    maps of the two views of the aligned scene have the maxima 2 and 4,
    and both are divided by 4. *)
Lemma demo_gallery_run :
  get_reconstructed_scene (E := Demo.ext) "/tmp/out" tt "cuda" 512
    [:: "a.png"; "b.png"; "c.png"]%string "linear" 300 PyNone (PyBool false)
    (PyBool false) (PyBool true) (PyBool false) (PyNum (5 / 100)) "complete"
    1 0 Demo.world =
  (Ok (PyRef 1, PyNone,
       [:: Color (nth [::] (scene_imgs Demo.scene) 0);
           rgb Demo.ext (Gray [:: 2 / 4; 1 / 4]);
           rgb Demo.ext (Rgba [seq cmap_jet Demo.ext (x / 5) | x <- [:: 1; 4]]);
           Color (nth [::] (scene_imgs Demo.scene) 1);
           rgb Demo.ext (Gray [:: 4 / 4; 3 / 4]);
           rgb Demo.ext (Rgba [seq cmap_jet Demo.ext (x / 5) | x <- [:: 5; 2]])]),
   world_after_alignment (E := Demo.ext) tt "cuda" 512
     [:: "a.png"; "b.png"; "c.png"]%string "linear" 300 "complete" 1 0
     Demo.world).
Proof. by []. Qed.

Lemma gallery_depth_by_global_max_witness :
  exists s M,
    [/\ lookup_scene
          (world_after_alignment (E := Demo.ext) tt "cuda" 512
             [:: "a.png"; "b.png"; "c.png"]%string "linear" 300 "complete" 1 0
             Demo.world) (PyRef 1) = Ok s,
        M \in flatten (get_depthmaps Demo.ext s),
        forall x, x \in flatten (get_depthmaps Demo.ext s) -> x <= M,
        size
          [:: Color (nth [::] (scene_imgs Demo.scene) 0);
              rgb Demo.ext (Gray [:: 2 / 4; 1 / 4]);
              rgb Demo.ext
                (Rgba [seq cmap_jet Demo.ext (x / 5) | x <- [:: 1; 4]]);
              Color (nth [::] (scene_imgs Demo.scene) 1);
              rgb Demo.ext (Gray [:: 4 / 4; 3 / 4]);
              rgb Demo.ext
                (Rgba [seq cmap_jet Demo.ext (x / 5) | x <- [:: 5; 2]])] =
        (3 * size (scene_imgs s))%N &
        M != 0 ->
        forall i, (i < size (scene_imgs s))%N ->
          nth (Gray [::])
            [:: Color (nth [::] (scene_imgs Demo.scene) 0);
                rgb Demo.ext (Gray [:: 2 / 4; 1 / 4]);
                rgb Demo.ext
                  (Rgba [seq cmap_jet Demo.ext (x / 5) | x <- [:: 1; 4]]);
                Color (nth [::] (scene_imgs Demo.scene) 1);
                rgb Demo.ext (Gray [:: 4 / 4; 3 / 4]);
                rgb Demo.ext
                  (Rgba [seq cmap_jet Demo.ext (x / 5) | x <- [:: 5; 2]])]
            (3 * i + 1) =
          rgb Demo.ext
            (Gray [seq x / M | x <- nth [::] (get_depthmaps Demo.ext s) i])].
Proof.
exact: (@gallery_depth_by_global_max rat Demo.ext _ _ _ _ _ _ _ _ _ _ _ _ _
          _ _ _ _ _ _ _ _ demo_gallery_run).
Defined.
